(** * NoisePy: acquisition stage and command-line driver

    A shallow embedding of [src/S0A_download_ASDF_MPI.py] (the function
    [download]) and of [src/noisepy/seis/main.py] ([initialize_fft_params],
    [create_raw_store], [main]), with the properties the specification
    states about them.

    Conventions.
    - Python [int] is [Z]; a Python [float] is a binary64 number, a rational
      when finite, and each operation on floats rounds to the nearest (the
      estimate of the memory needs is computed in floats).
    - An exception is a value of [exn]; a computation that may raise returns
      a [result].
    - The file system, the ASDF archives and the log of calls to the remote
      data centre are explicit state, threaded through the stateful code. *)

From Stdlib Require Import ZArith QArith Qround String Ascii List Sorted Lia.
From Stdlib Require Import DecimalString DecimalZ.
From stdpp Require Import base gmap strings list.

Local Open Scope Z_scope.

(** ** Floats, exceptions and results *)

(** A Python [float] is an IEEE 754 binary64 number: finite (it is kept as
    the rational it stands for; the sign of zero is not kept), infinite, or
    not a number. *)
Inductive binary64 : Type :=
  | Finite (q : Q)
  | Infinite (negative : bool)
  | NaN.

Inductive exn : Type :=
  | MemoryValueError (memory_size max_mem : binary64)
      (* ValueError('Require %5.3fG memory but only %5.3fG provided)! ...') *)
  | OverflowError                (* a result too large for a float *)
  | ZeroDivisionError
  | NaNValueError                (* ValueError: cannot convert float NaN *)
  | NoChunkValueError            (* ValueError('Abort! no data chunk ...') *)
  | RangeValueError              (* range() arg 3 must not be zero *)
  | ConfigError                  (* planner: bad time range or increment *)
  | IOError (path : string)
  | IndexError
  | UnboundLocalError (var : string)
  | KeyError (key : string)
  | SyntaxError
  | AssertionError (msg : string)
  | Blocked                      (* waiting for a broadcast that never comes *)
  | SystemExit.

Inductive result (A : Type) : Type :=
  | Return (a : A)
  | Raise (e : exn).
Arguments Return {A} a.
Arguments Raise {A} e.

#[global] Instance result_ret : MRet result := fun A a => Return a.
#[global] Instance result_bind : MBind result := fun A B k r =>
  match r with
  | Return a => k a
  | Raise e => Raise e
  end.

(** ** Python's [range] *)

(** [len(range(start, stop, step))] as CPython computes it. *)
Definition range_len (start stop step : Z) : nat :=
  if 0 <? step then Z.to_nat ((stop - start + step - 1) / step)
  else Z.to_nat ((start - stop - step - 1) / (- step)).

Definition py_range (start stop step : Z) : result (list Z) :=
  if step =? 0 then Raise RangeValueError
  else Return (map (fun k => start + Z.of_nat k * step)
                   (seq 0 (range_len start stop step))).

(** ** Module-level parameters of the download script (lines 52-72) *)

Definition down_list : bool := false.
Definition samp_freq : Z := 20.
Definition cc_len : Z := 1800.
Definition step : Z := 450.

(** ** Arithmetic on floats

    Every operation gives the exact result rounded to the nearest float, to
    the even one of two that are as near.  A finite float is kept as the
    rational it is; the sign of a zero, which none of the operations below
    can tell, is not kept. *)

(** [floor(log2(n/d))], for [n] and [d] positive. *)
Definition ilog2 (n d : Z) : Z :=
  let k := Z.log2 n - Z.log2 d in
  if n * 2 ^ Z.max 0 (- k) <? d * 2 ^ Z.max 0 k then k - 1 else k.

(** The integer nearest to [a/b], for [b] positive; the even one of two
    that are as near. *)
Definition round_half_even (a b : Z) : Z :=
  let q := a / b in
  match 2 * (a mod b) ?= b with
  | Lt => q
  | Gt => q + 1
  | Eq => if Z.even q then q else q + 1
  end.

(** The float nearest to the rational [x]: 53 significant bits, the unit in
    the last place being [2^e] with [e] no less than [-1074], and infinity
    from [2^1024] on. *)
Definition b64_round (x : Q) : binary64 :=
  let n := Qnum x in
  let d := Zpos (Qden x) in
  if n =? 0 then Finite 0
  else
    let e := Z.max (ilog2 (Z.abs n) d - 52) (-1074) in
    let m := round_half_even (n * 2 ^ Z.max 0 (- e)) (d * 2 ^ Z.max 0 e) in
    if 2 ^ 1024 <=? Z.abs m * 2 ^ Z.max 0 e then Infinite (n <? 0)
    else Finite (Qmake (m * 2 ^ Z.max 0 e) (Z.to_pos (2 ^ Z.max 0 (- e)))).

(** [float(k)] for an [int]. *)
Definition float_of_int (k : Z) : result binary64 :=
  match b64_round (inject_Z k) with
  | Infinite _ => Raise OverflowError
  | x => Return x
  end.

(** [a / b] for two [int]s: the quotient, correctly rounded. *)
Definition int_truediv (a b : Z) : result binary64 :=
  if b =? 0 then Raise ZeroDivisionError
  else match b64_round (inject_Z a / inject_Z b) with
       | Infinite _ => Raise OverflowError
       | x => Return x
       end.

Definition is_negative (q : Q) : bool := Qnum q <? 0.
Definition is_zero (q : Q) : bool := Qnum q =? 0.

(** [x * y], [x - y] and [x / y] for two [float]s. *)
Definition fmul (x y : binary64) : binary64 :=
  match x, y with
  | Finite a, Finite b => b64_round (a * b)
  | Finite a, Infinite s | Infinite s, Finite a =>
      if is_zero a then NaN else Infinite (xorb s (is_negative a))
  | Infinite s, Infinite t => Infinite (xorb s t)
  | _, _ => NaN
  end.

Definition fsub (x y : binary64) : binary64 :=
  match x, y with
  | Finite a, Finite b => b64_round (a - b)
  | Infinite s, Finite _ => Infinite s
  | Finite _, Infinite s => Infinite (negb s)
  | Infinite s, Infinite t => if Bool.eqb s t then NaN else Infinite s
  | _, _ => NaN
  end.

Definition fdiv (x y : binary64) : result binary64 :=
  match y with
  | Finite b =>
      if is_zero b then Raise ZeroDivisionError
      else Return match x with
                  | Finite a => b64_round (a / b)
                  | Infinite s => Infinite (xorb s (is_negative b))
                  | NaN => NaN
                  end
  | Infinite _ => Return match x with Finite _ => Finite 0 | _ => NaN end
  | NaN => Return NaN
  end.

(** [np.floor(x)] *)
Definition np_floor (x : binary64) : binary64 :=
  match x with
  | Finite a => Finite (inject_Z (Qfloor a))
  | _ => x
  end.

(** [int(x)]: towards zero. *)
Definition int_of_float (x : binary64) : result Z :=
  match x with
  | Finite a => Return (if is_negative a then Qceiling a else Qfloor a)
  | Infinite _ => Raise OverflowError
  | NaN => Raise NaNValueError
  end.

(** [x > y] *)
Definition fgt (x y : binary64) : bool :=
  match x, y with
  | Finite a, Finite b => negb (Qle_bool a b)
  | Infinite false, Finite _ | Finite _, Infinite true
  | Infinite false, Infinite true => true
  | _, _ => false
  end.

(** [MAX_MEM = 5.0] (line 72) *)
Definition MAX_MEM : binary64 := Finite 5.

(** ** Rough estimate of the memory needs (lines 175-181) *)

(** [inc_hours/24*86400] *)
Definition nsec_chunk (inc_hours : Z) : result binary64 :=
  days ← int_truediv inc_hours 24;
  day ← float_of_int 86400;
  Return (fmul days day).

(** [int(np.floor((nsec_chunk-cc_len)/step))+1] *)
Definition nseg_chunk (inc_hours : Z) : result Z :=
  nsec ← nsec_chunk inc_hours;
  len ← float_of_int cc_len;
  stp ← float_of_int step;
  windows ← fdiv (fsub nsec len) stp;
  n ← int_of_float (np_floor windows);
  Return (n + 1).

(** [int(nseg_chunk*cc_len*samp_freq)], a product of [int]s. *)
Definition npts_chunk (inc_hours : Z) : result Z :=
  nseg ← nseg_chunk inc_hours;
  Return (nseg * cc_len * samp_freq).

(** [nsta*npts_chunk*4/1024**3] *)
Definition memory_size (nsta inc_hours : Z) : result binary64 :=
  npts ← npts_chunk inc_hours;
  int_truediv (nsta * npts * 4) (1024 ^ 3).

Definition check_memory (nsta inc_hours : Z) : result unit :=
  size ← memory_size nsta inc_hours;
  if fgt size MAX_MEM then Raise (MemoryValueError size MAX_MEM)
  else Return tt.

(** Modelled from the spec: the estimated windows of a chunk,
    [floor((chunk_seconds - cc_len)/step) + 1]. *)
Definition spec_windows (chunk_seconds : Z) : Z :=
  (chunk_seconds - cc_len) / step + 1.

(** Modelled from the spec: the estimated points of a chunk, windows times
    [cc_len] times the sample rate. *)
Definition spec_points (chunk_seconds : Z) : Z :=
  spec_windows chunk_seconds * cc_len * samp_freq.

(** Modelled from the spec: the estimated bytes, the station count times
    the points times the byte width of a float32. *)
Definition spec_bytes (station_count chunk_seconds : Z) : Z :=
  station_count * spec_points chunk_seconds * 4.

(** The ceiling [MAX_MEM] of 5 GB, in bytes. *)
Definition ceiling_bytes : Z := 5 * 1024 ^ 3.

(** ** Static partition of the chunk list (lines 218-229) *)

(** [for ick in range(rank, splits, size)] with [splits = len(all_chunk)-1]. *)
Definition worker_chunks {T} (rank size : Z) (all_chunk : list T)
  : result (list Z) :=
  py_range rank (Z.of_nat (length all_chunk) - 1) size.

(** ** Python values, [str] of a dict and [eval] of its text

    The parameters of a run are kept in a [dict] whose values are strings,
    integers and floats.  A float is represented by the literal Python
    prints for it (["0.05"], ["5.0"]): [repr] of a float is the shortest
    literal that reads back as the same float, so the literal identifies the
    float.  A [str] is a sequence of bytes (UTF-8); bytes above 127 belong to
    characters that [repr] prints as they are.

    [py_str] is [str] on such a dict; [py_eval] reads the dict displays that
    [py_str] prints (the fragment of Python's expression syntax the metadata
    file is written in) and raises [SyntaxError] on anything else. *)

Local Open Scope string_scope.

Inductive PyVal : Type :=
  | PyInt (z : Z)
  | PyFloat (literal : string)
  | PyStr (s : string).

(** A dict keeps its keys in insertion order. *)
Definition PyDict : Type := list (string * PyVal).

Fixpoint dict_get (k : string) (d : PyDict) : option PyVal :=
  match d with
  | [] => None
  | (k', v) :: d' => if String.eqb k k' then Some v else dict_get k d'
  end.

(** [d[k] = v]: replaces the value of an existing key in place, else adds
    the key at the end. *)
Fixpoint dict_set (k : string) (v : PyVal) (d : PyDict) : PyDict :=
  match d with
  | [] => [(k, v)]
  | (k', v') :: d' =>
      if String.eqb k k' then (k, v) :: d' else (k', v') :: dict_set k v d'
  end.

(** [d[k]] *)
Definition dict_item (k : string) (d : PyDict) : result PyVal :=
  match dict_get k d with
  | Some v => Return v
  | None => Raise (KeyError k)
  end.

Definition squote : ascii := "'"%char.
Definition dquote : ascii := "034"%char.
Definition backslash : ascii := "\"%char.

Fixpoint str_contains (c : ascii) (s : string) : bool :=
  match s with
  | EmptyString => false
  | String c' s' => Ascii.eqb c c' || str_contains c s'
  end.

Definition hex_digit (n : N) : ascii :=
  if (n <? 10)%N then ascii_of_N (48 + n) else ascii_of_N (87 + n).

Definition hex_value (c : ascii) : option N :=
  let n := N_of_ascii c in
  if ((48 <=? n) && (n <=? 57))%N then Some (n - 48)%N
  else if ((97 <=? n) && (n <=? 102))%N then Some (n - 87)%N
  else if ((65 <=? n) && (n <=? 70))%N then Some (n - 55)%N
  else None.

(** [repr] of a [str]: double quotes when the string has a single quote and
    no double quote, single quotes otherwise. *)
Definition repr_quote (s : string) : ascii :=
  if str_contains squote s && negb (str_contains dquote s)
  then dquote else squote.

Definition repr_char (q c : ascii) : string :=
  if Ascii.eqb c backslash then String backslash (String backslash "")
  else if Ascii.eqb c q then String backslash (String q "")
  else if Ascii.eqb c "009" then String backslash "t"
  else if Ascii.eqb c "010" then String backslash "n"
  else if Ascii.eqb c "013" then String backslash "r"
  else
    let n := N_of_ascii c in
    if ((n <? 32) || (n =? 127))%N
    then String backslash
           (String "x" (String (hex_digit (n / 16)) (String (hex_digit (n mod 16)) "")))
    else String c "".

Fixpoint repr_body (q : ascii) (s : string) : string :=
  match s with
  | EmptyString => ""
  | String c s' => repr_char q c ++ repr_body q s'
  end.

Definition repr_str (s : string) : string :=
  let q := repr_quote s in
  String q (repr_body q s ++ String q "").

Definition repr_int (z : Z) : string := NilZero.string_of_int (Z.to_int z).

Definition repr_val (v : PyVal) : string :=
  match v with
  | PyInt z => repr_int z
  | PyFloat literal => literal
  | PyStr s => repr_str s
  end.

Definition repr_item (kv : string * PyVal) : string :=
  repr_str (fst kv) ++ ": " ++ repr_val (snd kv).

Fixpoint repr_items (d : PyDict) : string :=
  match d with
  | [] => ""
  | [kv] => repr_item kv
  | kv :: d' => repr_item kv ++ ", " ++ repr_items d'
  end.

(** [str(d)] *)
Definition py_str (d : PyDict) : string := "{" ++ repr_items d ++ "}".

(** Reading a string literal after its opening quote [q]: the text up to the
    closing quote, and what follows it. *)
Fixpoint parse_str_body (q : ascii) (s : string) : option (string * string) :=
  match s with
  | EmptyString => None
  | String c rest =>
      if Ascii.eqb c q then Some ("", rest)
      else if Ascii.eqb c backslash then
        match rest with
        | EmptyString => None
        | String e rest' =>
            let continue (c' : ascii) (r : option (string * string)) :=
              match r with
              | Some (body, tl) => Some (String c' body, tl)
              | None => None
              end in
            if Ascii.eqb e backslash || Ascii.eqb e squote || Ascii.eqb e dquote
            then continue e (parse_str_body q rest')
            else if Ascii.eqb e "t" then continue "009"%char (parse_str_body q rest')
            else if Ascii.eqb e "n" then continue "010"%char (parse_str_body q rest')
            else if Ascii.eqb e "r" then continue "013"%char (parse_str_body q rest')
            else if Ascii.eqb e "x" then
              match rest' with
              | String h (String l rest'') =>
                  match hex_value h, hex_value l with
                  | Some vh, Some vl =>
                      continue (ascii_of_N (16 * vh + vl)) (parse_str_body q rest'')
                  | _, _ => None
                  end
              | _ => None
              end
            else None
        end
      else if Ascii.eqb c "010" then None
      else
        match parse_str_body q rest with
        | Some (body, tl) => Some (String c body, tl)
        | None => None
        end
  end.

Definition is_digit (c : ascii) : bool :=
  let n := N_of_ascii c in ((48 <=? n) && (n <=? 57))%N.

Definition is_num_char (c : ascii) : bool :=
  is_digit c || Ascii.eqb c "-" || Ascii.eqb c "+" || Ascii.eqb c "."
  || Ascii.eqb c "e".

Fixpoint span (p : ascii -> bool) (s : string) : string * string :=
  match s with
  | EmptyString => ("", "")
  | String c s' =>
      if p c then let (tok, rest) := span p s' in (String c tok, rest)
      else ("", s)
  end.

Fixpoint str_forallb (p : ascii -> bool) (s : string) : bool :=
  match s with
  | EmptyString => true
  | String c s' => p c && str_forallb p s'
  end.

(** The literals that stand for floats: made of digits, sign, point and
    exponent mark, with a point or an exponent mark. *)
Definition is_float_literal (tok : string) : bool :=
  str_forallb is_num_char tok
  && (str_contains "." tok || str_contains "e" tok).

Definition parse_number (s : string) : option (PyVal * string) :=
  let (tok, rest) := span is_num_char s in
  if str_contains "." tok || str_contains "e" tok then Some (PyFloat tok, rest)
  else match NilZero.int_of_string tok with
       | Some i => Some (PyInt (Z.of_int i), rest)
       | None => None
       end.

Definition parse_val (s : string) : option (PyVal * string) :=
  match s with
  | EmptyString => None
  | String c rest =>
      if Ascii.eqb c squote || Ascii.eqb c dquote then
        match parse_str_body c rest with
        | Some (body, tl) => Some (PyStr body, tl)
        | None => None
        end
      else parse_number s
  end.

Definition parse_item (s : string) : option ((string * PyVal) * string) :=
  match parse_val s with
  | Some (PyStr k, String ":" (String " " rest)) =>
      match parse_val rest with
      | Some (v, tl) => Some ((k, v), tl)
      | None => None
      end
  | _ => None
  end.

(** The items of a dict display up to the closing brace, in the order they
    are written. *)
Fixpoint parse_items (fuel : nat) (s : string)
  : option (list (string * PyVal) * string) :=
  match fuel with
  | O => None
  | S fuel' =>
      match parse_item s with
      | Some (kv, String "}" tl) => Some ([kv], tl)
      | Some (kv, String "," (String " " rest)) =>
          match parse_items fuel' rest with
          | Some (kvs, tl) => Some (kv :: kvs, tl)
          | None => None
          end
      | _ => None
      end
  end.

(** A dict display is evaluated item by item, a later item replacing the
    value of an earlier one with the same key. *)
Definition dict_of_items (kvs : list (string * PyVal)) : PyDict :=
  fold_left (fun d kv => dict_set (fst kv) (snd kv) d) kvs [].

(** What may follow a number: nothing, or a character that is not part of
    a number. *)
Definition ends_number (rest : string) : Prop :=
  match rest with
  | EmptyString => True
  | String c _ => is_num_char c = false
  end.

Definition is_int_char (c : ascii) : bool := is_digit c || Ascii.eqb c "-".

(** One digit or more, then what [k] accepts. *)
Fixpoint digits_then (k : string -> bool) (seen : bool) (s : string) : bool :=
  match s with
  | EmptyString => seen && k ""
  | String c s' => if is_digit c then digits_then k true s' else seen && k s
  end.

(** Nothing, or an exponent: [e], a sign or none, digits. *)
Definition float_exponent (s : string) : bool :=
  match s with
  | EmptyString => true
  | String "e" (String c s') =>
      if Ascii.eqb c "+" || Ascii.eqb c "-"
      then digits_then (String.eqb "") false s'
      else digits_then (String.eqb "") false (String c s')
  | _ => false
  end.

(** What follows the integer part: a fraction, an exponent, or both. *)
Definition float_fraction (s : string) : bool :=
  match s with
  | String "." s' => digits_then float_exponent false s'
  | String "e" _ => float_exponent s
  | _ => false
  end.

(** The shape of what [repr] prints for a finite float ([0.05], [-2.5],
    [1e-05], [1.5e+16]), which Python reads back as a float literal. *)
Definition float_repr (tok : string) : bool :=
  digits_then float_fraction false
    match tok with String "-" s' => s' | _ => tok end.

(** The values [py_str] prints faithfully: any integer, any string, and the
    floats given by a literal of the shape [repr] prints. *)
Definition printable_val (v : PyVal) : bool :=
  match v with
  | PyFloat literal => is_float_literal literal && float_repr literal
  | _ => true
  end.

Definition printable_dict (d : PyDict) : Prop :=
  forallb (fun kv => printable_val (snd kv)) d = true /\ NoDup (map fst d).

Definition py_eval (text : string) : result PyDict :=
  match text with
  | String "{" (String "}" EmptyString) => Return []
  | String "{" body =>
      match parse_items (String.length body) body with
      | Some (kvs, EmptyString) => Return (dict_of_items kvs)
      | _ => Raise SyntaxError
      end
  | _ => Raise SyntaxError
  end.

Local Close Scope string_scope.

(** ** State and exceptions

    A computation over a state [S] that may raise: it returns its result and
    the state it leaves behind, also when it raises. *)

Definition Run (S A : Type) : Type := S -> result A * S.

#[global] Instance run_ret {S} : MRet (Run S) := fun A a s => (Return a, s).
#[global] Instance run_bind {S} : MBind (Run S) := fun A B k c s =>
  match c s with
  | (Return a, s') => k a s'
  | (Raise e, s') => (Raise e, s')
  end.

Definition raise {S A} (e : exn) : Run S A := fun s => (Raise e, s).
Definition lift {S A} (r : result A) : Run S A := fun s => (r, s).
Definition modify {S} (f : S -> S) : Run S unit := fun s => (Return tt, f s).

(** A computation that ends by raising, whatever comes before. *)
Definition raises {S A} (c : Run S A) : Prop :=
  forall s, exists e, fst (c s) = Raise e.

(** A relation between the state before and after that a computation
    keeps. *)
Definition keeps {S} (P : S -> S -> Prop) {A} (c : Run S A) : Prop :=
  forall s, P s (snd (c s)).

(** A [for] loop whose body threads a value. *)
Fixpoint for_each {S A B} (body : A -> B -> Run S B) (l : list A) (b : B)
  : Run S B :=
  match l with
  | [] => mret b
  | x :: l' => b' ← body x b; for_each body l' b'
  end.

(** ** Strings and paths *)

Local Open Scope string_scope.

Definition lower_char (c : ascii) : ascii :=
  let n := N_of_ascii c in
  if ((65 <=? n) && (n <=? 90))%N then ascii_of_N (n + 32) else c.

(** [s.lower()] on the ASCII letters. *)
Fixpoint str_lower (s : string) : string :=
  match s with
  | EmptyString => ""
  | String c s' => String (lower_char c) (str_lower s')
  end.

(** [os.path.join(a, b)] for a relative [b]. *)
Definition path_join (a b : string) : string := a ++ "/" ++ b.

(** ** obspy inventories and the station list *)

Record Channel := { location_code : string }.

Record Station := {
  sta_code : string;
  longitude : Q;
  latitude : Q;
  elevation : Q;
  sta_channels : list Channel
}.

Record Network := { net_code : string; net_stations : list Station }.

Definition Inventory : Type := list Network.

(** A waveform trace: its samples. *)
Record Trace := { tr_data : list Z }.
Definition Stream : Type := list Trace.

(** One entry of the parallel lists [net], [sta], [chan], [location], [lon],
    [lat], [elev] of [download]; [nsta] is the number of entries. *)
Record Row := {
  net : string;
  sta : string;
  chan : string;
  location : string;
  lon : Q;
  lat : Q;
  elev : Q
}.

#[global] Instance Q_eq_dec : EqDecision Q.
Proof. solve_decision. Defined.

#[global] Instance Row_eq_dec : EqDecision Row.
Proof. solve_decision. Defined.

(** ** ASDF archives and the file system *)

(** An ASDF file: the stations that have a StationXML, and the tags of the
    waveforms stored for each station. *)
Record ASDF := {
  stationxml : gset string;
  waveform_tags : gmap string (gset string)
}.

Definition empty_asdf : ASDF := {| stationxml := ∅; waveform_tags := ∅ |}.

(** [ds.waveforms.list()] *)
Definition waveforms_list (ds : ASDF) : gset string :=
  stationxml ds ∪ dom (waveform_tags ds).

(** [ds.waveforms[tname].get_waveform_tags()] *)
Definition get_waveform_tags (ds : ASDF) (tname : string) : gset string :=
  default ∅ (waveform_tags ds !! tname).

(** [ds.add_stationxml(inv)] *)
Definition add_stationxml (inv : Inventory) (ds : ASDF) : ASDF :=
  {| stationxml :=
       list_to_set
         (flat_map (fun K => map (fun tsta => net_code K ++ "." ++ sta_code tsta)
                                 (net_stations K)) inv)
       ∪ stationxml ds;
     waveform_tags := waveform_tags ds |}.

(** [ds.add_waveforms(tr, tag=tag)] for traces of the station [tname]. *)
Definition add_waveforms (tname tag : string) (ds : ASDF) : ASDF :=
  {| stationxml := stationxml ds;
     waveform_tags :=
       <[tname := {[tag]} ∪ get_waveform_tags ds tname]> (waveform_tags ds) |}.

Inductive Entry : Type :=
  | TextFile (content : string)
  | StationList (rows : list Row)        (* station.txt, written by pandas *)
  | H5File (ds : ASDF)
  | Folder.

(** The file system: the entries of each directory, by name. *)
Abbreviation FS := (gmap string (gmap string Entry)).

Definition listdir (fs : FS) (dir : string) : gmap string Entry :=
  default ∅ (fs !! dir).

Definition isdir (fs : FS) (dir : string) : bool :=
  bool_decide (is_Some (fs !! dir)).

(** [os.mkdir(dir)] where [download] calls it, under
    [if not os.path.isdir(dir)]: the new directory is empty.  The entry the
    directory gets in the listing of its parent is not kept: the listings
    are read for their files. *)
Definition mkdir (dir : string) (fs : FS) : FS := <[dir := ∅]> fs.

Definition isfile (fs : FS) (dir name : string) : bool :=
  match listdir fs dir !! name with
  | Some (TextFile _) | Some (StationList _) | Some (H5File _) => true
  | _ => false
  end.

Definition write_file (dir name : string) (e : Entry) (fs : FS) : FS :=
  <[dir := <[name := e]> (listdir fs dir)]> fs.

(** [fnmatch]: [*] is any run of characters, [?] any one character. *)
Fixpoint fnmatch (pat name : string) : bool :=
  match pat with
  | EmptyString => match name with EmptyString => true | _ => false end
  | String p pat' =>
      if Ascii.eqb p "*" then
        (fix star (n : string) : bool :=
           fnmatch pat' n
           || match n with
              | EmptyString => false
              | String _ n' => star n'
              end) name
      else
        match name with
        | EmptyString => false
        | String c name' =>
            (Ascii.eqb p "?" || Ascii.eqb p c) && fnmatch pat' name'
        end
  end.

Definition is_hidden (name : string) : bool :=
  match name with
  | String "." _ => true
  | _ => false
  end.

(** [glob.has_magic]: the path has one of the characters [*], [?] and
    [[], which make [glob] read it as a pattern. *)
Fixpoint has_magic (path : string) : bool :=
  match path with
  | EmptyString => false
  | String c path' =>
      Ascii.eqb c "*" || Ascii.eqb c "?" || Ascii.eqb c "[" || has_magic path'
  end.

(** [glob(os.path.join(dir, pat))] for a directory path [dir] without magic
    character (a path with one is itself expanded as a pattern, which is
    not modelled: what is stated of [glob] is stated for
    [has_magic dir = false]) and a pattern that does not start with a dot:
    the matching names of the directory, files and folders alike, hidden
    names left out. *)
Definition glob (fs : FS) (dir pat : string) : list string :=
  filter (fun name => negb (is_hidden name) && fnmatch pat name = true)
         (elements (dom (listdir fs dir))).

(** The directory [dir] has an entry -- a file or a folder -- whose name
    ends with a dot and [ext] and does not start with a dot. *)
Definition has_extension (fs : FS) (dir ext : string) : Prop :=
  exists name stem,
    is_Some (listdir fs dir !! name) /\
    (forall rest, name <> String "." rest) /\
    name = stem ++ "." ++ ext.

(** Modelled from the spec: the directory contains at least one file with
    the extension [ext]. *)
Definition contains_file_with_extension (fs : FS) (dir ext : string) : Prop :=
  exists name stem e,
    listdir fs dir !! name = Some e /\ e <> Folder /\
    name = stem ++ "." ++ ext.

(** A pattern without wildcards. *)
Definition is_literal (pat : string) : bool :=
  str_forallb (fun c => negb (Ascii.eqb c "*") && negb (Ascii.eqb c "?")) pat.

(** ** The data centre *)

Inductive RemoteCall : Type :=
  | GetStationsInBox (network station channel : string) (starttime endtime : Z)
  | GetStations (network station location : string) (s1 s2 : Z)
  | GetWaveforms (network station channel location : string) (s1 s2 : Z).

(** What the FDSN client and the preprocessing of [noise_module] answer;
    [None] is a raised exception. *)
Record DataCentre := {
  get_stations_in_box : string -> string -> string -> Z -> Z -> option Inventory;
  get_stations : string -> string -> string -> Z -> Z -> option Inventory;
  get_waveforms : string -> string -> string -> string -> Z -> Z -> option Stream;
  preprocess_raw : Stream -> Inventory -> PyDict -> Z * Z -> Stream;
  (* str(UTCDateTime) *)
  utc_str : Z -> string;
  (* '%Y_%m_%d_%H_%M_%S' *)
  chunk_str : Z -> string
}.

Inductive Step : Type := DOWNLOAD | CROSS_CORRELATE | STACK | ALL.

Inductive StageEvent : Type :=
  | Enter (stage : Step)
  | Leave (stage : Step).

Record World := {
  fs : FS;
  remote_calls : list RemoteCall;
  (* the stages the driver has called and the ones that have returned *)
  stage_log : list StageEvent
}.

Definition set_fs (f : FS -> FS) (w : World) : World :=
  {| fs := f (fs w); remote_calls := remote_calls w; stage_log := stage_log w |}.

Definition log_call (c : RemoteCall) (w : World) : World :=
  {| fs := fs w; remote_calls := remote_calls w ++ [c];
     stage_log := stage_log w |}.

Definition log_stage (e : StageEvent) (w : World) : World :=
  {| fs := fs w; remote_calls := remote_calls w;
     stage_log := stage_log w ++ [e] |}.

(** The entry [name] of the directory [dir] is the same after as before. *)
Definition same_entry (dir name : string) (w w' : World) : Prop :=
  listdir (fs w') dir !! name = listdir (fs w) dir !! name.

Fixpoint last_char (s : string) : option ascii :=
  match s with
  | EmptyString => None
  | String c EmptyString => Some c
  | String _ s' => last_char s'
  end.

(** The stage log is the same after as before. *)
Definition same_stages (w w' : World) : Prop := stage_log w' = stage_log w.

Local Close Scope string_scope.

(** ** The Time-Chunk Planner *)

(** Modelled from the spec: [noise_module.get_event_list], the Time-Chunk
    Planner, is called by [download] (line 215) but its source is not part
    of the sources at hand.  Following section 4.1 of the specification: the
    input is a time range and an increment in hours; the output is the
    ordered list of chunk boundaries, [floor((end-start)/increment) + 1] of
    them, one increment apart from the start of the range on; it fails with
    [ConfigError] if the increment is not positive or if the start is not
    before the end.  Instants are counted in seconds. *)
Definition get_event_list (start_date end_date inc_hours : Z)
  : result (list Z) :=
  if (inc_hours <=? 0) || (end_date <=? start_date) then Raise ConfigError
  else
    let increment := inc_hours * 3600 in
    Return (map (fun k => start_date + Z.of_nat k * increment)
                (seq 0 (Z.to_nat ((end_date - start_date) / increment) + 1))).

(** The chunk number [i] of a list of boundaries holds the instant [t]. *)
Definition in_chunk (boundaries : list Z) (i : nat) (t : Z) : Prop :=
  exists a b,
    boundaries !! i = Some a /\ boundaries !! S i = Some b /\ a <= t < b.

(** The consecutive pairs of the boundaries tile [[t0, t1)]: every instant
    of the range is in exactly one chunk, and the chunks hold nothing else. *)
Definition tiles (t0 t1 : Z) (boundaries : list Z) : Prop :=
  (forall t, t0 <= t < t1 ->
     exists i, in_chunk boundaries i t /\
               forall j, in_chunk boundaries j t -> j = i) /\
  (forall i t, in_chunk boundaries i t -> t0 <= t < t1).

(** ** The download stage ([S0A_download_ASDF_MPI.download]) *)

Local Open Scope string_scope.
Local Open Scope Z_scope.

Definition rm_resp : string := "no".
Definition net_list : list string := ["CI"].

(** [l[i]] *)
Definition py_index {A} (l : list A) (i : Z) : result A :=
  let n := Z.of_nat (length l) in
  let j := if i <? 0 then i + n else i in
  if (0 <=? j) && (j <? n) then
    match l !! Z.to_nat j with
    | Some x => Return x
    | None => Raise IndexError
    end
  else Raise IndexError.

(** A cell of the [np.int16] array [num_records] holding [z]. *)
Definition int16 (z : Z) : Z := (z + 32768) mod 65536 - 32768.

(** Lines 95-110. *)
Definition prepro_para (dc : DataCentre) (respdir : string)
    (starttime endtime inc_hours ncomp : Z) : PyDict :=
  [ ("rm_resp", PyStr rm_resp);
    ("respdir", PyStr respdir);
    ("freqmin", PyFloat "0.05");
    ("freqmax", PyInt 2);
    ("samp_freq", PyInt samp_freq);
    ("start_date", PyStr (utc_str dc starttime));
    ("end_date", PyStr (utc_str dc endtime));
    ("inc_hours", PyInt inc_hours);
    ("cc_len", PyInt cc_len);
    ("step", PyInt step);
    ("MAX_MEM", PyFloat "5.0");
    ("lamin", PyFloat "32.9");
    ("lamax", PyFloat "35.9");
    ("lomin", PyFloat "-120.7");
    ("lomax", PyFloat "-118.5");
    ("ncomp", PyInt ncomp) ].

(** The parameters [download] saves: [prepro_para] with the number of
    stations added (line 173). *)
Definition saved_para (dc : DataCentre) (rootpath : string)
    (starttime endtime inc_hours ncomp nsta : Z) : PyDict :=
  dict_set "nsta" (PyInt nsta)
    (prepro_para dc (path_join rootpath "resp") starttime endtime inc_hours
                 ncomp).

(** Line 169: the location code of the first channel of a station, ['*']
    when it is empty. *)
Definition first_location (tsta : Station) : result string :=
  match sta_channels tsta with
  | [] => Raise IndexError
  | c :: _ =>
      Return (if String.eqb (location_code c) "" then "*" else location_code c)
  end.

(** Lines 160-172: the entries one answer of the data centre adds. *)
Fixpoint rows_of_stations (kcode ichan : string) (l : list Station)
  : result (list Row) :=
  match l with
  | [] => Return []
  | tsta :: l' =>
      loc ← first_location tsta;
      rows ← rows_of_stations kcode ichan l';
      Return ({| net := kcode; sta := sta_code tsta; chan := ichan;
                 location := loc; lon := longitude tsta;
                 lat := latitude tsta; elev := elevation tsta |} :: rows)
  end.

Fixpoint rows_of_inventory (ichan : string) (inv : Inventory)
  : result (list Row) :=
  match inv with
  | [] => Return []
  | K :: inv' =>
      rows ← rows_of_stations (net_code K) ichan (net_stations K);
      rows' ← rows_of_inventory ichan inv';
      Return (rows ++ rows')%list
  end.

(** [net[ista]+'.'+sta[ista]] *)
Definition tname (row : Row) : string := net row ++ "." ++ sta row.

(** Lines 298-302. *)
Definition waveform_tag (row : Row) : string :=
  let tlocation :=
    if String.eqb (location row) "*" then "00" else location row in
  str_lower (chan row) ++ "_" ++ str_lower tlocation.

(** Lines 246-249: the number of waveform tags an existing file has for the
    station of an entry. *)
Definition count_records (rds : ASDF) (row : Row) : Z :=
  if bool_decide (tname row ∈ waveforms_list rds)
  then int16 (Z.of_nat (size (get_waveform_tags rds (tname row))))
  else 0.

Definition update_asdf (dir name : string) (f : ASDF -> ASDF) (w : World)
  : World :=
  match listdir (fs w) dir !! name with
  | Some (H5File ds) => set_fs (write_file dir name (H5File (f ds))) w
  | _ => w
  end.

(** The file of the chunk from [c1] to [c2] (line 239). *)
Definition chunk_file (dc : DataCentre) (c1 c2 : Z) : string :=
  chunk_str dc c1 ++ "T" ++ chunk_str dc c2 ++ ".h5".

Section Download.

Variable dc : DataCentre.

(** Lines 136-172 ([down_list] is [False]): the station list, from the
    data centre.  A failed request ends the process. *)
Definition gather_stations (sta_list chan_list : list string)
    (starttime endtime : Z) : Run World (list Row) :=
  for_each
    (fun (q : string * string * string) (rows : list Row) =>
       let '(inet, ista, ichan) := q in
       _ ← modify (log_call (GetStationsInBox inet ista ichan starttime endtime));
       match get_stations_in_box dc inet ista ichan starttime endtime with
       | None => raise SystemExit
       | Some inv =>
           new_rows ← lift (rows_of_inventory ichan inv);
           mret (rows ++ new_rows)%list
       end)
    (flat_map (fun inet =>
       flat_map (fun ista => map (fun ichan => (inet, ista, ichan)) chan_list)
                sta_list) net_list)
    [].

(** Lines 255-306: one turn of the loop over the entries of the station
    list, for the chunk from [s1] to [s2] kept in the file [ff] of
    [direc].  [new_tags] is the local variable of [download] of that name:
    [None] until it is first assigned. *)
Definition station_step (direc ff : string) (ncomp : Z) (para : PyDict)
    (s1 s2 : Z) (entry : Row * Z) (new_tags : option string)
  : Run World (option string) :=
  let '(row, num_records_ista) := entry in
  if num_records_ista =? ncomp then mret new_tags
  else
    _ ← modify (log_call (GetStations (net row) (sta row) (location row) s1 s2));
    match get_stations dc (net row) (sta row) (location row) s1 s2 with
    | None => mret new_tags
    | Some sta_inv =>
        _ ← modify (update_asdf direc ff (add_stationxml sta_inv));
        _ ← modify (log_call (GetWaveforms (net row) (sta row) (chan row)
                                           (location row) s1 s2));
        match get_waveforms dc (net row) (sta row) (chan row)
                            (location row) s1 s2 with
        | None => mret new_tags
        | Some tr =>
            let tr := preprocess_raw dc tr sta_inv para (s1, s2) in
            new_tags ←
              (if (0 <? length tr)%nat then
                 _ ← modify (update_asdf direc ff
                               (add_waveforms (tname row) (waveform_tag row)));
                 mret (Some (waveform_tag row))
               else mret new_tags);
            (* line 306: print(ds,new_tags) *)
            match new_tags with
            | None => raise (UnboundLocalError "new_tags")
            | Some _ => mret new_tags
            end
        end
    end.

(** Lines 236-249: open or create the file of the chunk and count what it
    already holds. *)
Definition open_chunk (direc ff : string) (roster : list Row)
  : Run World (list Z) :=
  fun w =>
    if isfile (fs w) direc ff then
      match listdir (fs w) direc !! ff with
      | Some (H5File rds) => (Return (map (count_records rds) roster), w)
      | _ => (Raise (IOError ff), w)
      end
    else
      (Return (map (fun _ => 0) roster),
       set_fs (write_file direc ff (H5File empty_asdf)) w).

(** Lines 231-306: the body of the loop over the chunks. *)
Definition process_chunk (direc : string) (roster : list Row) (ncomp : Z)
    (para : PyDict) (c1 c2 : Z) (new_tags : option string)
  : Run World (option string) :=
  let ff := chunk_file dc c1 c2 in
  num_records ← open_chunk direc ff roster;
  for_each (station_step direc ff ncomp para c1 c2)
           (zip roster num_records) new_tags.

(** Lines 193-218: what the worker of rank 0 does before the broadcast. *)
Definition coordinator_setup (rootpath direc : string) (roster : list Row)
    (para : PyDict) (start_date0 end_date0 inc_hours : Z)
  : Run World (list Z) :=
  _ ← modify (set_fs (fun fs => if isdir fs rootpath then fs else mkdir rootpath fs));
  _ ← modify (set_fs (fun fs => if isdir fs direc then fs else mkdir direc fs));
  _ ← modify (set_fs (write_file direc "station.txt" (StationList roster)));
  _ ← modify (set_fs (write_file direc "download_info.txt"
                                 (TextFile (py_str para))));
  all_chunk ← lift (get_event_list start_date0 end_date0 inc_hours);
  if (length all_chunk <? 1)%nat then raise NoChunkValueError
  else mret all_chunk.

(** [download], as the process of rank [rank] among [size] runs it.  The
    other workers receive by broadcast the chunk list the worker of rank 0
    has computed; they wait for ever when that worker has raised. *)
Definition download (rank size : Z) (rootpath : string)
    (chan_list sta_list : list string) (start_date end_date : list Z)
    (inc_hours : Z) : Run World unit :=
  let direc := path_join rootpath "RAW_DATA" in
  let respdir := path_join rootpath "resp" in
  starttime ← lift (py_index start_date 0);
  endtime ← lift (py_index end_date 0);
  let ncomp := Z.of_nat (length chan_list) in
  let para := prepro_para dc respdir starttime endtime inc_hours ncomp in
  roster ← gather_stations sta_list chan_list starttime endtime;
  let nsta := Z.of_nat (length roster) in
  let para := dict_set "nsta" (PyInt nsta) para in
  _ ← lift (check_memory nsta inc_hours);
  all_chunk ←
    (if rank =? 0
     then coordinator_setup rootpath direc roster para starttime endtime
                            inc_hours
     else match get_event_list starttime endtime inc_hours with
          | Return all_chunk =>
              if (length all_chunk <? 1)%nat then raise Blocked
              else mret all_chunk
          | Raise _ => raise Blocked
          end);
  idxs ← lift (worker_chunks rank size all_chunk);
  _ ← for_each
        (fun ick new_tags =>
           c1 ← lift (py_index all_chunk ick);
           c2 ← lift (py_index all_chunk (ick + 1));
           process_chunk direc roster ncomp para c1 c2 new_tags)
        idxs None;
  (* comm.barrier() *)
  if rank =? 0 then raise SystemExit else mret tt.

End Download.

Local Close Scope string_scope.

(** ** What a chunk does to each entry of the station list *)

Local Open Scope string_scope.
Local Open Scope Z_scope.

(** What the file of a chunk holds when the chunk is opened: nothing when
    the file is yet to be created. *)
Definition initial_asdf (w : World) (direc ff : string) : ASDF :=
  match listdir (fs w) direc !! ff with
  | Some (H5File ds) => ds
  | _ => empty_asdf
  end.

(** The file of the chunk can be opened: no entry of another kind has its
    name. *)
Definition chunk_openable (w : World) (direc ff : string) : Prop :=
  match listdir (fs w) direc !! ff with
  | Some (H5File _) | None => True
  | Some _ => False
  end.

Inductive Fate : Type :=
  | Skipped        (* the station already has [ncomp] waveform tags *)
  | FetchFailed    (* [get_stations] or [get_waveforms] raised *)
  | EmptyResult    (* preprocessing left no trace *)
  | Stored.        (* the waveform was added to the file *)

#[global] Instance Fate_eq_dec : EqDecision Fate.
Proof. solve_decision. Defined.

(** The branch of the loop body (lines 255-306) an entry takes, given the
    count [n] recorded for it in [num_records]. *)
Definition fate (dc : DataCentre) (ncomp : Z) (para : PyDict) (s1 s2 : Z)
    (entry : Row * Z) : Fate :=
  let '(row, n) := entry in
  if n =? ncomp then Skipped
  else
    match get_stations dc (net row) (sta row) (location row) s1 s2 with
    | None => FetchFailed
    | Some sta_inv =>
        match get_waveforms dc (net row) (sta row) (chan row) (location row)
                            s1 s2 with
        | None => FetchFailed
        | Some tr =>
            if (0 <? length (preprocess_raw dc tr sta_inv para (s1, s2)))%nat
            then Stored else EmptyResult
        end
    end.

(** What one turn of the loop returns, by the fate of its entry. *)
Definition step_result (dc : DataCentre) (ncomp : Z) (para : PyDict)
    (s1 s2 : Z) (e : Row * Z) (new_tags : option string)
  : result (option string) :=
  match fate dc ncomp para s1 s2 e with
  | Skipped | FetchFailed => Return new_tags
  | EmptyResult =>
      match new_tags with
      | Some _ => Return new_tags
      | None => Raise (UnboundLocalError "new_tags")
      end
  | Stored => Return (Some (waveform_tag (fst e)))
  end.

(** The fate of an entry of the station list in the chunk from [c1] to [c2],
    in the world [w] the chunk starts in. *)
Definition row_fate (dc : DataCentre) (direc : string) (ncomp : Z)
    (para : PyDict) (c1 c2 : Z) (w : World) (row : Row) : Fate :=
  fate dc ncomp para c1 c2
       (row, count_records (initial_asdf w direc (chunk_file dc c1 c2)) row).

(** The file [ff] of [direc] is an ASDF file. *)
Definition is_h5 (w : World) (direc ff : string) : Prop :=
  exists ds, listdir (fs w) direc !! ff = Some (H5File ds).

(** The waveform tags of the stations in the file [ff] of [direc]. *)
Definition tags_in (w : World) (direc ff : string) (station : string)
  : gset string :=
  get_waveform_tags (initial_asdf w direc ff) station.

(** [new_tags] is assigned. *)
Definition bound (new_tags : option string) : bool :=
  match new_tags with Some _ => true | None => false end.

(** The loop over the entries does not reach line 306 with [new_tags]
    unassigned: [bound] tells whether it is assigned at the start, and a
    stored waveform assigns it. *)
Fixpoint clean (bound : bool) (fates : list Fate) : bool :=
  match fates with
  | [] => true
  | Stored :: l => clean true l
  | EmptyResult :: l => bound && clean bound l
  | _ :: l => clean bound l
  end.

(** The waveform of the entry [row] is in the file [ff] of [direc]. *)
Definition persisted (w : World) (direc ff : string) (row : Row) : Prop :=
  exists ds,
    listdir (fs w) direc !! ff = Some (H5File ds) /\
    waveform_tag row ∈ get_waveform_tags ds (tname row).

(** Modelled from the spec: partial failure isolation.  When the remote
    fetch of exactly one entry fails, the chunk completes without error,
    every other entry is persisted, and the failed entry is left so that a
    rerun retries it: the loop of the rerun does not skip it. *)
Definition isolates_failure (dc : DataCentre) (direc : string)
    (roster : list Row) (ncomp : Z) (para : PyDict) (c1 c2 : Z)
    (new_tags : option string) (w : World) : Prop :=
  forall failed,
    failed ∈ roster ->
    row_fate dc direc ncomp para c1 c2 w failed = FetchFailed ->
    (forall r, r ∈ roster -> r <> failed ->
               row_fate dc direc ncomp para c1 c2 w r <> FetchFailed) ->
    let run := process_chunk dc direc roster ncomp para c1 c2 new_tags w in
    (exists nt, fst run = Return nt) /\
    (forall r, r ∈ roster -> r <> failed ->
               persisted (snd run) direc (chunk_file dc c1 c2) r) /\
    row_fate dc direc ncomp para c1 c2 (snd run) failed <> Skipped.

Local Close Scope string_scope.

(** ** The command-line driver ([noisepy/seis/main.py]) *)

Local Open Scope string_scope.

Module datatypes.

(** The declaration of [ConfigParameters] is in [datatypes.py], which is
    not among the sources: the record has the attributes that [main.py]
    assigns, and [other] stands for the ones it leaves alone.  The values
    [ConfigParameters()] gives them are a parameter of the driver. *)
Record ConfigParameters := {
  samp_freq : PyVal;
  freqmin : PyVal;
  freqmax : PyVal;
  start_date : PyVal;
  end_date : PyVal;
  inc_hours : PyVal;
  ncomp : PyVal;
  freq_norm : PyVal;
  other : PyDict
}.

Definition set_freq_norm (v : PyVal) (p : ConfigParameters)
  : ConfigParameters :=
  {| samp_freq := samp_freq p; freqmin := freqmin p; freqmax := freqmax p;
     start_date := start_date p; end_date := end_date p;
     inc_hours := inc_hours p; ncomp := ncomp p; freq_norm := v;
     other := other p |}.

End datatypes.

Import datatypes(ConfigParameters).

Inductive ChannelCatalog : Type :=
  | CSVChannelCatalog (dir : string)
  | FDSNChannelCatalog (url cache_dir : string).

Inductive RawDataStore : Type :=
  | ASDFRawDataStore (dir : string)
  | SCEDCS3DataStore (dir : string) (catalog : ChannelCatalog).

Inductive CCStore : Type :=
  | ASDFCCStore (dir : string).

#[global] Instance Step_eq_dec : EqDecision Step.
Proof. solve_decision. Defined.

(** The namespace [argparse] hands to [main]. *)
Record Args := {
  args_step : Step;
  args_path : string;
  args_channels : list string;
  args_stations : list string;
  args_start : Z;
  args_end : Z;
  args_inc_hours : Z;
  args_freq_norm : string;
  args_method : string
}.

(** The stages [S1_fft_cc_MPI.cross_correlate] and [S2_stacking.stack], which
    are not among the sources. *)
Record Stages := {
  cross_correlate : RawDataStore -> ConfigParameters -> CCStore -> Run World unit;
  stack : string -> string -> Run World unit
}.

(** Lines 38-50. *)
Definition initialize_fft_params (default_params : ConfigParameters)
    (fs : FS) (raw_dir : string) : result ConfigParameters :=
  let params := default_params in
  if isfile fs raw_dir "download_info.txt" then
    match listdir fs raw_dir !! "download_info.txt" with
    | Some (TextFile text) =>
        down_info ← py_eval text;
        v_samp_freq ← dict_item "samp_freq" down_info;
        v_freqmin ← dict_item "freqmin" down_info;
        v_freqmax ← dict_item "freqmax" down_info;
        v_start_date ← dict_item "start_date" down_info;
        v_end_date ← dict_item "end_date" down_info;
        v_inc_hours ← dict_item "inc_hours" down_info;
        v_ncomp ← dict_item "ncomp" down_info;
        Return {| datatypes.samp_freq := v_samp_freq;
                  datatypes.freqmin := v_freqmin;
                  datatypes.freqmax := v_freqmax;
                  datatypes.start_date := v_start_date;
                  datatypes.end_date := v_end_date;
                  datatypes.inc_hours := v_inc_hours;
                  datatypes.ncomp := v_ncomp;
                  datatypes.freq_norm := datatypes.freq_norm params;
                  datatypes.other := datatypes.other params |}
    | _ => Raise SyntaxError
    end
  else Return params.

(** Lines 53-67.  [STATION_FILE] is a constant of [constants.py] and [cwd]
    is [os.getcwd()]. *)
Definition create_raw_store (STATION_FILE cwd : string) (fs : FS)
    (raw_dir : string) : result RawDataStore :=
  let count pat := length (glob fs raw_dir pat) in
  if (0 <? count "*.h5")%nat then Return (ASDFRawDataStore raw_dir)
  else if (0 <? count "*.ms")%nat || (0 <? count "*.sac")%nat then
    let catalog :=
      if isfile fs raw_dir STATION_FILE
      then CSVChannelCatalog raw_dir
      else FDSNChannelCatalog "SCEDC" (path_join cwd "noisepy_cache") in
    Return (SCEDCS3DataStore raw_dir catalog)
  else Raise (AssertionError ("Can not find any .h5, .ms or .sac files in " ++ raw_dir)).

Section Main.

Variable dc : DataCentre.
Variable stages : Stages.
Variable default_params : ConfigParameters.
Variables STATION_FILE cwd : string.
(** The rank of the process and the number of processes. *)
Variables rank size : Z.

(** A call of a stage by [main], between the marks of its start and of
    its return. *)
Definition call_stage (stage : Step) (body : Run World unit)
  : Run World unit :=
  _ ← modify (log_stage (Enter stage));
  _ ← body;
  modify (log_stage (Leave stage)).

(** Lines 71-79. *)
Definition run_cross_correlation (args : Args) : Run World unit :=
  let raw_dir := path_join (args_path args) "RAW_DATA" in
  let ccf_dir := path_join (args_path args) "CCF" in
  fft_params ← (fun w => (initialize_fft_params default_params (fs w) raw_dir, w));
  let fft_params :=
    datatypes.set_freq_norm (PyStr (args_freq_norm args)) fft_params in
  let cc_store := ASDFCCStore ccf_dir in
  raw_store ← (fun w => (create_raw_store STATION_FILE cwd (fs w) raw_dir, w));
  cross_correlate stages raw_store fft_params cc_store.

Definition run_download (args : Args) : Run World unit :=
  download dc rank size (args_path args) (args_channels args)
           (args_stations args) [args_start args] [args_end args]
           (args_inc_hours args).

(** Lines 70-104. *)
Definition main (args : Args) : Run World unit :=
  _ ← (if decide (args_step args = DOWNLOAD)
       then call_stage DOWNLOAD (run_download args) else mret tt);
  _ ← (if decide (args_step args = CROSS_CORRELATE)
       then call_stage CROSS_CORRELATE (run_cross_correlation args)
       else mret tt);
  _ ← (if decide (args_step args = STACK)
       then call_stage STACK (stack stages (args_path args) (args_method args))
       else mret tt);
  if decide (args_step args = ALL) then
    _ ← call_stage DOWNLOAD (run_download args);
    _ ← call_stage CROSS_CORRELATE (run_cross_correlation args);
    call_stage STACK (stack stages (args_path args) (args_method args))
  else mret tt.

End Main.

Local Close Scope string_scope.

(** ** Sample runs

    A small data centre with two stations, used to run the definitions
    above on concrete inputs. *)

Module Examples.

Local Open Scope string_scope.

Definition mk_station (code : string) : Station :=
  {| sta_code := code; longitude := 0; latitude := 0; elevation := 0;
     sta_channels := [{| location_code := "" |}] |}.

Definition inventory : Inventory :=
  [{| net_code := "CI";
      net_stations := [mk_station "RPV"; mk_station "SVD"] |}].

Definition samples : Stream := [{| tr_data := [1; 2; 3]%Z |}].

(** Every request is answered, and preprocessing keeps the traces. *)
Definition dc_ok : DataCentre :=
  {| get_stations_in_box := fun _ _ _ _ _ => Some inventory;
     get_stations := fun n s _ _ _ =>
       Some [{| net_code := n; net_stations := [mk_station s] |}];
     get_waveforms := fun _ _ _ _ _ _ => Some samples;
     preprocess_raw := fun tr _ _ _ => tr;
     utc_str := repr_int;
     chunk_str := repr_int |}.

(** The waveforms of station SVD cannot be fetched. *)
Definition dc_svd_fails : DataCentre :=
  {| get_stations_in_box := get_stations_in_box dc_ok;
     get_stations := get_stations dc_ok;
     get_waveforms := fun n s c l s1 s2 =>
       if String.eqb s "SVD" then None else Some samples;
     preprocess_raw := preprocess_raw dc_ok;
     utc_str := repr_int;
     chunk_str := repr_int |}.

(** Preprocessing leaves nothing of the traces of station SVD (a day
    of gaps); the waveforms of station PASC cannot be fetched. *)
Definition dc_svd_empty : DataCentre :=
  {| get_stations_in_box := get_stations_in_box dc_ok;
     get_stations := get_stations dc_ok;
     get_waveforms := fun n s c l s1 s2 =>
       if String.eqb s "PASC" then None
       else if String.eqb s "SVD" then Some [] else Some samples;
     preprocess_raw := preprocess_raw dc_ok;
     utc_str := repr_int;
     chunk_str := repr_int |}.

(** The waveforms of the channel BHE cannot be fetched. *)
Definition dc_bhe_fails : DataCentre :=
  {| get_stations_in_box := get_stations_in_box dc_ok;
     get_stations := get_stations dc_ok;
     get_waveforms := fun n s c l s1 s2 =>
       if String.eqb c "BHE" then None else Some samples;
     preprocess_raw := preprocess_raw dc_ok;
     utc_str := repr_int;
     chunk_str := repr_int |}.

(** Preprocessing leaves nothing of any trace (a day of gaps). *)
Definition dc_gap : DataCentre :=
  {| get_stations_in_box := get_stations_in_box dc_ok;
     get_stations := get_stations dc_ok;
     get_waveforms := get_waveforms dc_ok;
     preprocess_raw := fun _ _ _ _ => [];
     utc_str := repr_int;
     chunk_str := repr_int |}.

Definition row (station channel : string) : Row :=
  {| net := "CI"; sta := station; chan := channel; location := "*";
     lon := 0; lat := 0; elev := 0 |}.

Definition empty_world : World :=
  {| fs := ∅; remote_calls := []; stage_log := [] |}.

(** The file of the first day holds, for station SVD, a waveform of an
    earlier run with another channel list. *)
Definition stale_world : World :=
  {| fs := {[ "/data/RAW_DATA" :=
                {[ "0T86400.h5" :=
                     H5File {| stationxml := ∅;
                               waveform_tags :=
                                 {[ "CI.SVD" := {[ "hhz_00" ]} ]} |} ]} ]};
     remote_calls := []; stage_log := [] |}.

Definition no_stages : Stages :=
  {| cross_correlate := fun _ _ _ => mret tt;
     stack := fun _ _ => mret tt |}.

Definition default_params : ConfigParameters :=
  {| datatypes.samp_freq := PyInt 20;
     datatypes.freqmin := PyFloat "0.05";
     datatypes.freqmax := PyFloat "2.0";
     datatypes.start_date := PyStr "";
     datatypes.end_date := PyStr "";
     datatypes.inc_hours := PyInt 24;
     datatypes.ncomp := PyInt 3;
     datatypes.freq_norm := PyStr "rma";
     datatypes.other := [] |}.

Definition args_all : Args :=
  {| args_step := ALL; args_path := "/data";
     args_channels := ["BHZ"]; args_stations := ["*"];
     args_start := 0; args_end := 86400; args_inc_hours := 24;
     args_freq_norm := "rma"; args_method := "linear" |}.

(** A directory with the given names as text files. *)
Definition dir_with (dir : string) (names : list string) : FS :=
  {[ dir := list_to_map (map (fun n => (n, TextFile "")) names) ]}.

End Examples.

(** ** The command line ([main.py], lines 107-187) *)

Local Open Scope string_scope.

Definition upper_char (c : ascii) : ascii :=
  let n := N_of_ascii c in
  if ((97 <=? n) && (n <=? 122))%N then ascii_of_N (n - 32) else c.

(** [s.upper()] on the ASCII letters; line 186 applies it to one of the
    names below, which are made of ASCII letters and underscores. *)
Fixpoint str_upper (s : string) : string :=
  match s with
  | EmptyString => ""
  | String c s' => String (upper_char c) (str_upper s')
  end.

(** [step.name] for the members of the enumeration [Step] (lines 26-30). *)
Definition Step_name (s : Step) : string :=
  match s with
  | DOWNLOAD => "DOWNLOAD"
  | CROSS_CORRELATE => "CROSS_CORRELATE"
  | STACK => "STACK"
  | ALL => "ALL"
  end.

Definition Step_members : list Step := [DOWNLOAD; CROSS_CORRELATE; STACK; ALL].

(** [Step[name]]: the member of that name, [KeyError] when there is none. *)
Definition Step_getitem (name : string) : result Step :=
  match find (fun s => String.eqb (Step_name s) name) Step_members with
  | Some s => Return s
  | None => Raise (KeyError name)
  end.

(** Line 170: the name [make_step_parser] gives the subcommand of a step. *)
Definition subcommand (s : Step) : string := str_lower (Step_name s).

(** Lines 180-183: the names of the subparsers [main_cli] registers. *)
Definition subparsers : list string := map subcommand Step_members.

(** Lines 179-186, for a command line whose first word is [cmd] and whose
    other words the subparser of [cmd] accepts: with
    [add_subparsers(dest="step", required=True)], [parse_args] ends the
    process for a word that is not the name of a subparser (the exit status,
    2, is not kept); for the others line 186 reads
    [Step[args.step.upper()]]. *)
Definition main_cli_step (cmd : string) : result Step :=
  if bool_decide (cmd ∈ subparsers) then Step_getitem (str_upper cmd)
  else Raise SystemExit.

(** [s.split(sep)] for a separator of one character (lines 124 and 130:
    [lambda s: s.split(",")]). *)
Fixpoint py_split (sep : ascii) (s : string) : list string :=
  match s with
  | EmptyString => [""]
  | String c s' =>
      if Ascii.eqb c sep then "" :: py_split sep s'
      else match py_split sep s' with
           | piece :: pieces => String c piece :: pieces
           | [] => [String c ""]
           end
  end.

(** [sep.join(pieces)] *)
Fixpoint py_join (sep : ascii) (pieces : list string) : string :=
  match pieces with
  | [] => ""
  | [piece] => piece
  | piece :: pieces' => piece ++ String sep (py_join sep pieces')
  end.

(** The number of occurrences of a character. *)
Fixpoint str_count (c : ascii) (s : string) : nat :=
  match s with
  | EmptyString => 0
  | String c' s' => (if Ascii.eqb c' c then 1 else 0) + str_count c s'
  end.

(** ** Relations between the world before and after a run *)

(** The entry [name] of [dir] when it is a file. *)
Definition file_at (fs : FS) (dir name : string) : option Entry :=
  match listdir fs dir !! name with
  | Some Folder | None => None
  | Some e => Some e
  end.

(** Outside [direc] the files are as they were: none is created, changed or
    removed. *)
Definition files_elsewhere_kept (direc : string) (w w' : World) : Prop :=
  forall dir name,
    dir <> direc -> file_at (fs w') dir name = file_at (fs w) dir name.

(** No waveform of a chunk file of [direc] is lost. *)
Definition waveforms_kept (dc : DataCentre) (direc : string) (w w' : World)
  : Prop :=
  forall c1 c2 station,
    tags_in w direc (chunk_file dc c1 c2) station
    ⊆ tags_in w' direc (chunk_file dc c1 c2) station.

(** The file system is the same. *)
Definition same_fs (w w' : World) : Prop := fs w' = fs w.

(** The keys [initialize_fft_params] reads, in the order it reads them
    (lines 43-49). *)
Definition loaded_keys : list string :=
  ["samp_freq"; "freqmin"; "freqmax"; "start_date"; "end_date"; "inc_hours";
   "ncomp"].

Local Close Scope string_scope.
(** * Properties *)

(** ** Rounding to binary64 *)

Section Rounding.

Local Open Scope Z_scope.

Lemma pow2_pos a : 0 <= a -> 0 < 2 ^ a.
Proof. intros Ha. apply Z.pow_pos_nonneg; lia. Qed.

Lemma pow2_split a b : 0 <= b <= a -> 2 ^ a = 2 ^ b * 2 ^ (a - b).
Proof.
  intros H. rewrite <- Z.pow_add_r by lia. f_equal. lia.
Qed.

Lemma pow2_le a b : 0 <= a <= b -> 2 ^ a <= 2 ^ b.
Proof. intros H. apply Z.pow_le_mono_r; lia. Qed.

Lemma ilog2_spec n d :
  0 < n -> 0 < d ->
  d * 2 ^ Z.max 0 (ilog2 n d) <= n * 2 ^ Z.max 0 (- ilog2 n d)
  < 2 * (d * 2 ^ Z.max 0 (ilog2 n d)).
Proof.
  intros Hn Hd. unfold ilog2.
  pose proof (Z.log2_spec n Hn) as [Ha1 Ha2].
  pose proof (Z.log2_spec d Hd) as [Hb1 Hb2].
  pose proof (Z.log2_nonneg n) as Ha0. pose proof (Z.log2_nonneg d) as Hb0.
  set (a := Z.log2 n) in *. set (b := Z.log2 d) in *.
  rewrite Z.pow_succ_r in Ha2, Hb2 by lia.
  pose proof (pow2_pos a Ha0) as HA. pose proof (pow2_pos b Hb0) as HB.
  cbv zeta.
  destruct (Z.le_gt_cases b a) as [Hle|Hgt].
  - replace (Z.max 0 (- (a - b))) with 0 by lia.
    replace (Z.max 0 (a - b)) with (a - b) by lia.
    pose proof (pow2_split a b ltac:(lia)) as Hab.
    destruct (Z.ltb_spec (n * 2 ^ 0) (d * 2 ^ (a - b))) as [Hlt|Hge].
    + destruct (Z.eq_dec a b) as [Heq|Hne].
      * replace (a - b - 1) with (-1) by lia.
        replace (a - b) with 0 in * by lia.
        change (Z.max 0 (-1)) with 0. change (Z.max 0 (- -1)) with 1.
        change (2 ^ 0) with 1 in *. change (2 ^ 1) with 2. lia.
      * replace (Z.max 0 (a - b - 1)) with (a - b - 1) by lia.
        replace (Z.max 0 (- (a - b - 1))) with 0 by lia.
        change (2 ^ 0) with 1 in *.
        assert (Hc : 2 ^ (a - b) = 2 * 2 ^ (a - b - 1)).
        { rewrite <- Z.pow_succ_r by lia. f_equal. lia. }
        pose proof (pow2_pos (a - b - 1) ltac:(lia)) as HC.
        set (C := 2 ^ (a - b - 1)) in *. nia.
    + replace (Z.max 0 (- (a - b))) with 0 by lia.
      replace (Z.max 0 (a - b)) with (a - b) by lia.
      change (2 ^ 0) with 1 in *.
      pose proof (pow2_pos (a - b) ltac:(lia)) as HC.
      set (C := 2 ^ (a - b)) in *.
      assert (2 ^ b * C <= d * C) by (apply Z.mul_le_mono_nonneg_r; lia).
      lia.
  - replace (Z.max 0 (a - b)) with 0 by lia.
    replace (Z.max 0 (- (a - b))) with (b - a) by lia.
    pose proof (pow2_split b a ltac:(lia)) as Hab.
    pose proof (pow2_pos (b - a) ltac:(lia)) as HC.
    destruct (Z.ltb_spec (n * 2 ^ (b - a)) (d * 2 ^ 0)) as [Hlt|Hge].
    + replace (Z.max 0 (a - b - 1)) with 0 by lia.
      replace (Z.max 0 (- (a - b - 1))) with (b - a + 1) by lia.
      rewrite Z.pow_add_r by lia. change (2 ^ 1) with 2.
      change (2 ^ 0) with 1 in *.
      set (C := 2 ^ (b - a)) in *. nia.
    + replace (Z.max 0 (a - b)) with 0 by lia.
      replace (Z.max 0 (- (a - b))) with (b - a) by lia.
      change (2 ^ 0) with 1 in *.
      set (C := 2 ^ (b - a)) in *.
      assert (n * C < 2 * 2 ^ a * C) by (apply Z.mul_lt_mono_pos_r; lia).
      nia.
Qed.

(** [2^K <= n/d] bounds [ilog2] from below, [n/d < 2^K] from above. *)
Lemma ilog2_ge n d K :
  0 < n -> 0 < d -> 0 <= K -> d * 2 ^ K <= n -> K <= ilog2 n d.
Proof.
  intros Hn Hd HK Hle. pose proof (ilog2_spec n d Hn Hd) as [_ Hup].
  destruct (Z.le_gt_cases K (ilog2 n d)) as [|Hlt]; [assumption|exfalso].
  set (k := ilog2 n d) in *. pose proof (pow2_pos K HK) as HP.
  destruct (Z.le_gt_cases 0 k) as [Hk|Hk].
  - replace (Z.max 0 k) with k in Hup by lia.
    replace (Z.max 0 (- k)) with 0 in Hup by lia. change (2 ^ 0) with 1 in Hup.
    pose proof (pow2_le (k + 1) K ltac:(lia)) as Hm.
    rewrite Z.pow_add_r in Hm by lia. change (2 ^ 1) with 2 in Hm.
    pose proof (pow2_pos k Hk). nia.
  - replace (Z.max 0 k) with 0 in Hup by lia.
    replace (Z.max 0 (- k)) with (- k) in Hup by lia. change (2 ^ 0) with 1 in Hup.
    pose proof (pow2_le 1 (- k) ltac:(lia)) as Hm. change (2 ^ 1) with 2 in Hm.
    nia.
Qed.

Lemma ilog2_ge_neg n d J :
  0 < n -> 0 < d -> 0 <= J -> d <= n * 2 ^ J -> - J <= ilog2 n d.
Proof.
  intros Hn Hd HJ Hle. pose proof (ilog2_spec n d Hn Hd) as [_ Hup].
  destruct (Z.le_gt_cases (- J) (ilog2 n d)) as [|Hlt]; [assumption|exfalso].
  set (k := ilog2 n d) in *.
  replace (Z.max 0 k) with 0 in Hup by lia.
  replace (Z.max 0 (- k)) with (- k) in Hup by lia. change (2 ^ 0) with 1 in Hup.
  pose proof (pow2_le (J + 1) (- k) ltac:(lia)) as Hm.
  rewrite Z.pow_add_r in Hm by lia. change (2 ^ 1) with 2 in Hm.
  pose proof (pow2_pos J HJ). nia.
Qed.

Lemma ilog2_lt n d K :
  0 < n -> 0 < d -> 0 <= K -> n < d * 2 ^ K -> ilog2 n d < K.
Proof.
  intros Hn Hd HK Hlt. pose proof (ilog2_spec n d Hn Hd) as [Hlow _].
  destruct (Z.le_gt_cases K (ilog2 n d)) as [Hge|]; [exfalso|assumption].
  set (k := ilog2 n d) in *.
  replace (Z.max 0 k) with k in Hlow by lia.
  replace (Z.max 0 (- k)) with 0 in Hlow by lia. change (2 ^ 0) with 1 in Hlow.
  pose proof (pow2_le K k ltac:(lia)) as Hm. pose proof (pow2_pos K HK). nia.
Qed.

(** The same bounds, both sides scaled by [2^T]. *)
Lemma ilog2_shift n d T :
  0 < n -> 0 < d -> 0 <= T -> 0 <= T + ilog2 n d ->
  d * 2 ^ (T + ilog2 n d) <= n * 2 ^ T < 2 * (d * 2 ^ (T + ilog2 n d)).
Proof.
  intros Hn Hd HT HTk. pose proof (ilog2_spec n d Hn Hd) as Hs.
  set (k := ilog2 n d) in *.
  pose proof (pow2_pos T HT) as HPT.
  destruct (Z.le_gt_cases 0 k) as [Hk0|Hk0].
  - replace (Z.max 0 k) with k in Hs by lia.
    replace (Z.max 0 (- k)) with 0 in Hs by lia. change (2 ^ 0) with 1 in Hs.
    rewrite Z.pow_add_r by lia.
    pose proof (pow2_pos k Hk0).
    set (P := 2 ^ k) in *. set (R := 2 ^ T) in *. nia.
  - replace (Z.max 0 k) with 0 in Hs by lia.
    replace (Z.max 0 (- k)) with (- k) in Hs by lia. change (2 ^ 0) with 1 in Hs.
    assert (HTs : 2 ^ T = 2 ^ (T + k) * 2 ^ (- k))
      by (rewrite <- Z.pow_add_r by lia; f_equal; lia).
    pose proof (pow2_pos (- k) ltac:(lia)). pose proof (pow2_pos (T + k) HTk).
    rewrite HTs.
    set (P := 2 ^ (- k)) in *. set (R := 2 ^ (T + k)) in *. nia.
Qed.

(** With [s = 52 - ilog2 n d] the scaled value [n * 2^s / d] has 53 bits. *)
Lemma ilog2_scaled n d :
  0 < n -> 0 < d -> ilog2 n d <= 52 ->
  d * 2 ^ 52 <= n * 2 ^ (52 - ilog2 n d) < d * 2 ^ 53.
Proof.
  intros Hn Hd Hk.
  pose proof (ilog2_shift n d (52 - ilog2 n d) Hn Hd ltac:(lia) ltac:(lia)) as H.
  replace (52 - ilog2 n d + ilog2 n d) with 52 in H by lia.
  change (2 ^ 53) with (2 * 2 ^ 52). lia.
Qed.

Lemma ilog2_scaled_up n d :
  0 < n -> 0 < d -> 52 <= ilog2 n d ->
  d * 2 ^ (ilog2 n d - 52) * 2 ^ 52 <= n
  < d * 2 ^ (ilog2 n d - 52) * 2 ^ 53.
Proof.
  intros Hn Hd Hk. pose proof (ilog2_spec n d Hn Hd) as Hs.
  set (k := ilog2 n d) in *. change (2 ^ 53) with (2 * 2 ^ 52).
  replace (Z.max 0 k) with k in Hs by lia.
  replace (Z.max 0 (- k)) with 0 in Hs by lia. change (2 ^ 0) with 1 in Hs.
  rewrite (pow2_split k 52) in Hs by lia.
  pose proof (pow2_pos (k - 52) ltac:(lia)).
  set (P := 2 ^ (k - 52)) in *. set (R := 2 ^ 52) in *.
  assert (0 < R) by (subst R; reflexivity). nia.
Qed.

(** *** The nearest integer *)

Lemma round_half_even_near a b v :
  0 < b -> 2 * Z.abs (a - v * b) < b -> round_half_even a b = v.
Proof.
  intros Hb Hnear. unfold round_half_even.
  pose proof (Z.div_mod a b ltac:(lia)) as Hdm.
  pose proof (Z.mod_pos_bound a b Hb) as Hr.
  set (q := a / b) in *. set (r := a mod b) in *.
  assert (Hq : q = v \/ q = v - 1) by nia.
  destruct Hq as [-> | ->].
  - assert (Hlt : 2 * r < b) by nia.
    apply Z.compare_lt_iff in Hlt. rewrite Hlt. reflexivity.
  - assert (Hgt : b < 2 * r) by nia.
    apply Z.compare_gt_iff in Hgt. rewrite Hgt. lia.
Qed.

Lemma round_half_even_bounds a b :
  0 < b ->
  let m := round_half_even a b in
  2 * Z.abs (a - m * b) <= b /\ a / b <= m <= a / b + 1.
Proof.
  intros Hb. unfold round_half_even.
  pose proof (Z.div_mod a b ltac:(lia)) as Hdm.
  pose proof (Z.mod_pos_bound a b Hb) as Hr.
  set (q := a / b) in *. set (r := a mod b) in *. cbv zeta.
  destruct (Z.compare_spec (2 * r) b) as [He|Hl|Hg].
  - destruct (Z.even q); split; nia.
  - split; nia.
  - split; nia.
Qed.

(** *** Rounding a value that has 53 bits or less *)

(** A rational that is [V / 2^s] up to less than half a unit in its last
    place, [2^-s], is rounded to [V / 2^s]. *)
Lemma b64_round_near (x : Q) (V : Z) :
  let n := Qnum x in
  let d := Zpos (Qden x) in
  let s := 52 - ilog2 (Z.abs n) d in
  n <> 0 -> 0 <= s <= 1074 ->
  2 * Z.abs (n * 2 ^ s - V * d) < d ->
  Z.abs V < 2 ^ 1024 ->
  b64_round x = Finite (Qmake V (Z.to_pos (2 ^ s))).
Proof.
  intros n d s Hn Hs Hnear HV. unfold b64_round. fold n d.
  destruct (Z.eqb_spec n 0) as [|_]; [contradiction|].
  replace (Z.max (ilog2 (Z.abs n) d - 52) (-1074)) with (- s) by (subst s; lia).
  replace (Z.max 0 (- - s)) with s by lia.
  replace (Z.max 0 (- s)) with 0 by lia.
  change (2 ^ 0) with 1. rewrite !Z.mul_1_r.
  rewrite (round_half_even_near (n * 2 ^ s) d V); [|reflexivity | exact Hnear].
  destruct (Z.leb_spec (2 ^ 1024) (Z.abs V)) as [Hc|_]; [lia | reflexivity].
Qed.

(** A dyadic rational [v / 2^t] with 53 bits is a float. *)
Lemma b64_round_exact (x : Q) (v t : Z) :
  Qnum x * 2 ^ t = v * Zpos (Qden x) ->
  0 <= t <= 1022 -> Z.abs v < 2 ^ 53 ->
  exists r, b64_round x = Finite r /\ (r == x)%Q.
Proof.
  intros Hx Ht Hv.
  destruct (Z.eq_dec (Qnum x) 0) as [H0|Hn].
  { exists 0%Q. unfold b64_round. rewrite H0. split; [reflexivity|].
    unfold Qeq. cbn. lia. }
  set (n := Qnum x) in *. set (d := Zpos (Qden x)) in *.
  assert (Hd : 0 < d) by (subst d; lia).
  pose proof (pow2_pos t ltac:(lia)) as HT.
  assert (Habs : Z.abs n * 2 ^ t = Z.abs v * d).
  { pose proof (f_equal Z.abs Hx) as H. rewrite !Z.abs_mul in H.
    rewrite (Z.abs_eq (2 ^ t)), (Z.abs_eq d) in H by lia. exact H. }
  assert (Hnpos : 0 < Z.abs n) by lia.
  assert (Hvpos : 0 < Z.abs v) by nia.
  set (k := ilog2 (Z.abs n) d).
  assert (Hklo : - t <= k).
  { apply ilog2_ge_neg; [lia | lia | lia |]. rewrite Habs.
    assert (1 * d <= Z.abs v * d) by (apply Z.mul_le_mono_nonneg_r; lia).
    lia. }
  assert (Hkhi : k <= 52 - t).
  { destruct (Z.le_gt_cases k (52 - t)) as [|Hgt]; [assumption|exfalso].
    pose proof (ilog2_shift (Z.abs n) d t Hnpos Hd ltac:(lia)
                            ltac:(fold k; lia)) as [Hlow _].
    fold k in Hlow.
    pose proof (pow2_le 53 (t + k) ltac:(lia)) as Hm.
    assert (Z.abs v * d < 2 ^ 53 * d) by (apply Z.mul_lt_mono_pos_r; lia).
    assert (d * 2 ^ 53 <= d * 2 ^ (t + k))
      by (apply Z.mul_le_mono_nonneg_l; lia).
    lia. }
  set (s := 52 - k).
  assert (Hst : 0 <= t <= s) by (subst s; lia).
  pose proof (pow2_split s t ltac:(lia)) as Hsplit.
  pose proof (pow2_pos (s - t) ltac:(lia)) as HR.
  pose proof (pow2_pos s ltac:(lia)) as HS.
  assert (Hscaled := ilog2_scaled (Z.abs n) d Hnpos Hd ltac:(fold k; lia)).
  fold k in Hscaled. fold s in Hscaled.
  exists (Qmake (v * 2 ^ (s - t)) (Z.to_pos (2 ^ s))). split.
  - apply (b64_round_near x (v * 2 ^ (s - t))); fold n d k s.
    + exact Hn.
    + subst s. lia.
    + replace (n * 2 ^ s - v * 2 ^ (s - t) * d) with 0; [cbn; lia|].
      rewrite Hsplit. nia.
    + assert (Z.abs (v * 2 ^ (s - t)) * d < 2 ^ 53 * d); [|nia].
      rewrite Z.abs_mul, (Z.abs_eq (2 ^ (s - t))) by lia.
      replace (Z.abs v * 2 ^ (s - t) * d) with (Z.abs n * 2 ^ s); [lia|].
      rewrite Hsplit. nia.
  - unfold Qeq. cbn [Qnum Qden]. fold n d. rewrite Z2Pos.id by lia.
    rewrite Hsplit. nia.
Qed.

(** What [b64_round] computes for a value in the range of the normal
    floats below [2^53]. *)
Lemma b64_round_unfold (x : Q) :
  let n := Qnum x in
  let d := Zpos (Qden x) in
  let s := 52 - ilog2 (Z.abs n) d in
  let m := round_half_even (n * 2 ^ s) d in
  n <> 0 -> 0 <= s <= 1074 -> Z.abs m < 2 ^ 1024 ->
  b64_round x = Finite (Qmake m (Z.to_pos (2 ^ s))).
Proof.
  intros n d s m Hn Hs Hm. unfold b64_round. fold n d.
  destruct (Z.eqb_spec n 0) as [|_]; [contradiction|].
  replace (Z.max (ilog2 (Z.abs n) d - 52) (-1074)) with (- s) by (subst s; lia).
  replace (Z.max 0 (- - s)) with s by lia.
  replace (Z.max 0 (- s)) with 0 by lia.
  change (2 ^ 0) with 1. rewrite !Z.mul_1_r. fold m.
  destruct (Z.leb_spec (2 ^ 1024) (Z.abs m)) as [Hc|_]; [lia | reflexivity].
Qed.

(** An integer below [2^53] is a float. *)
Lemma b64_round_int (x : Q) (v : Z) :
  (x == inject_Z v)%Q -> Z.abs v < 2 ^ 53 ->
  exists r, b64_round x = Finite r /\ (r == inject_Z v)%Q.
Proof.
  intros Hx Hv.
  destruct (b64_round_exact x v 0) as (r & Hr & Heq); [|lia|exact Hv|].
  - unfold Qeq in Hx. cbn in Hx. change (2 ^ 0) with 1. lia.
  - exists r. split; [exact Hr|]. rewrite Heq. exact Hx.
Qed.

(** *** Rounding is symmetric *)

Lemma round_half_even_opp a b :
  0 < b -> round_half_even (- a) b = - round_half_even a b.
Proof.
  intros Hb. unfold round_half_even.
  pose proof (Z.div_mod a b ltac:(lia)) as Hdm.
  pose proof (Z.mod_pos_bound a b Hb) as Hr.
  destruct (Z.eq_dec (a mod b) 0) as [H0|Hn0].
  - assert (Hq : - a / b = - (a / b))
      by (symmetry; apply (Z.div_unique (- a) b (- (a / b)) 0); lia).
    assert (Hm : - a mod b = 0)
      by (symmetry; apply (Z.mod_unique (- a) b (- (a / b)) 0); lia).
    rewrite Hq, Hm, H0.
    assert (Hlt : 2 * 0 < b) by lia. apply Z.compare_lt_iff in Hlt.
    rewrite Hlt. reflexivity.
  - assert (Hq : - a / b = - (a / b) - 1)
      by (symmetry;
          apply (Z.div_unique (- a) b (- (a / b) - 1) (b - a mod b)); lia).
    assert (Hm : - a mod b = b - a mod b)
      by (symmetry;
          apply (Z.mod_unique (- a) b (- (a / b) - 1) (b - a mod b)); lia).
    rewrite Hq, Hm.
    set (q := a / b) in *. set (r := a mod b) in *.
    destruct (Z.compare_spec (2 * r) b) as [He|Hl|Hg].
    + assert (Heq : 2 * (b - r) = b) by lia.
      apply Z.compare_eq_iff in Heq. rewrite Heq.
      replace (- q - 1) with (- (q + 1)) by lia.
      rewrite Z.even_opp, Z.even_add.
      destruct (Z.even q); cbn; lia.
    + assert (Hgt : b < 2 * (b - r)) by lia.
      apply Z.compare_gt_iff in Hgt. rewrite Hgt. lia.
    + assert (Hlt : 2 * (b - r) < b) by lia.
      apply Z.compare_lt_iff in Hlt. rewrite Hlt. lia.
Qed.

Lemma b64_round_opp (x y r : Q) :
  Qnum y = - Qnum x -> Qden y = Qden x ->
  b64_round x = Finite r -> b64_round y = Finite (- r).
Proof.
  destruct x as [n d], y as [n' d']. cbn [Qnum Qden]. intros -> ->.
  unfold b64_round. cbn [Qnum Qden].
  destruct (Z.eqb_spec n 0) as [->|Hn].
  - intros [= <-]. reflexivity.
  - destruct (Z.eqb_spec (- n) 0) as [|_]; [lia|].
    rewrite Z.abs_opp.
    set (e := Z.max (ilog2 (Z.abs n) (Zpos d) - 52) (-1074)).
    rewrite Z.mul_opp_l, round_half_even_opp
      by (apply Z.mul_pos_pos; [lia | apply pow2_pos; lia]).
    rewrite Z.abs_opp.
    destruct (2 ^ 1024 <=? _); [discriminate|].
    intros [= <-]. unfold Qopp. cbn [Qnum Qden]. rewrite Z.mul_opp_l.
    reflexivity.
Qed.

(** A value from 8 on, below [2^1000], is rounded to a finite float that
    is 8 at least. *)
Lemma b64_round_big (x : Q) :
  let n := Qnum x in
  let d := Zpos (Qden x) in
  8 * d <= n -> n < d * 2 ^ 1000 ->
  exists r, b64_round x = Finite r /\ (8 <= r)%Q.
Proof.
  intros n d Hlo Hhi.
  assert (Hd : 0 < d) by (subst d; lia).
  assert (Hn : 0 < n) by lia.
  set (k := ilog2 (Z.abs n) d).
  assert (Hkeq : k = ilog2 n d) by (subst k; rewrite Z.abs_eq by lia; reflexivity).
  assert (Hk : 3 <= k < 1000).
  { rewrite Hkeq. split.
    - apply ilog2_ge; [lia | lia | lia |]. change (2 ^ 3) with 8. lia.
    - apply ilog2_lt; [lia | lia | lia | exact Hhi]. }
  destruct (Z.le_gt_cases k 52) as [Hsmall|Hlarge].
  - set (s := 52 - k).
    pose proof (ilog2_scaled n d Hn Hd) as Hsc.
    rewrite <- Hkeq in Hsc. fold s in Hsc. specialize (Hsc Hsmall).
    pose proof (round_half_even_bounds (n * 2 ^ s) d Hd) as [_ Hq].
    cbv zeta in Hq. set (m := round_half_even (n * 2 ^ s) d) in *.
    assert (2 ^ 52 <= n * 2 ^ s / d) by (apply Z.div_le_lower_bound; lia).
    assert (n * 2 ^ s / d < 2 ^ 53) by (apply Z.div_lt_upper_bound; lia).
    exists (Qmake m (Z.to_pos (2 ^ s))). split.
    + apply b64_round_unfold; fold n d k s m.
      * lia.
      * subst s. lia.
      * rewrite Z.abs_eq by lia.
        assert (2 ^ 53 < 2 ^ 1024) by (apply Z.pow_lt_mono_r; lia). lia.
    + unfold Qle. cbn [Qnum Qden]. pose proof (pow2_pos s ltac:(subst s; lia)).
      rewrite Z2Pos.id by lia.
      assert (2 ^ s <= 2 ^ 49) by (apply pow2_le; subst s; lia).
      change (2 ^ 49) with 562949953421312 in *.
      change (2 ^ 52) with 4503599627370496 in *. lia.
  - set (e := k - 52).
    pose proof (ilog2_scaled_up n d Hn Hd) as Hsc.
    rewrite <- Hkeq in Hsc. fold e in Hsc. specialize (Hsc ltac:(lia)).
    pose proof (pow2_pos e ltac:(subst e; lia)) as HE.
    pose proof (round_half_even_bounds n (d * 2 ^ e) ltac:(lia)) as [_ Hq].
    cbv zeta in Hq. set (m := round_half_even n (d * 2 ^ e)) in *.
    assert (2 ^ 52 <= n / (d * 2 ^ e)) by (apply Z.div_le_lower_bound; lia).
    assert (n / (d * 2 ^ e) < 2 ^ 53) by (apply Z.div_lt_upper_bound; lia).
    exists (Qmake (m * 2 ^ e) 1). split.
    + unfold b64_round. fold n d.
      destruct (Z.eqb_spec n 0) as [|_]; [lia|]. fold k.
      replace (Z.max (k - 52) (-1074)) with e by (subst e; lia).
      replace (Z.max 0 (- e)) with 0 by lia.
      replace (Z.max 0 e) with e by lia.
      change (2 ^ 0) with 1. rewrite Z.mul_1_r. fold m.
      destruct (Z.leb_spec (2 ^ 1024) (Z.abs m * 2 ^ e)) as [Hc|_];
        [exfalso|reflexivity].
      rewrite Z.abs_eq in Hc by lia.
      assert (2 ^ e <= 2 ^ 947) by (apply pow2_le; subst e; lia).
      assert (m * 2 ^ e <= 2 ^ 53 * 2 ^ 947) by (apply Z.mul_le_mono_nonneg; lia).
      rewrite <- Z.pow_add_r in * by lia.
      assert (2 ^ (53 + 947) < 2 ^ 1024) by (apply Z.pow_lt_mono_r; lia).
      lia.
    + unfold Qle. cbn [Qnum Qden].
      assert (2 ^ 52 * 1 <= m * 2 ^ e) by (apply Z.mul_le_mono_nonneg; lia).
      change (2 ^ 52) with 4503599627370496 in *. lia.
Qed.

End Rounding.

(** ** The estimate of the memory needs *)

Section Estimate.

Local Open Scope Z_scope.

Lemma float_of_small_int (k : Z) :
  Z.abs k < 2 ^ 53 ->
  exists r, float_of_int k = Return (Finite r) /\ (r == inject_Z k)%Q.
Proof.
  intros Hk. unfold float_of_int.
  destruct (b64_round_int (inject_Z k) k) as (r & -> & Hr);
    [reflexivity | exact Hk |].
  exists r. split; [reflexivity | exact Hr].
Qed.

(** The quotient [h/24] is rounded, by 8 units of the last place over 24
    at most, and the product with 86400 rounds back to [3600 * h]. *)
Lemma nsec_chunk_exact_pos (h : Z) :
  1 <= h < 2 ^ 41 ->
  exists r, nsec_chunk h = Return (Finite r) /\ (r == inject_Z (h * 3600))%Q.
Proof.
  intros Hh. unfold nsec_chunk, int_truediv.
  change (24 =? 0) with false. cbv iota.
  set (xa := (inject_Z h / inject_Z 24)%Q).
  assert (Hna : Qnum xa = h) by (subst xa; cbn; lia).
  assert (Hda : Zpos (Qden xa) = 24) by reflexivity.
  (* the rounding of [h/24] *)
  set (ka := ilog2 (Z.abs (Qnum xa)) (Zpos (Qden xa))).
  assert (Hka : - 5 <= ka <= 36).
  { subst ka. rewrite Hna, Hda, Z.abs_eq by lia. split.
    - apply (ilog2_ge_neg h 24 5); [lia | lia | lia |].
      change (2 ^ 5) with 32. lia.
    - assert (ilog2 h 24 < 37); [|lia].
      apply ilog2_lt; [lia | lia | lia |].
      change (2 ^ 37) with 137438953472. change (2 ^ 41) with 2199023255552 in Hh.
      lia. }
  set (sa := 52 - ka).
  pose proof (pow2_pos sa ltac:(subst sa; lia)) as HP.
  assert (Hscaled : 24 * 2 ^ 52 <= h * 2 ^ sa < 24 * 2 ^ 53).
  { pose proof (ilog2_scaled h 24 ltac:(lia) ltac:(lia)) as H.
    subst sa ka. rewrite Hna, Hda, Z.abs_eq in * by lia. apply H. lia. }
  set (ma := round_half_even (Qnum xa * 2 ^ sa) (Zpos (Qden xa))).
  assert (Hma : 2 * Z.abs (h * 2 ^ sa - ma * 24) <= 24 /\ 2 ^ 52 <= ma <= 2 ^ 53).
  { pose proof (round_half_even_bounds (h * 2 ^ sa) 24 ltac:(lia)) as [Hb Hq].
    cbv zeta in Hb, Hq. subst ma. rewrite Hna, Hda. split; [exact Hb|].
    assert (2 ^ 52 <= h * 2 ^ sa / 24)
      by (apply Z.div_le_lower_bound; lia).
    assert (h * 2 ^ sa / 24 < 2 ^ 53)
      by (apply Z.div_lt_upper_bound; lia).
    lia. }
  destruct Hma as [Herr Hmab].
  assert (Hrounda : b64_round xa = Finite (Qmake ma (Z.to_pos (2 ^ sa)))).
  { apply b64_round_unfold; fold ka sa ma.
    - rewrite Hna. lia.
    - subst sa. lia.
    - rewrite Z.abs_eq by lia.
      assert (2 ^ 53 < 2 ^ 1024) by (apply Z.pow_lt_mono_r; lia). lia. }
  rewrite Hrounda. cbn [mbind result_bind].
  (* the error of [h/24], in units of [2^-sa], is a multiple of 8 *)
  assert (Hdelta : Z.abs (ma * 24 - h * 2 ^ sa) <= 8).
  { assert (Hs3 : 2 ^ sa = 8 * 2 ^ (sa - 3)).
    { change 8 with (2 ^ 3). rewrite <- Z.pow_add_r by (subst sa; lia).
      f_equal. lia. }
    rewrite Hs3 in *. set (P3 := 2 ^ (sa - 3)) in *. lia. }
  (* 86400.0 *)
  assert (H86400 : float_of_int 86400
                   = Return (Finite (5937362789990400 # 68719476736)))
    by (vm_compute; reflexivity).
  rewrite H86400. cbn [mbind result_bind]. unfold fmul.
  set (xb := (Qmake ma (Z.to_pos (2 ^ sa)) * (5937362789990400 # 68719476736))%Q).
  assert (Hnb : Qnum xb = ma * 86400 * 68719476736) by (subst xb; cbn; lia).
  assert (Hdb : Zpos (Qden xb) = 2 ^ sa * 68719476736).
  { subst xb. cbn [Qden Qmult]. rewrite Pos2Z.inj_mul, Z2Pos.id by lia.
    reflexivity. }
  set (kb := ilog2 (Z.abs (Qnum xb)) (Zpos (Qden xb))).
  assert (H68 : 2 ^ sa * 2 ^ (68 - sa) = 2 ^ 68).
  { rewrite <- Z.pow_add_r by (subst sa; lia). f_equal. lia. }
  assert (Hkb : 68 - sa <= kb <= 52).
  { subst kb. rewrite Hnb, Hdb, Z.abs_eq by lia. split.
    - apply ilog2_ge; [lia | lia | subst sa; lia |].
      replace (2 ^ sa * 68719476736 * 2 ^ (68 - sa))
        with (2 ^ 68 * 68719476736) by (rewrite <- H68; ring).
      change (2 ^ 68) with (2 ^ 52 * 65536). nia.
    - assert (ilog2 (ma * 86400 * 68719476736) (2 ^ sa * 68719476736) < 53);
        [|lia].
      apply ilog2_lt; [lia | lia | lia |].
      assert (Hsa16 : 65536 <= 2 ^ sa).
      { change 65536 with (2 ^ 16). apply pow2_le. subst sa. lia. }
      change (2 ^ 41) with 2199023255552 in Hh.
      change (2 ^ 53) with 9007199254740992.
      set (P := 2 ^ sa) in *. nia. }
  set (sb := 52 - kb).
  assert (Hsab : 2 ^ sa = 2 ^ sb * 2 ^ (sa - sb))
    by (apply pow2_split; subst sb; lia).
  pose proof (pow2_pos sb ltac:(subst sb; lia)) as HPb.
  assert (H16 : 65536 <= 2 ^ (sa - sb)).
  { change 65536 with (2 ^ 16). apply pow2_le. subst sb. lia. }
  exists (Qmake (h * 3600 * 2 ^ sb) (Z.to_pos (2 ^ sb))). split.
  - f_equal. apply (b64_round_near xb (h * 3600 * 2 ^ sb)); fold kb sb.
    + rewrite Hnb. lia.
    + subst sb. lia.
    + rewrite Hnb, Hdb, Hsab.
      set (Pb := 2 ^ sb) in *. set (R := 2 ^ (sa - sb)) in *.
      replace (ma * 86400 * 68719476736 * Pb
               - h * 3600 * Pb * (Pb * R * 68719476736))
        with (3600 * 68719476736 * Pb * (ma * 24 - h * (Pb * R))) by ring.
      rewrite <- Hsab in *. rewrite Z.abs_mul.
      rewrite (Z.abs_eq (3600 * 68719476736 * Pb)) by lia.
      assert (3600 * 68719476736 * Pb * Z.abs (ma * 24 - h * 2 ^ sa)
              <= 3600 * 68719476736 * Pb * 8)
        by (apply Z.mul_le_mono_nonneg_l; lia).
      rewrite Hsab. fold Pb R. nia.
    + rewrite Z.abs_eq by lia.
      assert (2 ^ sb <= 2 ^ 57) by (apply pow2_le; subst sb sa; lia).
      assert (2 ^ 110 < 2 ^ 1024) by (apply Z.pow_lt_mono_r; lia).
      change (2 ^ 41) with 2199023255552 in Hh.
      change (2 ^ 57) with 144115188075855872 in *.
      change (2 ^ 110) with 1298074214633706907132624082305024 in *.
      set (Pb := 2 ^ sb) in *. nia.
  - unfold Qeq. cbn [Qnum Qden inject_Z]. rewrite Z2Pos.id by lia. lia.
Qed.

(** A chunk length of the other sign gives the opposite float. *)
Lemma nsec_chunk_opp (h : Z) (r : Q) :
  nsec_chunk h = Return (Finite r) -> nsec_chunk (- h) = Return (Finite (- r)).
Proof.
  unfold nsec_chunk, int_truediv. change (24 =? 0) with false. cbv iota.
  assert (H86400 : float_of_int 86400
                   = Return (Finite (5937362789990400 # 68719476736)))
    by (vm_compute; reflexivity).
  rewrite H86400.
  destruct (b64_round (inject_Z h / inject_Z 24)) as [ra|neg|] eqn:Ea;
    cbn [mbind result_bind]; try discriminate.
  intros [= Hb].
  rewrite (b64_round_opp (inject_Z h / inject_Z 24)
                         (inject_Z (- h) / inject_Z 24) ra);
    [|cbn; lia | reflexivity | exact Ea].
  cbn [mbind result_bind]. f_equal. unfold fmul in *.
  apply (b64_round_opp (ra * (5937362789990400 # 68719476736))%Q);
    [|reflexivity | exact Hb].
  cbn [Qnum Qmult Qopp]. lia.
Qed.

(** Line 176: for a chunk of less than [2^41] hours, [inc_hours/24*86400]
    is the number of its seconds, although [inc_hours/24] is rounded. *)
Lemma nsec_chunk_exact (h : Z) :
  - 2 ^ 41 < h < 2 ^ 41 ->
  exists r, nsec_chunk h = Return (Finite r) /\ (r == inject_Z (h * 3600))%Q.
Proof.
  intros Hh.
  destruct (Z.lt_trichotomy h 0) as [Hneg|[->|Hpos]].
  - destruct (nsec_chunk_exact_pos (- h) ltac:(lia)) as (r & Hr & Heq).
    exists (- r)%Q. split.
    + rewrite <- (Z.opp_involutive h) at 1. apply nsec_chunk_opp, Hr.
    + rewrite Heq. unfold Qeq. cbn. lia.
  - exists 0%Q. split; [vm_compute; reflexivity | reflexivity].
  - apply nsec_chunk_exact_pos. lia.
Qed.

(** Line 177: the number of windows. *)
Lemma nseg_chunk_exact (h : Z) :
  - 2 ^ 41 < h < 2 ^ 41 -> nseg_chunk h = Return (8 * h - 3).
Proof.
  intros Hh. unfold nseg_chunk.
  destruct (nsec_chunk_exact h Hh) as (rb & -> & Hrb).
  cbn [mbind result_bind].
  assert (H1800 : float_of_int cc_len
                  = Return (Finite (7916483719987200 # 4398046511104)))
    by (vm_compute; reflexivity).
  assert (H450 : float_of_int step
                 = Return (Finite (7916483719987200 # 17592186044416)))
    by (vm_compute; reflexivity).
  rewrite H1800, H450. cbn [mbind result_bind]. unfold fsub.
  change (2 ^ 41) with 2199023255552 in Hh.
  destruct (b64_round_int
              (rb - (7916483719987200 # 4398046511104))%Q (h * 3600 - 1800))
    as (rc & -> & Hrc).
  { rewrite Hrb. unfold Qeq. cbn. lia. }
  { change (2 ^ 53) with 9007199254740992. lia. }
  unfold fdiv. change (is_zero (7916483719987200 # 17592186044416)) with false.
  cbv iota. cbn [mbind result_bind].
  destruct (b64_round_int
              (rc / (7916483719987200 # 17592186044416))%Q (8 * h - 4))
    as (rd & -> & Hrd).
  { rewrite Hrc. unfold Qeq, Qdiv, Qmult, Qinv. cbn [Qnum Qden inject_Z]. lia. }
  { change (2 ^ 53) with 9007199254740992. lia. }
  unfold np_floor, int_of_float. cbn [mbind result_bind].
  assert (Hfl : Qfloor rd = 8 * h - 4) by (rewrite Hrd; apply Qfloor_Z).
  rewrite Hfl.
  destruct (is_negative _); [rewrite Qceiling_Z | rewrite Qfloor_Z];
    f_equal; lia.
Qed.

Lemma spec_windows_hours (h : Z) : spec_windows (h * 3600) = 8 * h - 3.
Proof.
  unfold spec_windows, cc_len, step.
  replace (h * 3600 - 1800) with ((8 * h - 4) * 450) by lia.
  rewrite Z.div_mul by lia. lia.
Qed.

(** Lines 179-181: in the range where the windows are counted exactly, the
    estimate is a float, equal to the number of bytes over [1024^3] as long as
    that number has 53 bits, and the check passes exactly when the bytes are
    the ceiling at most. *)
Lemma check_memory_spec (nsta h : Z) :
  - 2 ^ 41 < h < 2 ^ 41 -> 0 <= nsta < 2 ^ 63 ->
  let bytes := spec_bytes nsta (h * 3600) in
  exists size,
    memory_size nsta h = Return (Finite size) /\
    (Z.abs bytes < 2 ^ 53 ->
     (size == inject_Z bytes / inject_Z (1024 ^ 3))%Q) /\
    check_memory nsta h
    = (if bytes <=? ceiling_bytes then Return tt
       else Raise (MemoryValueError (Finite size) MAX_MEM)).
Proof.
  intros Hh Hnsta bytes.
  assert (Hbytes : bytes = nsta * ((8 * h - 3) * cc_len * samp_freq) * 4).
  { subst bytes. unfold spec_bytes, spec_points.
    rewrite spec_windows_hours. reflexivity. }
  unfold check_memory, memory_size, npts_chunk.
  rewrite (nseg_chunk_exact h Hh). cbn [mbind result_bind].
  rewrite <- Hbytes. unfold int_truediv.
  change (1024 ^ 3 =? 0) with false. cbv iota.
  set (x := (inject_Z bytes / inject_Z (1024 ^ 3))%Q).
  assert (Hnx : Qnum x = bytes).
  { subst x. change (1024 ^ 3) with 1073741824.
    unfold Qdiv, Qmult, Qinv. cbn [Qnum Qden inject_Z]. lia. }
  assert (Hdx : Zpos (Qden x) = 2 ^ 30) by reflexivity.
  change (2 ^ 41) with 2199023255552 in Hh.
  change (2 ^ 63) with 9223372036854775808 in Hnsta.
  assert (Habs : Z.abs bytes < 2 ^ 130).
  { rewrite Hbytes. unfold cc_len, samp_freq.
    change (2 ^ 130) with 1361129467683753853853498429727072845824.
    apply Z.abs_lt. nia. }
  assert (H130 : 2 ^ 130 < 2 ^ 30 * 2 ^ 1000)
    by (rewrite <- Z.pow_add_r by lia; apply Z.pow_lt_mono_r; lia).
  unfold ceiling_bytes. change (5 * 1024 ^ 3) with 5368709120.
  destruct (Z.lt_ge_cases (Z.abs bytes) (2 ^ 53)) as [Hsmall|Hbig].
  - destruct (b64_round_exact x bytes 30) as (r & Hr & Hrx).
    { rewrite Hnx, Hdx. reflexivity. }
    { lia. }
    { exact Hsmall. }
    rewrite Hr. exists r. split; [reflexivity|]. split; [intros _; exact Hrx|].
    cbn [mbind result_bind]. unfold fgt, MAX_MEM.
    destruct (Z.leb_spec bytes 5368709120) as [Hle|Hgt].
    + assert (Hq : Qle_bool r 5 = true).
      { apply Qle_bool_iff. rewrite Hrx. unfold Qle. rewrite Hnx.
        change (Qnum 5) with 5. change (Zpos (Qden 5)) with 1.
        rewrite Hdx. change (2 ^ 30) with 1073741824. lia. }
      rewrite Hq. reflexivity.
    + assert (Hq : Qle_bool r 5 = false).
      { apply not_true_is_false. intros Hc. apply Qle_bool_iff in Hc.
        rewrite Hrx in Hc. unfold Qle in Hc. rewrite Hnx in Hc.
        change (Qnum 5) with 5 in Hc. change (Zpos (Qden 5)) with 1 in Hc.
        rewrite Hdx in Hc. change (2 ^ 30) with 1073741824 in Hc. lia. }
      rewrite Hq. reflexivity.
  - change (2 ^ 53) with 9007199254740992 in Hbig.
    destruct (Z.le_gt_cases 0 bytes) as [Hpos|Hneg].
    + rewrite Z.abs_eq in Hbig, Habs by lia.
      destruct (b64_round_big x) as (r & Hr & Hr8).
      { rewrite Hnx, Hdx. change (2 ^ 30) with 1073741824. lia. }
      { rewrite Hnx, Hdx. lia. }
      rewrite Hr. exists r. split; [reflexivity|].
      split; [intros Hc; change (2 ^ 53) with 9007199254740992 in Hc; lia|].
      cbn [mbind result_bind]. unfold fgt, MAX_MEM.
      assert (Hq : Qle_bool r 5 = false).
      { apply not_true_is_false. intros Hc. apply Qle_bool_iff in Hc.
        assert (H85 : (8 <= 5)%Q) by (eapply Qle_trans; eassumption).
        unfold Qle in H85. cbn in H85. lia. }
      rewrite Hq.
      destruct (Z.leb_spec bytes 5368709120) as [Hle|Hgt]; [|reflexivity].
      lia.
    + rewrite Z.abs_neq in Hbig, Habs by lia.
      destruct (b64_round_big (Qmake (- bytes) (Qden x))) as (r & Hr & Hr8).
      { cbn [Qnum Qden]. rewrite Hdx. change (2 ^ 30) with 1073741824. lia. }
      { cbn [Qnum Qden]. rewrite Hdx. lia. }
      pose proof (b64_round_opp (Qmake (- bytes) (Qden x)) x r
                    ltac:(cbn [Qnum]; lia) eq_refl Hr) as Hx.
      rewrite Hx. exists (- r)%Q. split; [reflexivity|].
      split; [intros Hc; change (2 ^ 53) with 9007199254740992 in Hc; lia|].
      cbn [mbind result_bind]. unfold fgt, MAX_MEM.
      assert (Hq : Qle_bool (- r) 5 = true).
      { apply Qle_bool_iff. apply Qle_trans with (y := (- (8))%Q).
        - apply Qopp_le_compat. exact Hr8.
        - unfold Qle. cbn. lia. }
      rewrite Hq.
      destruct (Z.leb_spec bytes 5368709120) as [Hle|Hgt]; [reflexivity|].
      lia.
Qed.

End Estimate.

(** C2, as amended.  For a chunk of less than [2^41] hours, in either
    direction, and less than [2^63] stations, the windows, the points and
    the bytes are those of the formulas; the estimate computed is a float,
    the number of bytes over [1024^3] exactly as long as that number has 53
    bits; the check returns exactly when the bytes are the ceiling at most,
    and otherwise raises the error that names the estimate and the
    ceiling. *)
Theorem memory_budget_checker (nsta inc_hours : Z) :
  - 2 ^ 41 < inc_hours < 2 ^ 41 -> 0 <= nsta < 2 ^ 63 ->
  let chunk_seconds := inc_hours * 3600 in
  let windows := (chunk_seconds - cc_len) / step + 1 in
  let points := windows * cc_len * samp_freq in
  let bytes := nsta * points * 4 in
  nseg_chunk inc_hours = Return windows /\
  npts_chunk inc_hours = Return points /\
  exists size,
    memory_size nsta inc_hours = Return (Finite size) /\
    (Z.abs bytes < 2 ^ 53 ->
     (size == inject_Z bytes / inject_Z (1024 ^ 3))%Q) /\
    (bytes <= ceiling_bytes <-> check_memory nsta inc_hours = Return tt) /\
    (ceiling_bytes < bytes <->
     check_memory nsta inc_hours
     = Raise (MemoryValueError (Finite size) MAX_MEM)).
Proof.
  intros Hh Hnsta chunk_seconds windows points bytes.
  pose proof (spec_windows_hours inc_hours) as Hwin.
  change (spec_windows (inc_hours * 3600)) with windows in Hwin.
  pose proof (nseg_chunk_exact inc_hours Hh) as Hseg. rewrite <- Hwin in Hseg.
  split; [exact Hseg|].
  split; [unfold npts_chunk; rewrite Hseg; reflexivity|].
  destruct (check_memory_spec nsta inc_hours Hh Hnsta)
    as (size & Hsize & Hexact & Hcheck).
  change (spec_bytes nsta (inc_hours * 3600)) with bytes in Hexact, Hcheck.
  exists size. split; [exact Hsize|]. split; [exact Hexact|].
  rewrite Hcheck.
  destruct (Z.leb_spec bytes ceiling_bytes) as [Hle|Hgt]; split; split;
    first [reflexivity | discriminate | lia | intros; lia].
Qed.

Lemma memory_budget_checker_witness :
  nseg_chunk 24 = Return 189 /\
  exists size,
    memory_size 1000 24 = Return (Finite size) /\
    (size == 27216000000 # 1073741824)%Q /\
    check_memory 1000 24 = Raise (MemoryValueError (Finite size) MAX_MEM).
Proof.
  destruct (memory_budget_checker 1000 24)
    as (Hseg & _ & size & Hsize & Hexact & _ & Hfail);
    [split; [lia | reflexivity] | split; [lia | reflexivity] |].
  split; [exact Hseg|]. exists size. split; [exact Hsize|]. split.
  - rewrite Hexact; [reflexivity | vm_compute; reflexivity].
  - apply Hfail. vm_compute. reflexivity.
Defined.

(** C2, as stated, fails for chunks beyond the reach of binary64.  A chunk
    of 20016057313285 hours has 160128458506277 windows by the formula and
    the code counts 160128458506276: [inc_hours/24*86400] is rounded.  And
    for [24 * 2^1024] hours without any station the bytes of the formula
    are 0, within the ceiling, but the check does not return:
    [inc_hours/24] raises [OverflowError]. *)
Lemma memory_estimate_is_binary64 :
  spec_windows (20016057313285 * 3600) = 160128458506277 /\
  nseg_chunk 20016057313285 = Return 160128458506276 /\
  spec_bytes 0 (24 * 2 ^ 1024 * 3600) <= ceiling_bytes /\
  check_memory 0 (24 * 2 ^ 1024) = Raise OverflowError.
Proof.
  split; [vm_compute; reflexivity|]. split; [vm_compute; reflexivity|].
  split; [vm_compute; discriminate | vm_compute; reflexivity].
Qed.

Section RoundRobin.

Lemma range_len_pos_spec start stop w (k : nat) :
  0 < w ->
  (k < range_len start stop w)%nat <-> start + Z.of_nat k * w < stop.
Proof.
  intros Hw. unfold range_len.
  destruct (Z.ltb_spec 0 w) as [_|]; [|lia].
  set (a := stop - start).
  replace (stop - start + w - 1) with (a + w - 1) by (unfold a; lia).
  assert (Hk : Z.of_nat k < (a + w - 1) / w <-> Z.of_nat k * w < a).
  { split; intros H.
    - assert (Z.of_nat k + 1 <= (a + w - 1) / w) as H1 by lia.
      pose proof (Z.mul_div_le (a + w - 1) w Hw). nia.
    - assert (Z.of_nat k + 1 <= (a + w - 1) / w) as H1
        by (apply Z.div_le_lower_bound; [exact Hw | nia]).
      lia. }
  split; intros H.
  - assert (Z.of_nat k * w < a) by (apply Hk; lia). unfold a in *. lia.
  - assert (Z.of_nat k < (a + w - 1) / w) by (apply Hk; unfold a; lia). lia.
Qed.

Lemma py_range_pos start stop w :
  0 < w ->
  py_range start stop w
  = Return (map (fun k => start + Z.of_nat k * w)
                (seq 0 (range_len start stop w))).
Proof.
  intros Hw. unfold py_range.
  destruct (Z.eqb_spec w 0); [lia | reflexivity].
Qed.

Lemma in_range_list start stop w i :
  0 < w ->
  In i (map (fun k => start + Z.of_nat k * w)
            (seq 0 (range_len start stop w)))
  <-> start <= i < stop /\ (i - start) mod w = 0.
Proof.
  intros Hw. rewrite in_map_iff. split.
  - intros (k & <- & Hk). apply in_seq in Hk.
    assert (Hlt : (k < range_len start stop w)%nat) by lia.
    apply range_len_pos_spec in Hlt; [|exact Hw].
    split; [nia|].
    replace (start + Z.of_nat k * w - start) with (Z.of_nat k * w) by lia.
    apply Z.mod_mul. lia.
  - intros ([Hlo Hhi] & Hmod).
    apply Z.mod_divide in Hmod; [|lia]. destruct Hmod as [q Hq].
    assert (0 <= q) by nia.
    exists (Z.to_nat q). split; [lia|].
    apply in_seq. split; [lia|]. simpl.
    apply range_len_pos_spec; [exact Hw | lia].
Qed.

Lemma range_list_sorted start w n m :
  0 < w ->
  StronglySorted Z.lt
    (map (fun k => start + Z.of_nat k * w) (seq m n)).
Proof.
  intros Hw. revert m. induction n as [|n IH]; intros m; simpl.
  - constructor.
  - constructor; [apply IH|].
    apply List.Forall_forall. intros x Hx.
    apply in_map_iff in Hx. destruct Hx as (k & <- & Hk).
    apply in_seq in Hk. nia.
Qed.

Lemma mod_shift r i w :
  0 < w -> 0 <= r < w -> ((i - r) mod w = 0 <-> i mod w = r).
Proof.
  intros Hw Hr. split; intros H.
  - apply Z.mod_divide in H; [|lia]. destruct H as [q Hq].
    replace i with (r + q * w) by lia.
    rewrite Z.mod_add by lia. apply Z.mod_small. lia.
  - rewrite <- H. rewrite Zminus_mod_idemp_r.
    rewrite Z.sub_diag. apply Z.mod_0_l. lia.
Qed.

End RoundRobin.

(** The indices of [range(rank, splits, size)]: those of [[0, splits)] that
    are [rank] modulo [size], in increasing order; each index belongs to
    one rank. *)
Lemma worker_chunks_partition {T} (all_chunk : list T) (W : Z) :
  0 < W ->
  let splits := Z.of_nat (length all_chunk) - 1 in
  (forall r, 0 <= r < W ->
     exists idxs,
       worker_chunks r W all_chunk = Return idxs /\
       (forall i, In i idxs <-> 0 <= i < splits /\ i mod W = r) /\
       StronglySorted Z.lt idxs) /\
  (forall i, 0 <= i < splits ->
     exists r,
       0 <= r < W /\
       (exists idxs, worker_chunks r W all_chunk = Return idxs /\ In i idxs) /\
       (forall r' idxs', 0 <= r' < W ->
          worker_chunks r' W all_chunk = Return idxs' -> In i idxs' -> r' = r)).
Proof.
  intros HW splits.
  assert (Hmem : forall r i, 0 <= r < W ->
            In i (map (fun k => r + Z.of_nat k * W)
                      (seq 0 (range_len r splits W)))
            <-> 0 <= i < splits /\ i mod W = r).
  { intros r i Hr. rewrite in_range_list by exact HW.
    rewrite mod_shift by lia. split.
    - intros [[H1 H2] H3]. split; [lia | exact H3].
    - intros [[H1 H2] H3]. split; [|exact H3].
      pose proof (Z.mod_le i W ltac:(lia) HW). lia. }
  split.
  - intros r Hr. eexists. split; [apply py_range_pos; exact HW|].
    split; [intros i; apply Hmem; exact Hr|].
    apply range_list_sorted; exact HW.
  - intros i Hi. exists (i mod W).
    pose proof (Z.mod_pos_bound i W HW) as Hb.
    split; [lia|]. split.
    + eexists. split; [apply py_range_pos; exact HW|].
      apply Hmem; [lia|]. split; [lia | reflexivity].
    + intros r' idxs' Hr' Hrun Hin.
      unfold worker_chunks in Hrun. fold splits in Hrun.
      rewrite py_range_pos in Hrun by exact HW.
      injection Hrun as <-. apply Hmem in Hin; [|exact Hr']. lia.
Qed.

(** ** Runs: results and the stage log *)

Section RunFacts.

Context {S : Type}.

Lemma bind_run {A B} (c : Run S A) (k : A -> Run S B) s :
  (c ≫= k) s
  = match c s with
    | (Return a, s') => k a s'
    | (Raise e, s') => (Raise e, s')
    end.
Proof. reflexivity. Qed.

Lemma ret_bind_run {A B} (a : A) (k : A -> Run S B) s :
  (mret a ≫= k) s = k a s.
Proof. reflexivity. Qed.

Lemma modify_bind_run {B} (f : S -> S) (k : unit -> Run S B) s :
  (modify f ≫= k) s = k tt (f s).
Proof. reflexivity. Qed.

Lemma lift_bind_run {A B} (r : result A) (k : A -> Run S B) s :
  (lift r ≫= k) s
  = match r with
    | Return a => k a s
    | Raise e => (Raise e, s)
    end.
Proof. destruct r; reflexivity. Qed.

Lemma raises_bind {A B} (c : Run S A) (k : A -> Run S B) :
  (forall a, raises (k a)) -> raises (c ≫= k).
Proof.
  intros Hk s. rewrite bind_run.
  destruct (c s) as [[a|e] s']; [apply Hk | exists e; reflexivity].
Qed.

Lemma raises_raise {A} e : raises (raise (S := S) (A := A) e).
Proof. intros s. exists e. reflexivity. Qed.

Variable P : S -> S -> Prop.
Hypothesis P_refl : forall s, P s s.
Hypothesis P_trans : forall s1 s2 s3, P s1 s2 -> P s2 s3 -> P s1 s3.

Lemma keeps_ret {A} (a : A) : keeps P (mret a).
Proof. intros s. apply P_refl. Qed.

Lemma keeps_raise {A} e : keeps P (raise (S := S) (A := A) e).
Proof. intros s. apply P_refl. Qed.

Lemma keeps_lift {A} (r : result A) : keeps P (lift r).
Proof. intros s. apply P_refl. Qed.

Lemma keeps_bind {A B} (c : Run S A) (k : A -> Run S B) :
  keeps P c -> (forall a, keeps P (k a)) -> keeps P (c ≫= k).
Proof.
  intros Hc Hk s. rewrite bind_run. specialize (Hc s).
  destruct (c s) as [[a|e] s']; simpl in *; [|exact Hc].
  eapply P_trans; [exact Hc | apply Hk].
Qed.

Lemma keeps_for_each {A B} (body : A -> B -> Run S B) l b :
  (forall x b, keeps P (body x b)) -> keeps P (for_each body l b).
Proof.
  intros Hbody. revert b. induction l as [|x l IH]; intros b; simpl.
  - apply keeps_ret.
  - apply keeps_bind; [apply Hbody | intros b'; apply IH].
Qed.

End RunFacts.

(** ** The driver: what a run of [all] does on the worker of rank 0 *)

Section StageLog.

Variable dc : DataCentre.

Create HintDb stages.

Lemma same_stages_refl w : same_stages w w.
Proof. reflexivity. Qed.

Lemma same_stages_trans w1 w2 w3 :
  same_stages w1 w2 -> same_stages w2 w3 -> same_stages w1 w3.
Proof. unfold same_stages. congruence. Qed.

Lemma update_asdf_stages dir name f w :
  stage_log (update_asdf dir name f w) = stage_log w.
Proof.
  unfold update_asdf. destruct (listdir (fs w) dir !! name) as [[]|]; reflexivity.
Qed.

Lemma open_chunk_stages direc ff roster :
  keeps same_stages (open_chunk direc ff roster).
Proof.
  intros w. unfold open_chunk.
  destruct (isfile _ _ _); [|reflexivity].
  destruct (listdir (fs w) direc !! _) as [[]|]; reflexivity.
Qed.

(** The steps of [download] are built from a few primitives, none of
    which touches the stage log. *)
Ltac keep_stages :=
  repeat first
    [ solve [auto 1 with stages nocore]
    | apply keeps_ret; exact same_stages_refl
    | apply keeps_raise; exact same_stages_refl
    | apply keeps_lift; exact same_stages_refl
    | apply open_chunk_stages
    | apply keeps_for_each;
        [exact same_stages_refl | exact same_stages_trans | intros ? ?]
    | apply keeps_bind; [exact same_stages_trans | | intros ?]
    | match goal with
      | |- keeps _ (modify (update_asdf _ _ _)) =>
          intros ?; apply update_asdf_stages
      | |- keeps _ (modify _) => intros ?; reflexivity
      | |- keeps _ (match ?x with _ => _ end) => destruct x
      | |- keeps _ (let '(_, _) := ?x in _) => destruct x
      end ].

Lemma station_step_stages direc ff ncomp para s1 s2 entry new_tags :
  keeps same_stages (station_step dc direc ff ncomp para s1 s2 entry new_tags).
Proof. unfold station_step. keep_stages. Qed.
Local Hint Resolve station_step_stages : stages.

Lemma process_chunk_stages direc roster ncomp para c1 c2 new_tags :
  keeps same_stages (process_chunk dc direc roster ncomp para c1 c2 new_tags).
Proof.
  unfold process_chunk. keep_stages.
Qed.
Local Hint Resolve process_chunk_stages : stages.

Lemma gather_stations_stages sta_list chan_list t0 t1 :
  keeps same_stages (gather_stations dc sta_list chan_list t0 t1).
Proof. unfold gather_stations. keep_stages. Qed.
Local Hint Resolve gather_stations_stages : stages.

Lemma download_stages rank size rootpath chan_list sta_list
      start_date end_date inc_hours :
  keeps same_stages
    (download dc rank size rootpath chan_list sta_list start_date end_date
              inc_hours).
Proof.
  unfold download, coordinator_setup. keep_stages.
Qed.

(** On the worker of rank 0 [download] ends with [sys.exit()] (lines
    311-313): it never returns to its caller. *)
Lemma download_rank0_raises size rootpath chan_list sta_list
      start_date end_date inc_hours :
  raises (download dc 0 size rootpath chan_list sta_list start_date end_date
                   inc_hours).
Proof.
  unfold download.
  repeat (apply raises_bind; intros ?).
  simpl. apply raises_raise.
Qed.

End StageLog.

(** C3. On the worker of rank 0 (the only worker of a run on one process),
    [main] called with the step [all] starts the download stage and is ended
    by the exception the download raises: no later stage is started. *)
Theorem all_stops_after_download dc stages default_params STATION_FILE cwd
    size args w :
  args_step args = ALL ->
  let run := main dc stages default_params STATION_FILE cwd 0 size args w in
  (exists e, fst run = Raise e) /\
  stage_log (snd run) = stage_log w ++ [Enter DOWNLOAD].
Proof.
  intros Hstep run.
  set (d := run_download dc 0 size args).
  destruct (download_rank0_raises dc size (args_path args)
              (args_channels args) (args_stations args)
              [args_start args] [args_end args] (args_inc_hours args)
              (log_stage (Enter DOWNLOAD) w)) as [ex Hex].
  pose proof (download_stages dc 0 size (args_path args)
                (args_channels args) (args_stations args)
                [args_start args] [args_end args] (args_inc_hours args)
                (log_stage (Enter DOWNLOAD) w)) as Hlog.
  unfold same_stages in Hlog. fold (run_download dc 0 size args) in Hex, Hlog.
  fold d in Hex, Hlog.
  destruct (d (log_stage (Enter DOWNLOAD) w)) as [r w'] eqn:Hd.
  simpl in Hex, Hlog. subst r.
  assert (Hcall : call_stage DOWNLOAD d w = (Raise ex, w')).
  { unfold call_stage. rewrite bind_run. simpl.
    rewrite bind_run, Hd. reflexivity. }
  assert (Hrun : run = (Raise ex, w')).
  { subst run. unfold main. rewrite Hstep.
    repeat (destruct (decide _) as [?|?]; try discriminate; try contradiction).
    fold d. rewrite !ret_bind_run, bind_run, Hcall. reflexivity. }
  rewrite Hrun. simpl. split; [exists ex; reflexivity | exact Hlog].
Qed.

Lemma all_stops_after_download_witness :
  let run := main Examples.dc_ok Examples.no_stages Examples.default_params
                  "station.txt" "/home" 0 1 Examples.args_all
                  Examples.empty_world in
  fst run = Raise SystemExit /\
  ((exists e, fst run = Raise e) /\
   stage_log (snd run) = [Enter DOWNLOAD]).
Proof.
  split; [vm_compute; reflexivity|].
  apply (all_stops_after_download Examples.dc_ok Examples.no_stages
           Examples.default_params "station.txt" "/home" 1 Examples.args_all
           Examples.empty_world).
  reflexivity.
Defined.

(** ** The choice of the raw data store *)

Section Glob.

Local Open Scope string_scope.

Lemma fnmatch_literal lit name :
  is_literal lit = true -> (fnmatch lit name = true <-> name = lit).
Proof.
  revert name. induction lit as [|p lit IH]; intros name Hlit.
  - destruct name; simpl; split; intros; try discriminate; reflexivity.
  - simpl in Hlit. apply andb_prop in Hlit as [Hp Hlit].
    apply andb_prop in Hp as [Hstar Hq].
    apply negb_true_iff in Hstar, Hq.
    simpl. rewrite Hstar, Hq. simpl.
    destruct name as [|c name]; [split; intros; discriminate|].
    rewrite andb_true_iff, (IH name Hlit).
    destruct (Ascii.eqb_spec p c) as [->|Hne]; split.
    + intros [_ ->]. reflexivity.
    + intros [= ->]. split; reflexivity.
    + intros [[=] _].
    + intros [= -> ->]. contradiction.
Qed.

Lemma fnmatch_star lit name :
  is_literal lit = true ->
  (fnmatch (String "*" lit) name = true <-> exists stem, name = stem ++ lit).
Proof.
  intros Hlit.
  change (fnmatch (String "*" lit) name)
    with ((fix star (n : string) : bool :=
             fnmatch lit n
             || match n with
                | EmptyString => false
                | String _ n' => star n'
                end) name).
  induction name as [|c name IH].
  - rewrite orb_false_r, (fnmatch_literal lit "" Hlit). split.
    + intros <-. exists "". reflexivity.
    + intros [stem H]. destruct stem; simpl in H; [exact H | discriminate].
  - rewrite orb_true_iff, IH, (fnmatch_literal lit _ Hlit). split.
    + intros [->|[stem ->]]; [exists "" | exists (String c stem)]; reflexivity.
    + intros [stem H]. destruct stem as [|c' stem]; simpl in H.
      * left. exact H.
      * right. exists stem. injection H as _ H. exact H.
Qed.

Lemma is_hidden_false name :
  is_hidden name = false <-> forall rest, name <> String "." rest.
Proof.
  destruct name as [|c name]; [split; [discriminate | reflexivity]|].
  destruct (Ascii.eqb_spec c ".") as [->|Hne].
  - change (is_hidden (String "." name)) with true.
    split; [discriminate|]. intros H. destruct (H name). reflexivity.
  - assert (Hc : is_hidden (String c name) = false).
    { destruct c as [[] [] [] [] [] [] [] []]; first [reflexivity | contradiction]. }
    rewrite Hc. split; [|reflexivity]. intros _ rest [= -> _]. contradiction.
Qed.

Lemma glob_count fs dir ext :
  is_literal ("." ++ ext) = true ->
  ((0 <? length (glob fs dir ("*." ++ ext)))%nat = true
   <-> has_extension fs dir ext).
Proof.
  intros Hlit. rewrite Nat.ltb_lt. unfold glob, has_extension. split.
  - intros Hlen.
    destruct (filter _ _) as [|name l] eqn:Hf; [simpl in Hlen; lia|].
    assert (Hin : name ∈ name :: l) by apply list_elem_of_here.
    rewrite <- Hf in Hin. apply list_elem_of_filter in Hin as [Hp Hdom].
    apply andb_prop in Hp as [Hh Hm]. apply negb_true_iff in Hh.
    pose proof (proj1 (is_hidden_false name) Hh) as Hvisible.
    apply (fnmatch_star ("." ++ ext) name Hlit) in Hm as [stem ->].
    exists (stem ++ "." ++ ext), stem.
    apply elem_of_elements, elem_of_dom in Hdom. auto.
  - intros (name & stem & Hsome & Hvisible & ->).
    pose proof (proj2 (is_hidden_false _) Hvisible) as Hh.
    assert (Hin : stem ++ "." ++ ext
                  ∈ filter (fun name => negb (is_hidden name)
                                        && fnmatch ("*." ++ ext) name = true)
                           (elements (dom (listdir fs dir)))).
    { apply list_elem_of_filter. split.
      - rewrite Hh. simpl negb. rewrite andb_true_l.
        apply (fnmatch_star ("." ++ ext) _ Hlit). exists stem. reflexivity.
      - apply elem_of_elements, elem_of_dom. exact Hsome. }
    destruct (filter _ _); [inversion Hin | simpl; lia].
Qed.

End Glob.

(** C9. For a directory path that [glob] does not read as a pattern, the
    factory returns the ASDF store exactly when the directory has an entry
    -- a file or a folder -- whose name ends in [.h5] and does not start
    with a dot; failing that, with such an entry in [.ms] or [.sac] it
    returns the miniSEED/SAC store, with the CSV catalog when the station
    file is a file of the directory and the FDSN catalog otherwise; with
    none of the three it fails on its assertion. *)
Theorem raw_store_factory (STATION_FILE cwd : string) (fs : FS)
    (raw_dir : string) :
  has_magic raw_dir = false ->
  let store := create_raw_store STATION_FILE cwd fs raw_dir in
  (store = Return (ASDFRawDataStore raw_dir) <-> has_extension fs raw_dir "h5") /\
  (~ has_extension fs raw_dir "h5" ->
   has_extension fs raw_dir "ms" \/ has_extension fs raw_dir "sac" ->
   store = Return (SCEDCS3DataStore raw_dir
                     (if isfile fs raw_dir STATION_FILE
                      then CSVChannelCatalog raw_dir
                      else FDSNChannelCatalog "SCEDC"
                             (path_join cwd "noisepy_cache")))) /\
  (~ has_extension fs raw_dir "h5" ->
   ~ has_extension fs raw_dir "ms" ->
   ~ has_extension fs raw_dir "sac" ->
   store = Raise (AssertionError
                    ("Can not find any .h5, .ms or .sac files in " ++ raw_dir))).
Proof.
  intros _ store. subst store. unfold create_raw_store.
  pose proof (glob_count fs raw_dir "h5" eq_refl) as Hh5.
  pose proof (glob_count fs raw_dir "ms" eq_refl) as Hms.
  pose proof (glob_count fs raw_dir "sac" eq_refl) as Hsac.
  change ("*." ++ "h5")%string with "*.h5"%string in Hh5.
  change ("*." ++ "ms")%string with "*.ms"%string in Hms.
  change ("*." ++ "sac")%string with "*.sac"%string in Hsac.
  destruct (0 <? length (glob fs raw_dir "*.h5"))%nat eqn:E5.
  - assert (has_extension fs raw_dir "h5") by (apply Hh5; reflexivity).
    repeat split; try tauto.
  - assert (N5 : ~ has_extension fs raw_dir "h5").
    { intros H. apply Hh5 in H. discriminate. }
    split; [|split].
    + split; [|tauto].
      destruct (_ || _); discriminate.
    + intros _ Hor.
      assert (Hb : ((0 <? length (glob fs raw_dir "*.ms"))%nat
                    || (0 <? length (glob fs raw_dir "*.sac"))%nat) = true).
      { apply orb_true_iff. tauto. }
      rewrite Hb. reflexivity.
    + intros _ Nms Nsac.
      assert (Hb : ((0 <? length (glob fs raw_dir "*.ms"))%nat
                    || (0 <? length (glob fs raw_dir "*.sac"))%nat) = false).
      { apply orb_false_iff. split; apply not_true_is_false; intros Hc.
        - apply Nms, Hms, Hc.
        - apply Nsac, Hsac, Hc. }
      rewrite Hb. reflexivity.
Qed.

Lemma raw_store_factory_witness :
  let fs := Examples.dir_with "/data/RAW_DATA" ["2016_07_01.ms"; "station.txt"] in
  let store := create_raw_store "station.txt" "/home" fs "/data/RAW_DATA" in
  (store = Return (ASDFRawDataStore "/data/RAW_DATA")
   <-> has_extension fs "/data/RAW_DATA" "h5") /\
  store = Return (SCEDCS3DataStore "/data/RAW_DATA"
                    (CSVChannelCatalog "/data/RAW_DATA")).
Proof.
  intros fs store.
  destruct (raw_store_factory "station.txt" "/home" fs "/data/RAW_DATA")
    as (Hh5 & _ & _); [reflexivity|].
  split; [exact Hh5 | vm_compute; reflexivity].
Defined.

(** C9, as stated, fails in both directions.  A directory whose only entry
    is the file [.cache.h5] contains a file with the extension h5, and the
    factory fails on its assertion: [glob] leaves out the names that start
    with a dot.  A directory whose only entry is a folder [sub.h5] contains
    no file with that extension, and the factory returns the ASDF store:
    [glob] does not tell folders from files. *)
Lemma hidden_file_and_folder_h5 :
  let hidden := Examples.dir_with "/data/RAW_DATA" [".cache.h5"] in
  let folder : FS := {[ "/data/RAW_DATA" := {[ "sub.h5" := Folder ]} ]} in
  (contains_file_with_extension hidden "/data/RAW_DATA" "h5" /\
   create_raw_store "station.txt" "/home" hidden "/data/RAW_DATA"
   = Raise (AssertionError
              "Can not find any .h5, .ms or .sac files in /data/RAW_DATA")) /\
  (~ contains_file_with_extension folder "/data/RAW_DATA" "h5" /\
   create_raw_store "station.txt" "/home" folder "/data/RAW_DATA"
   = Return (ASDFRawDataStore "/data/RAW_DATA")).
Proof.
  intros hidden folder. split; split.
  - exists ".cache.h5", ".cache", (TextFile "").
    split; [vm_compute; reflexivity|]. split; [discriminate | reflexivity].
  - vm_compute. reflexivity.
  - intros (name & stem & e & Hfile & Hne & _).
    unfold folder, listdir in Hfile. rewrite lookup_singleton_eq in Hfile.
    cbn [default from_option] in Hfile. unfold id in Hfile.
    apply lookup_singleton_Some in Hfile as [_ <-]. contradiction.
  - vm_compute. reflexivity.
Qed.

(** ** The configuration of the cross-correlation stage *)

(** C10. When [download_info.txt] is not a file of the raw data directory,
    the loader returns the default [ConfigParameters] without raising, and
    the cross-correlation stage goes on with them (and the normalisation
    asked on the command line). *)
Theorem missing_metadata_gives_defaults stages default_params
    STATION_FILE cwd args w :
  let raw_dir := path_join (args_path args) "RAW_DATA" in
  isfile (fs w) raw_dir "download_info.txt" = false ->
  initialize_fft_params default_params (fs w) raw_dir = Return default_params /\
  run_cross_correlation stages default_params STATION_FILE cwd args w
  = match create_raw_store STATION_FILE cwd (fs w) raw_dir with
    | Return raw_store =>
        cross_correlate stages raw_store
          (datatypes.set_freq_norm (PyStr (args_freq_norm args)) default_params)
          (ASDFCCStore (path_join (args_path args) "CCF")) w
    | Raise e => (Raise e, w)
    end.
Proof.
  intros raw_dir Hfile.
  assert (Hinit : initialize_fft_params default_params (fs w) raw_dir
                  = Return default_params).
  { unfold initialize_fft_params. rewrite Hfile. reflexivity. }
  split; [exact Hinit|].
  unfold run_cross_correlation. fold raw_dir.
  rewrite bind_run, Hinit, bind_run.
  destruct (create_raw_store STATION_FILE cwd (fs w) raw_dir); reflexivity.
Qed.

Lemma missing_metadata_gives_defaults_witness :
  let w := {| fs := Examples.dir_with "/data/RAW_DATA" ["2016_07_01.h5"];
              remote_calls := []; stage_log := [] |} in
  isfile (fs w) "/data/RAW_DATA" "download_info.txt" = false /\
  initialize_fft_params Examples.default_params (fs w) "/data/RAW_DATA"
  = Return Examples.default_params.
Proof.
  split; [vm_compute; reflexivity|].
  apply (missing_metadata_gives_defaults Examples.no_stages
           Examples.default_params "station.txt" "/home" Examples.args_all
           {| fs := Examples.dir_with "/data/RAW_DATA" ["2016_07_01.h5"];
              remote_calls := []; stage_log := [] |}).
  vm_compute. reflexivity.
Defined.

(** ** [py_eval] reads back what [py_str] prints *)

Section Literals.

Local Open Scope string_scope.

Lemma append_assoc (a b c : string) : (a ++ b) ++ c = a ++ (b ++ c).
Proof.
  induction a as [|x a' IH]; [reflexivity|].
  change (String x ((a' ++ b) ++ c) = String x (a' ++ (b ++ c))).
  f_equal. exact IH.
Qed.

Lemma append_cons c (a b : string) : String c a ++ b = String c (a ++ b).
Proof. reflexivity. Qed.

Lemma append_nil_l (a : string) : "" ++ a = a.
Proof. reflexivity. Qed.

Lemma hex_value_digit (n : N) :
  (n < 16)%N -> hex_value (hex_digit n) = Some n.
Proof.
  intros Hn.
  assert (H : In n (map N.of_nat (seq 0 16))).
  { apply in_map_iff. exists (N.to_nat n). split; [lia|]. apply in_seq. lia. }
  simpl in H.
  repeat (destruct H as [<-|H]; [reflexivity|]). destruct H.
Qed.

Lemma hex_round_trip (c : ascii) :
  let n := N_of_ascii c in
  hex_value (hex_digit (n / 16)) = Some (n / 16)%N /\
  hex_value (hex_digit (n mod 16)) = Some (n mod 16)%N /\
  ascii_of_N (16 * (n / 16) + n mod 16) = c.
Proof.
  intros n. pose proof (N_ascii_bounded c) as Hb. fold n in Hb.
  split; [|split].
  - apply hex_value_digit. apply N.Div0.div_lt_upper_bound; lia.
  - apply hex_value_digit. apply N.mod_lt. lia.
  - rewrite <- N.div_mod by lia. apply ascii_N_embedding.
Qed.

Lemma parse_repr_char q c s rest body :
  q = squote \/ q = dquote ->
  parse_str_body q rest = Some (body, s) ->
  parse_str_body q (repr_char q c ++ rest) = Some (String c body, s).
Proof.
  intros Hq Hrest. unfold repr_char.
  destruct (Ascii.eqb_spec c backslash) as [->|Hbs].
  { destruct Hq as [-> | ->]; unfold squote, dquote, backslash in *;
      rewrite !append_cons, append_nil_l; simpl; rewrite Hrest; reflexivity. }
  destruct (Ascii.eqb_spec c q) as [->|Hcq].
  { destruct Hq as [-> | ->]; unfold squote, dquote, backslash in *;
      rewrite !append_cons, append_nil_l; simpl; rewrite Hrest; reflexivity. }
  destruct (Ascii.eqb_spec c "009") as [->|Htab].
  { destruct Hq as [-> | ->]; unfold squote, dquote, backslash in *;
      rewrite !append_cons, append_nil_l; simpl; rewrite Hrest; reflexivity. }
  destruct (Ascii.eqb_spec c "010") as [->|Hnl].
  { destruct Hq as [-> | ->]; unfold squote, dquote, backslash in *;
      rewrite !append_cons, append_nil_l; simpl; rewrite Hrest; reflexivity. }
  destruct (Ascii.eqb_spec c "013") as [->|Hcr].
  { destruct Hq as [-> | ->]; unfold squote, dquote, backslash in *;
      rewrite !append_cons, append_nil_l; simpl; rewrite Hrest; reflexivity. }
  destruct ((N_of_ascii c <? 32)%N || (N_of_ascii c =? 127)%N).
  - destruct (hex_round_trip c) as (Hh & Hl & Hc).
    assert (Hx : forall r, parse_str_body q
                   (String backslash (String "x" r))
                 = match r with
                   | String h (String l r'') =>
                       match hex_value h, hex_value l with
                       | Some vh, Some vl =>
                           match parse_str_body q r'' with
                           | Some (body, tl) =>
                               Some (String (ascii_of_N (16 * vh + vl)) body, tl)
                           | None => None
                           end
                       | _, _ => None
                       end
                   | _ => None
                   end).
    { intros r. destruct Hq as [-> | ->]; reflexivity. }
    rewrite !append_cons, append_nil_l.
    rewrite Hx, Hh, Hl, Hrest, Hc. reflexivity.
  - rewrite append_cons, append_nil_l.
    cbn [parse_str_body].
    destruct (Ascii.eqb_spec c q); [contradiction|].
    destruct (Ascii.eqb_spec c backslash); [contradiction|].
    destruct (Ascii.eqb_spec c "010"); [contradiction|].
    rewrite Hrest. reflexivity.
Qed.

Lemma parse_repr_body q s rest :
  q = squote \/ q = dquote ->
  parse_str_body q (repr_body q s ++ String q rest) = Some (s, rest).
Proof.
  intros Hq. induction s as [|c s IH]; cbn [repr_body].
  - rewrite append_nil_l. cbn [parse_str_body].
    rewrite Ascii.eqb_refl. reflexivity.
  - rewrite append_assoc. apply parse_repr_char; assumption.
Qed.

Lemma repr_quote_cases s : repr_quote s = squote \/ repr_quote s = dquote.
Proof. unfold repr_quote. destruct (_ && _); auto. Qed.

Lemma parse_repr_str s rest :
  parse_val (repr_str s ++ rest) = Some (PyStr s, rest).
Proof.
  unfold repr_str. pose proof (repr_quote_cases s) as Hq.
  set (q := repr_quote s) in *.
  rewrite append_cons, append_assoc, append_cons, append_nil_l.
  assert (Hb : Ascii.eqb q squote || Ascii.eqb q dquote = true)
    by (destruct Hq as [-> | ->]; reflexivity).
  unfold parse_val. rewrite Hb, parse_repr_body by exact Hq. reflexivity.
Qed.

Lemma span_token tok rest :
  str_forallb is_num_char tok = true -> ends_number rest ->
  span is_num_char (tok ++ rest) = (tok, rest).
Proof.
  intros Htok Hrest. induction tok as [|c tok IH].
  - rewrite append_nil_l. destruct rest as [|c rest]; [reflexivity|].
    simpl in Hrest. cbn [span]. rewrite Hrest. reflexivity.
  - cbn [str_forallb] in Htok. apply andb_prop in Htok as [Hc Htok].
    rewrite append_cons. cbn [span]. rewrite Hc, (IH Htok). reflexivity.
Qed.

Lemma forallb_weaken (p p' : ascii -> bool) s :
  (forall c, p c = true -> p' c = true) ->
  str_forallb p s = true -> str_forallb p' s = true.
Proof.
  intros Hp. induction s as [|c s IH]; [reflexivity|].
  cbn [str_forallb]. intros H. apply andb_prop in H as [Hc Hs].
  rewrite (Hp c Hc), (IH Hs). reflexivity.
Qed.

Lemma forallb_not_contains (p : ascii -> bool) c s :
  p c = false -> str_forallb p s = true -> str_contains c s = false.
Proof.
  intros Hc. induction s as [|c' s IH]; [reflexivity|].
  cbn [str_forallb str_contains]. intros H. apply andb_prop in H as [Hc' Hs].
  rewrite (IH Hs), orb_false_r.
  destruct (Ascii.eqb_spec c c') as [->|]; congruence.
Qed.

Lemma uint_digits d : str_forallb is_digit (NilEmpty.string_of_uint d) = true.
Proof. induction d; simpl; auto. Qed.

Lemma repr_int_chars z : str_forallb is_int_char (repr_int z) = true.
Proof.
  assert (Hu : forall d, str_forallb is_int_char (NilZero.string_of_uint d) = true).
  { intros d. apply forallb_weaken with (p := is_digit).
    - intros c Hc. unfold is_int_char. rewrite Hc. reflexivity.
    - destruct d; try apply uint_digits. reflexivity. }
  unfold repr_int. destruct (Z.to_int z) as [d|d]; cbn [NilZero.string_of_int].
  - apply Hu.
  - cbn [str_forallb]. rewrite Hu. reflexivity.
Qed.

Lemma int_char_num c : is_int_char c = true -> is_num_char c = true.
Proof.
  unfold is_int_char, is_num_char. intros H.
  apply orb_prop in H as [-> | ->]; [reflexivity|].
  rewrite orb_true_r. reflexivity.
Qed.

Lemma to_int_proper z :
  Z.to_int z <> Decimal.Pos Decimal.Nil /\ Z.to_int z <> Decimal.Neg Decimal.Nil.
Proof.
  destruct z as [|p|p]; simpl; split; try discriminate;
    intros [= H]; exact (DecimalPos.Unsigned.to_uint_nonnil p H).
Qed.

Lemma parse_number_int z rest :
  ends_number rest ->
  parse_number (repr_int z ++ rest) = Some (PyInt z, rest).
Proof.
  intros Hrest. pose proof (repr_int_chars z) as Hchars.
  unfold parse_number.
  rewrite span_token
    by first [exact Hrest
             | eapply forallb_weaken; [apply int_char_num | exact Hchars]].
  rewrite (forallb_not_contains is_int_char "." _ eq_refl Hchars).
  rewrite (forallb_not_contains is_int_char "e" _ eq_refl Hchars).
  cbn [orb]. unfold repr_int.
  destruct (to_int_proper z) as [Hp Hn].
  rewrite NilZero.isi by assumption.
  rewrite DecimalZ.of_to. reflexivity.
Qed.

Lemma parse_number_float literal rest :
  is_float_literal literal = true -> ends_number rest ->
  parse_number (literal ++ rest) = Some (PyFloat literal, rest).
Proof.
  intros Hlit Hrest. unfold is_float_literal in Hlit.
  apply andb_prop in Hlit as [Hchars Hpoint].
  unfold parse_number. rewrite span_token by assumption.
  rewrite Hpoint. reflexivity.
Qed.

Lemma parse_val_number tok rest :
  str_forallb is_num_char tok = true -> tok <> "" ->
  parse_val (tok ++ rest) = parse_number (tok ++ rest).
Proof.
  intros Hchars Hne. destruct tok as [|c tok]; [contradiction|].
  cbn [str_forallb] in Hchars. apply andb_prop in Hchars as [Hc _].
  rewrite append_cons. unfold parse_val.
  destruct (Ascii.eqb_spec c squote) as [->|_]; [discriminate|].
  destruct (Ascii.eqb_spec c dquote) as [->|_]; [discriminate|].
  reflexivity.
Qed.

Lemma parse_repr_val v rest :
  printable_val v = true -> ends_number rest ->
  parse_val (repr_val v ++ rest) = Some (v, rest).
Proof.
  intros Hv Hrest. destruct v as [z|literal|s]; cbn [repr_val].
  - rewrite parse_val_number.
    + apply parse_number_int. exact Hrest.
    + eapply forallb_weaken; [apply int_char_num | apply repr_int_chars].
    + unfold repr_int. destruct (Z.to_int z) as [[]|[]]; discriminate.
  - cbn [printable_val] in Hv. apply andb_prop in Hv as [Hv _].
    rewrite parse_val_number.
    + apply parse_number_float; assumption.
    + unfold is_float_literal in Hv. apply andb_prop in Hv as [H _]. exact H.
    + intros ->. discriminate.
  - apply parse_repr_str.
Qed.

Lemma parse_repr_item kv rest :
  printable_val (snd kv) = true -> ends_number rest ->
  parse_item (repr_item kv ++ rest) = Some (kv, rest).
Proof.
  intros Hv Hrest. destruct kv as [k v]. unfold repr_item, parse_item.
  cbn [fst snd] in *.
  rewrite !append_assoc, parse_repr_str.
  rewrite !append_cons, append_nil_l.
  rewrite parse_repr_val by assumption. reflexivity.
Qed.

Lemma repr_items_cons kv d :
  d <> [] -> repr_items (kv :: d) = repr_item kv ++ ", " ++ repr_items d.
Proof. destruct d; [contradiction | reflexivity]. Qed.

Lemma parse_repr_items d rest fuel :
  d <> [] ->
  forallb (fun kv => printable_val (snd kv)) d = true ->
  (length d <= fuel)%nat ->
  parse_items fuel (repr_items d ++ String "}" rest) = Some (d, rest).
Proof.
  revert fuel. induction d as [|kv d IH]; intros fuel Hne Hd Hfuel;
    [contradiction|].
  cbn [forallb] in Hd. apply andb_prop in Hd as [Hkv Hd].
  destruct fuel as [|fuel]; [simpl in Hfuel; lia|].
  destruct d as [|kv' d].
  - cbn [repr_items parse_items].
    rewrite parse_repr_item by first [exact Hkv | reflexivity]. reflexivity.
  - rewrite repr_items_cons by discriminate.
    rewrite !append_assoc. cbn [parse_items].
    rewrite parse_repr_item by first [exact Hkv | reflexivity].
    rewrite !append_cons, append_nil_l.
    rewrite IH; [reflexivity | discriminate | exact Hd | simpl in *; lia].
Qed.

Lemma dict_set_fresh k v (d : PyDict) :
  k ∉ map fst d -> dict_set k v d = (d ++ [(k, v)])%list.
Proof.
  induction d as [|[k' v'] d IH]; intros Hk; [reflexivity|].
  cbn [dict_set]. cbn [map fst] in Hk.
  apply not_elem_of_cons in Hk as [Hne Hk].
  destruct (String.eqb_spec k k'); [contradiction|].
  rewrite IH by exact Hk. reflexivity.
Qed.

Lemma dict_of_items_nodup (kvs acc : PyDict) :
  NoDup (map fst (acc ++ kvs)%list) ->
  fold_left (fun d kv => dict_set (fst kv) (snd kv) d) kvs acc
  = (acc ++ kvs)%list.
Proof.
  revert acc. induction kvs as [|[k v] kvs IH]; intros acc Hnd.
  - rewrite app_nil_r. reflexivity.
  - cbn [fold_left fst snd].
    assert (Hfresh : k ∉ map fst acc).
    { rewrite map_app in Hnd. apply NoDup_app in Hnd as (_ & Hdisj & _).
      intros Hin. apply (Hdisj k Hin). cbn [map fst]. apply list_elem_of_here. }
    rewrite dict_set_fresh by exact Hfresh.
    rewrite IH; rewrite <- app_assoc; [reflexivity | exact Hnd].
Qed.

Lemma length_repr_items d :
  (length d <= String.length (repr_items d ++ "}"))%nat.
Proof.
  assert (Hlen : forall a b, String.length (a ++ b)
                             = (String.length a + String.length b)%nat).
  { intros a b. induction a as [|c a IH]; [reflexivity|].
    rewrite append_cons. cbn [String.length]. rewrite IH. reflexivity. }
  assert (Hitem : forall kv, (1 <= String.length (repr_item kv))%nat).
  { intros kv. unfold repr_item, repr_str.
    rewrite append_cons. cbn [String.length]. lia. }
  induction d as [|kv d IH]; [simpl; lia|].
  destruct d as [|kv' d].
  - cbn [repr_items]. rewrite Hlen. specialize (Hitem kv). simpl. lia.
  - rewrite repr_items_cons by discriminate.
    rewrite !append_assoc, Hlen. specialize (Hitem kv).
    rewrite !append_cons, append_nil_l. cbn [String.length].
    cbn [length] in *. lia.
Qed.

(** [eval(str(d))] is [d]. *)
Lemma py_eval_py_str d : printable_dict d -> py_eval (py_str d) = Return d.
Proof.
  intros [Hvals Hkeys]. unfold py_str.
  destruct d as [|kv d]; [reflexivity|].
  set (items := repr_items (kv :: d)).
  assert (Hq : exists q tl, items = String q tl /\ q <> "}"%char).
  { exists (repr_quote (fst kv)). subst items.
    destruct d; eexists;
      (split;
       [ cbn [repr_items]; unfold repr_item, repr_str;
         rewrite !append_cons; reflexivity
       | destruct (repr_quote_cases (fst kv)) as [-> | ->]; discriminate ]). }
  destruct Hq as (q & tl & Hitems & Hq).
  rewrite append_cons, append_nil_l.
  assert (Hparse : parse_items (String.length (items ++ "}")) (items ++ "}")
                   = Some (kv :: d, "")).
  { apply parse_repr_items; [discriminate | exact Hvals |].
    apply length_repr_items. }
  rewrite Hitems in Hparse |- *. rewrite append_cons in Hparse |- *.
  unfold py_eval. rewrite Hparse.
  unfold dict_of_items. rewrite dict_of_items_nodup by exact Hkeys.
  cbn [app].
  destruct q as [[] [] [] [] [] [] [] []]; try reflexivity.
  exfalso. apply Hq. reflexivity.
Qed.

End Literals.

(** ** The metadata record, from the download to the cross-correlation *)

Section Metadata.

Local Open Scope string_scope.

Variable dc : DataCentre.

Lemma listdir_write_file dir name e fs :
  listdir (write_file dir name e fs) dir !! name = Some e.
Proof.
  unfold write_file, listdir at 1. rewrite lookup_insert_eq. simpl.
  apply lookup_insert_eq.
Qed.

Lemma listdir_write_file_ne dir name name' e fs :
  name <> name' ->
  listdir (write_file dir name e fs) dir !! name' = listdir fs dir !! name'.
Proof.
  intros Hne. unfold write_file, listdir at 1. rewrite lookup_insert_eq. simpl.
  apply lookup_insert_ne. exact Hne.
Qed.

Lemma last_char_append a c b :
  last_char (a ++ String c b) = last_char (String c b).
Proof.
  induction a as [|x a IH]; [reflexivity|].
  rewrite append_cons. cbn [last_char]. rewrite IH.
  destruct (a ++ String c b) eqn:E; [|reflexivity].
  destruct a; discriminate.
Qed.

Lemma chunk_file_name c1 c2 :
  chunk_file dc c1 c2 <> "download_info.txt".
Proof.
  unfold chunk_file. intros H. apply (f_equal last_char) in H.
  rewrite <- !append_assoc in H.
  rewrite last_char_append in H. discriminate.
Qed.

Variable direc : string.

Abbreviation same_meta := (same_entry direc "download_info.txt").

Lemma same_meta_refl w : same_meta w w.
Proof. reflexivity. Qed.

Lemma same_meta_trans w1 w2 w3 :
  same_meta w1 w2 -> same_meta w2 w3 -> same_meta w1 w3.
Proof. unfold same_entry. congruence. Qed.

Lemma update_asdf_meta ff f w :
  ff <> "download_info.txt" -> same_meta w (update_asdf direc ff f w).
Proof.
  intros Hne. unfold update_asdf, same_entry.
  destruct (listdir (fs w) direc !! ff) as [[]|]; try reflexivity.
  apply listdir_write_file_ne. exact Hne.
Qed.

Lemma open_chunk_meta ff roster :
  ff <> "download_info.txt" -> keeps same_meta (open_chunk direc ff roster).
Proof.
  intros Hne w. unfold open_chunk.
  destruct (isfile _ _ _).
  - destruct (listdir (fs w) direc !! ff) as [[]|]; reflexivity.
  - apply listdir_write_file_ne. exact Hne.
Qed.

Ltac keep_meta :=
  repeat first
    [ apply keeps_ret; exact same_meta_refl
    | apply keeps_raise; exact same_meta_refl
    | apply keeps_lift; exact same_meta_refl
    | apply keeps_for_each;
        [exact same_meta_refl | exact same_meta_trans | intros ? ?]
    | apply keeps_bind; [exact same_meta_trans | | intros ?]
    | match goal with
      | |- keeps _ (modify (update_asdf _ _ _)) =>
          intros ?; apply update_asdf_meta; assumption
      | |- keeps _ (modify (log_call _)) => intros ?; reflexivity
      | |- keeps _ (match ?x with _ => _ end) => destruct x
      | |- keeps _ (let '(_, _) := ?x in _) => destruct x
      end ].

Lemma station_step_meta ff ncomp para s1 s2 entry new_tags :
  ff <> "download_info.txt" ->
  keeps same_meta (station_step dc direc ff ncomp para s1 s2 entry new_tags).
Proof. intros Hne. unfold station_step. keep_meta. Qed.

Lemma process_chunk_meta roster ncomp para c1 c2 new_tags :
  keeps same_meta (process_chunk dc direc roster ncomp para c1 c2 new_tags).
Proof.
  unfold process_chunk.
  apply keeps_bind; [exact same_meta_trans | | intros nr].
  - apply open_chunk_meta, chunk_file_name.
  - apply keeps_for_each; [exact same_meta_refl | exact same_meta_trans |].
    intros x b. apply station_step_meta, chunk_file_name.
Qed.

Lemma chunk_loop_meta roster ncomp para all_chunk idxs :
  keeps same_meta
    (for_each
       (fun ick new_tags =>
          c1 ← lift (py_index all_chunk ick);
          c2 ← lift (py_index all_chunk (ick + 1));
          process_chunk dc direc roster ncomp para c1 c2 new_tags)
       idxs None).
Proof.
  apply keeps_for_each; [exact same_meta_refl | exact same_meta_trans |].
  intros ick nt.
  apply keeps_bind; [exact same_meta_trans | keep_meta | intros c1].
  apply keeps_bind; [exact same_meta_trans | keep_meta | intros c2].
  apply process_chunk_meta.
Qed.

End Metadata.

Section RoundTrip.

Local Open Scope string_scope.

Variable dc : DataCentre.

Abbreviation saved := (saved_para dc).

Lemma saved_printable rootpath starttime endtime inc_hours ncomp nsta :
  printable_dict (saved rootpath starttime endtime inc_hours ncomp nsta).
Proof.
  split; [reflexivity|].
  apply (bool_decide_unpack _). vm_compute. reflexivity.
Qed.

Lemma load_saved default_params fs rootpath starttime endtime inc_hours
      ncomp nsta :
  listdir fs (path_join rootpath "RAW_DATA") !! "download_info.txt"
  = Some (TextFile (py_str (saved rootpath starttime endtime inc_hours
                                  ncomp nsta))) ->
  initialize_fft_params default_params fs (path_join rootpath "RAW_DATA")
  = Return {| datatypes.samp_freq := PyInt samp_freq;
              datatypes.freqmin := PyFloat "0.05";
              datatypes.freqmax := PyInt 2;
              datatypes.start_date := PyStr (utc_str dc starttime);
              datatypes.end_date := PyStr (utc_str dc endtime);
              datatypes.inc_hours := PyInt inc_hours;
              datatypes.ncomp := PyInt ncomp;
              datatypes.freq_norm := datatypes.freq_norm default_params;
              datatypes.other := datatypes.other default_params |}.
Proof.
  intros Hfile. unfold initialize_fft_params, isfile.
  rewrite Hfile, py_eval_py_str by apply saved_printable.
  reflexivity.
Qed.

Lemma download_saves size rootpath chan_list sta_list starttime endtime
      inc_hours w roster :
  fst (gather_stations dc sta_list chan_list starttime endtime w)
  = Return roster ->
  check_memory (Z.of_nat (length roster)) inc_hours = Return tt ->
  listdir (fs (snd (download dc 0 size rootpath chan_list sta_list
                             [starttime] [endtime] inc_hours w)))
          (path_join rootpath "RAW_DATA") !! "download_info.txt"
  = Some (TextFile (py_str (saved rootpath starttime endtime inc_hours
                                  (Z.of_nat (length chan_list))
                                  (Z.of_nat (length roster))))).
Proof.
  intros Hroster Hmem.
  set (direc := path_join rootpath "RAW_DATA").
  set (para := saved rootpath starttime endtime inc_hours
                     (Z.of_nat (length chan_list)) (Z.of_nat (length roster))).
  unfold download. fold direc.
  change (lift (py_index [starttime] 0)) with (mret (M := Run World) starttime).
  change (lift (py_index [endtime] 0)) with (mret (M := Run World) endtime).
  rewrite !ret_bind_run, bind_run.
  destruct (gather_stations dc sta_list chan_list starttime endtime w)
    as [r w1]. simpl in Hroster. subst r.
  rewrite Hmem. change (lift (Return tt)) with (mret (M := Run World) tt).
  rewrite ret_bind_run. change (0 =? 0)%Z with true. cbv iota.
  change (dict_set "nsta" (PyInt (Z.of_nat (length roster)))
            (prepro_para dc (path_join rootpath "resp") starttime endtime
                         inc_hours (Z.of_nat (length chan_list))))
    with para.
  (* the world once the coordinator has written the record *)
  set (w2 := set_fs (write_file direc "download_info.txt"
                                (TextFile (py_str para)))
               (set_fs (write_file direc "station.txt" (StationList roster))
                  (set_fs (fun fs => if isdir fs direc then fs
                                     else mkdir direc fs)
                     (set_fs (fun fs => if isdir fs rootpath then fs
                                        else mkdir rootpath fs) w1)))).
  assert (Hw2 : listdir (fs w2) direc !! "download_info.txt"
                = Some (TextFile (py_str para)))
    by apply listdir_write_file.
  rewrite bind_run.
  assert (Hsetup :
    coordinator_setup rootpath direc roster para starttime endtime inc_hours w1
    = match get_event_list starttime endtime inc_hours with
      | Return all_chunk =>
          if (length all_chunk <? 1)%nat then (Raise NoChunkValueError, w2)
          else (Return all_chunk, w2)
      | Raise e => (Raise e, w2)
      end).
  { unfold coordinator_setup. rewrite !modify_bind_run, lift_bind_run.
    fold w2.
    destruct (get_event_list starttime endtime inc_hours) as [l|e];
      [|reflexivity].
    destruct (length l <? 1)%nat; reflexivity. }
  rewrite Hsetup.
  destruct (get_event_list starttime endtime inc_hours) as [all_chunk|e];
    [|exact Hw2].
  destruct (length all_chunk <? 1)%nat; [exact Hw2|].
  rewrite bind_run.
  destruct (lift (worker_chunks 0 size all_chunk) w2) as [[idxs|e] w3] eqn:Hidx;
    unfold lift in Hidx; injection Hidx as _ <-; [|exact Hw2].
  rewrite bind_run.
  pose proof (chunk_loop_meta dc direc roster (Z.of_nat (length chan_list))
                para all_chunk idxs w2) as Hloop.
  unfold same_entry in Hloop.
  destruct (for_each _ idxs None w2) as [[nt|e] w4]; simpl in Hloop |- *;
    rewrite Hloop; exact Hw2.
Qed.

End RoundTrip.



(** ** The chunks of each worker *)



(** ** The Time-Chunk Planner *)

Section Planner.

Lemma progression_lookup (s d : Z) (n i : nat) :
  map (fun k => s + Z.of_nat k * d) (seq 0 n) !! i
  = if (i <? n)%nat then Some (s + Z.of_nat i * d) else None.
Proof.
  rewrite list_lookup_fmap.
  destruct (Nat.ltb_spec i n) as [Hlt|Hge].
  - rewrite lookup_seq_lt by exact Hlt. reflexivity.
  - rewrite lookup_seq_ge by exact Hge. reflexivity.
Qed.

Lemma progression_in_chunk (s d : Z) (n i : nat) (t : Z) :
  in_chunk (map (fun k => s + Z.of_nat k * d) (seq 0 (n + 1))) i t
  <-> (i < n)%nat /\ s + Z.of_nat i * d <= t < s + (Z.of_nat i + 1) * d.
Proof.
  unfold in_chunk. rewrite !progression_lookup. split.
  - intros (a & b & Ha & Hb & Ht).
    destruct (Nat.ltb_spec (S i) (n + 1)); [|discriminate].
    destruct (Nat.ltb_spec i (n + 1)); [|discriminate].
    injection Ha as <-. injection Hb as <-. split; lia.
  - intros [Hi Ht].
    exists (s + Z.of_nat i * d), (s + Z.of_nat (S i) * d).
    destruct (Nat.ltb_spec (S i) (n + 1)); [|lia].
    destruct (Nat.ltb_spec i (n + 1)); [|lia].
    repeat split; lia.
Qed.

Lemma progression_tiles (s d : Z) (n : nat) :
  0 < d ->
  tiles s (s + Z.of_nat n * d)
        (map (fun k => s + Z.of_nat k * d) (seq 0 (n + 1))).
Proof.
  intros Hd. split.
  - intros t Ht.
    pose proof (Z.div_mod (t - s) d ltac:(lia)) as Hdm.
    pose proof (Z.mod_pos_bound (t - s) d Hd) as Hmod.
    assert (Hq : 0 <= (t - s) / d) by (apply Z.div_pos; lia).
    exists (Z.to_nat ((t - s) / d)). split.
    + apply progression_in_chunk. split; [nia | lia].
    + intros j Hj. apply progression_in_chunk in Hj as [_ Hj]. nia.
  - intros i t Hi. apply progression_in_chunk in Hi as [Hi Ht]. nia.
Qed.

End Planner.




(** ** One chunk: the loop over the entries of the station list *)

Section Chunk.

Local Open Scope string_scope.
Local Open Scope Z_scope.

Variable dc : DataCentre.
Variables (direc ff : string) (ncomp : Z) (para : PyDict) (s1 s2 : Z).

Lemma update_asdf_file f w ds :
  listdir (fs w) direc !! ff = Some (H5File ds) ->
  listdir (fs (update_asdf direc ff f w)) direc !! ff = Some (H5File (f ds))
  /\ remote_calls (update_asdf direc ff f w) = remote_calls w.
Proof.
  intros Hfile. unfold update_asdf. rewrite Hfile. simpl.
  split; [apply listdir_write_file | reflexivity].
Qed.

Ltac absurd_fate :=
  let H := fresh in
  intros H; first [discriminate | destruct H; discriminate].

Lemma station_step_spec (e : Row * Z) new_tags w ds :
  listdir (fs w) direc !! ff = Some (H5File ds) ->
  let run := station_step dc direc ff ncomp para s1 s2 e new_tags w in
  let row := fst e in
  fst run = step_result dc ncomp para s1 s2 e new_tags /\
  exists ds' calls,
    listdir (fs (snd run)) direc !! ff = Some (H5File ds') /\
    remote_calls (snd run) = (remote_calls w ++ calls)%list /\
    waveform_tags ds'
    = (if decide (fate dc ncomp para s1 s2 e = Stored)
       then waveform_tags (add_waveforms (tname row) (waveform_tag row) ds)
       else waveform_tags ds) /\
    (fate dc ncomp para s1 s2 e = Skipped -> snd run = w) /\
    (fate dc ncomp para s1 s2 e = Stored
     \/ fate dc ncomp para s1 s2 e = EmptyResult ->
     GetWaveforms (net row) (sta row) (chan row) (location row) s1 s2
     ∈ calls).
Proof.
  intros Hfile. destruct e as [row n]. cbn [fst].
  unfold step_result, station_step, fate.
  destruct (n =? ncomp).
  { split; [reflexivity|]. exists ds, []. rewrite app_nil_r.
    split; [exact Hfile|]. split; [reflexivity|]. split; [reflexivity|].
    split; [reflexivity | absurd_fate]. }
  rewrite modify_bind_run.
  set (w1 := log_call _ w).
  assert (Hfile1 : listdir (fs w1) direc !! ff = Some (H5File ds)) by exact Hfile.
  destruct (get_stations dc (net row) (sta row) (location row) s1 s2)
    as [sta_inv|].
  2:{ split; [reflexivity|]. exists ds. eexists.
      split; [exact Hfile1|]. split; [reflexivity|]. split; [reflexivity|].
      split; absurd_fate. }
  rewrite modify_bind_run.
  destruct (update_asdf_file (add_stationxml sta_inv) w1 ds Hfile1)
    as [Hfile2 Hcalls2].
  set (w2 := update_asdf direc ff (add_stationxml sta_inv) w1) in *.
  rewrite modify_bind_run.
  set (w3 := log_call _ w2).
  assert (Hfile3 : listdir (fs w3) direc !! ff
                   = Some (H5File (add_stationxml sta_inv ds))) by exact Hfile2.
  assert (Hcalls3 : remote_calls w3
                    = (remote_calls w
                       ++ [GetStations (net row) (sta row) (location row) s1 s2;
                           GetWaveforms (net row) (sta row) (chan row)
                                        (location row) s1 s2])%list).
  { subst w3. cbn [log_call remote_calls]. rewrite Hcalls2. subst w1.
    cbn [log_call remote_calls]. rewrite <- app_assoc. reflexivity. }
  assert (Hin : GetWaveforms (net row) (sta row) (chan row) (location row) s1 s2
                ∈ [GetStations (net row) (sta row) (location row) s1 s2;
                   GetWaveforms (net row) (sta row) (chan row)
                                (location row) s1 s2]).
  { apply list_elem_of_further, list_elem_of_here. }
  destruct (get_waveforms dc (net row) (sta row) (chan row) (location row)
                          s1 s2) as [tr|].
  2:{ split; [reflexivity|]. eexists; eexists.
      split; [exact Hfile3|]. split; [exact Hcalls3|]. split; [reflexivity|].
      split; absurd_fate. }
  destruct (0 <? length (preprocess_raw dc tr sta_inv para (s1, s2)))%nat.
  - rewrite bind_run, modify_bind_run.
    destruct (update_asdf_file
                (add_waveforms (tname row) (waveform_tag row)) w3 _ Hfile3)
      as [Hfile4 Hcalls4].
    set (w4 := update_asdf direc ff _ w3) in *.
    unfold mret, run_ret. cbv beta iota. cbn [fst snd].
    split; [reflexivity|]. eexists; eexists.
    split; [exact Hfile4|]. split; [rewrite Hcalls4; exact Hcalls3|].
    split; [reflexivity|]. split; [absurd_fate | intros _; exact Hin].
  - rewrite ret_bind_run.
    assert (Hrun : (match new_tags with
                    | Some _ => mret new_tags
                    | None => raise (UnboundLocalError "new_tags")
                    end) w3
                   = (match new_tags with
                      | Some _ => Return new_tags
                      | None => Raise (UnboundLocalError "new_tags")
                      end, w3))
      by (destruct new_tags; reflexivity).
    rewrite Hrun. cbn [fst snd].
    split; [reflexivity|]. eexists; eexists.
    split; [exact Hfile3|]. split; [exact Hcalls3|]. split; [reflexivity|].
    split; [absurd_fate | intros _; exact Hin].
Qed.

Lemma tags_add_waveforms tn tg ds station tag :
  tag ∈ get_waveform_tags (add_waveforms tn tg ds) station
  <-> (tn = station /\ tg = tag) \/ tag ∈ get_waveform_tags ds station.
Proof.
  unfold get_waveform_tags at 1. cbn [add_waveforms waveform_tags].
  destruct (decide (tn = station)) as [->|Hne].
  - rewrite lookup_insert_eq.
    change (tag ∈ {[tg]} ∪ get_waveform_tags ds station
            <-> (station = station /\ tg = tag)
                \/ tag ∈ get_waveform_tags ds station).
    split.
    + intros H. apply elem_of_union in H as [H|H]; [|right; exact H].
      apply elem_of_singleton in H. left. auto.
    + intros [[_ <-]|H]; apply elem_of_union;
        [left; apply elem_of_singleton; reflexivity | right; exact H].
  - rewrite lookup_insert_ne by exact Hne.
    fold (get_waveform_tags ds station). intuition congruence.
Qed.

Lemma tags_same ds ds' station :
  waveform_tags ds' = waveform_tags ds ->
  get_waveform_tags ds' station = get_waveform_tags ds station.
Proof. unfold get_waveform_tags. intros ->. reflexivity. Qed.

Lemma for_each_cons {A B} (body : A -> B -> Run World B) x l b w :
  for_each body (x :: l) b w
  = match body x b w with
    | (Return b', w') => for_each body l b' w'
    | (Raise e, w') => (Raise e, w')
    end.
Proof. reflexivity. Qed.

Lemma station_loop_spec (es : list (Row * Z)) :
  forall new_tags w ds,
    listdir (fs w) direc !! ff = Some (H5File ds) ->
    clean (bound new_tags) (map (fate dc ncomp para s1 s2) es) = true ->
    let run := for_each (station_step dc direc ff ncomp para s1 s2) es
                        new_tags w in
    (exists nt, fst run = Return nt) /\
    exists ds' calls,
      listdir (fs (snd run)) direc !! ff = Some (H5File ds') /\
      remote_calls (snd run) = (remote_calls w ++ calls)%list /\
      (forall station tag,
         tag ∈ get_waveform_tags ds' station
         <-> tag ∈ get_waveform_tags ds station
             \/ exists e, e ∈ es /\ fate dc ncomp para s1 s2 e = Stored /\
                          tname (fst e) = station /\
                          waveform_tag (fst e) = tag) /\
      (forall e, e ∈ es ->
         fate dc ncomp para s1 s2 e = Stored
         \/ fate dc ncomp para s1 s2 e = EmptyResult ->
         GetWaveforms (net (fst e)) (sta (fst e)) (chan (fst e))
                      (location (fst e)) s1 s2 ∈ calls) /\
      ((forall e, e ∈ es -> fate dc ncomp para s1 s2 e = Skipped) ->
       run = (Return new_tags, w)).
Proof.
  induction es as [|e es IH]; intros new_tags w ds Hfile Hclean run.
  - subst run. cbn [for_each]. split; [eexists; reflexivity|].
    exists ds, []. rewrite app_nil_r.
    split; [exact Hfile|]. split; [reflexivity|]. split.
    + intros station tag. split; [auto|].
      intros [H|(e & He & _)]; [exact H | apply elem_of_nil in He; destruct He].
    + split; [intros e He; apply elem_of_nil in He; destruct He | reflexivity].
  - subst run. rewrite for_each_cons.
    destruct (station_step_spec e new_tags w ds Hfile)
      as (Hres & ds1 & calls1 & Hfile1 & Hcalls1 & Htags1 & Hskip1 & Hgw1).
    destruct (station_step dc direc ff ncomp para s1 s2 e new_tags w)
      as [r w1]. cbn [fst snd] in *.
    cbn [map clean] in Hclean.
    (* the step returns, and what is left of the loop is clean *)
    assert (Hstep : exists nt1,
               r = Return nt1 /\
               clean (bound nt1) (map (fate dc ncomp para s1 s2) es) = true /\
               (fate dc ncomp para s1 s2 e = Skipped -> nt1 = new_tags)).
    { subst r. unfold step_result.
      destruct (fate dc ncomp para s1 s2 e).
      - exists new_tags. auto.
      - exists new_tags. auto.
      - apply andb_prop in Hclean as [Hb Hclean].
        destruct new_tags; [|discriminate]. eexists. auto.
      - eexists. split; [reflexivity|]. split; [exact Hclean|].
        intros H; discriminate. }
    destruct Hstep as (nt1 & -> & Hclean1 & Hnt1).
    destruct (IH nt1 w1 ds1 Hfile1 Hclean1)
      as ([nt2 Hret] & ds2 & calls2 & Hfile2 & Hcalls2 & Htags2 & Hgw2 & Hskip2).
    split; [exists nt2; exact Hret|].
    exists ds2, (calls1 ++ calls2)%list.
    split; [exact Hfile2|].
    split; [rewrite Hcalls2, Hcalls1, app_assoc; reflexivity|].
    split; [|split].
    + intros station tag. rewrite Htags2.
      assert (Hfirst : tag ∈ get_waveform_tags ds1 station
                       <-> tag ∈ get_waveform_tags ds station
                           \/ (fate dc ncomp para s1 s2 e = Stored /\
                               tname (fst e) = station /\
                               waveform_tag (fst e) = tag)).
      { destruct (decide (fate dc ncomp para s1 s2 e = Stored)) as [Hs|Hs].
        - rewrite (tags_same _ _ station Htags1), tags_add_waveforms. tauto.
        - rewrite (tags_same _ _ station Htags1). tauto. }
      rewrite Hfirst. split.
      * intros [[H|H]|(e' & He' & H)].
        -- left. exact H.
        -- right. exists e. split; [apply list_elem_of_here | exact H].
        -- right. exists e'. split; [apply list_elem_of_further, He' | exact H].
      * intros [H|(e' & He' & H)]; [left; left; exact H|].
        apply elem_of_cons in He' as [->|He'].
        -- left. right. exact H.
        -- right. exists e'. split; [exact He' | exact H].
    + intros e' He' Hf. apply elem_of_app.
      apply elem_of_cons in He' as [->|He'].
      * left. apply Hgw1. exact Hf.
      * right. apply Hgw2; assumption.
    + intros Hall.
      assert (He : fate dc ncomp para s1 s2 e = Skipped)
        by (apply Hall, list_elem_of_here).
      rewrite (Hskip1 He), (Hnt1 He) in *.
      apply Hskip2. intros e' He'. apply Hall, list_elem_of_further, He'.
Qed.

End Chunk.

Section ProcessChunk.

Local Open Scope string_scope.
Local Open Scope Z_scope.

Variable dc : DataCentre.
Variables (direc : string) (roster : list Row) (ncomp : Z) (para : PyDict).
Variables (c1 c2 : Z).

Abbreviation ff := (chunk_file dc c1 c2).

Lemma open_chunk_spec w :
  chunk_openable w direc ff ->
  exists w0,
    open_chunk direc ff roster w
    = (Return (map (count_records (initial_asdf w direc ff)) roster), w0) /\
    listdir (fs w0) direc !! ff = Some (H5File (initial_asdf w direc ff)) /\
    remote_calls w0 = remote_calls w /\
    (is_h5 w direc ff -> w0 = w).
Proof.
  unfold chunk_openable, open_chunk, initial_asdf, isfile, is_h5.
  destruct (listdir (fs w) direc !! ff) as [[text|rows|ds|]|] eqn:E;
    intros Hopen; try contradiction.
  - exists w. rewrite E. auto.
  - exists (set_fs (write_file direc ff (H5File empty_asdf)) w).
    split; [|split; [apply listdir_write_file|split; [reflexivity|]]].
    + reflexivity.
    + intros [ds Hds]. discriminate.
Qed.

Lemma zip_map {A B} (f : A -> B) (l : list A) :
  zip l (map f l) = map (fun x => (x, f x)) l.
Proof. induction l as [|x l IH]; [reflexivity|]. cbn. rewrite IH. reflexivity. Qed.

(** The chunk, as a loop over the entries with their recorded counts. *)
Lemma process_chunk_unfold new_tags w :
  chunk_openable w direc ff ->
  exists w0,
    process_chunk dc direc roster ncomp para c1 c2 new_tags w
    = for_each (station_step dc direc ff ncomp para c1 c2)
               (map (fun row => (row, count_records (initial_asdf w direc ff) row))
                    roster)
               new_tags w0 /\
    listdir (fs w0) direc !! ff = Some (H5File (initial_asdf w direc ff)) /\
    remote_calls w0 = remote_calls w /\
    (is_h5 w direc ff -> w0 = w).
Proof.
  intros Hopen. destruct (open_chunk_spec w Hopen) as (w0 & Hrun & H).
  exists w0. split; [|exact H].
  unfold process_chunk. rewrite bind_run, Hrun, zip_map. reflexivity.
Qed.

Lemma clean_without_empty b fates :
  EmptyResult ∉ fates -> clean b fates = true.
Proof.
  revert b. induction fates as [|f fates IH]; intros b Hne; [reflexivity|].
  apply not_elem_of_cons in Hne as [Hf Hne].
  destruct f; cbn [clean]; try apply IH; try exact Hne. contradiction.
Qed.

Lemma int16_small z : 0 <= z < 32768 -> int16 z = z.
Proof. intros Hz. unfold int16. rewrite Z.mod_small by lia. lia. Qed.

Lemma full_station_skipped ds row :
  ncomp < 32768 ->
  Z.of_nat (size (get_waveform_tags ds (tname row))) = ncomp ->
  fate dc ncomp para c1 c2 (row, count_records ds row) = Skipped.
Proof.
  intros Hsmall Hfull.
  assert (Hcount : count_records ds row = ncomp).
  { unfold count_records. case_bool_decide as Hin.
    - rewrite int16_small by lia. exact Hfull.
    - assert (Hnone : waveform_tags ds !! tname row = None).
      { apply not_elem_of_dom. unfold waveforms_list in Hin. set_solver. }
      unfold get_waveform_tags in Hfull. rewrite Hnone in Hfull.
      cbn [default] in Hfull. rewrite size_empty in Hfull. lia. }
  unfold fate. rewrite Hcount, Z.eqb_refl. reflexivity.
Qed.

End ProcessChunk.

(** C1. When the file of the chunk already holds, for the station of every
    entry of the station list, as many waveform tags as there are channels
    ([ncomp], which fits the 16-bit counters of [num_records]), the chunk
    ends without a single request to the data centre and leaves the world as
    it found it: every entry is skipped before [get_stations] and
    [get_waveforms] are called. *)
Theorem complete_chunk_is_skipped dc direc roster ncomp para c1 c2 new_tags
    w ds :
  ncomp < 32768 ->
  listdir (fs w) direc !! chunk_file dc c1 c2 = Some (H5File ds) ->
  (forall row, row ∈ roster ->
     Z.of_nat (size (get_waveform_tags ds (tname row))) = ncomp) ->
  let run := process_chunk dc direc roster ncomp para c1 c2 new_tags w in
  run = (Return new_tags, w) /\
  remote_calls (snd run) = remote_calls w.
Proof.
  intros Hncomp Hfile Hfull run.
  assert (Hrun : run = (Return new_tags, w)); [|rewrite Hrun; auto].
  subst run.
  assert (Hopen : chunk_openable w direc (chunk_file dc c1 c2))
    by (unfold chunk_openable; rewrite Hfile; exact I).
  assert (Hh5 : is_h5 w direc (chunk_file dc c1 c2)) by (exists ds; exact Hfile).
  destruct (process_chunk_unfold dc direc roster ncomp para c1 c2 new_tags w Hopen)
    as (w0 & -> & Hfile0 & _ & Hsame).
  rewrite (Hsame Hh5) in *.
  assert (Hds : initial_asdf w direc (chunk_file dc c1 c2) = ds)
    by (unfold initial_asdf; rewrite Hfile; reflexivity).
  rewrite Hds in *.
  assert (Hfates : forall e,
             e ∈ map (fun row => (row, count_records ds row)) roster ->
             fate dc ncomp para c1 c2 e = Skipped).
  { intros e Hin. apply list_elem_of_fmap in Hin as (row & -> & Hrow).
    apply full_station_skipped; [exact Hncomp | apply Hfull, Hrow]. }
  destruct (station_loop_spec dc direc (chunk_file dc c1 c2) ncomp para c1 c2
              (map (fun row => (row, count_records ds row)) roster)
              new_tags w ds Hfile)
    as (_ & ds' & calls & _ & _ & _ & _ & Hskip).
  - apply clean_without_empty. intros Hin.
    apply list_elem_of_fmap in Hin as (e & Hf & Hin).
    rewrite (Hfates e Hin) in Hf. discriminate.
  - apply Hskip. exact Hfates.
Qed.

Lemma complete_chunk_is_skipped_witness :
  let ds := {| stationxml := ∅;
               waveform_tags := {[ "CI.RPV" := {[ "bhz_00" ]} ]} |} in
  let w := {| fs := {[ "/data/RAW_DATA" := {[ "0T86400.h5" := H5File ds ]} ]};
              remote_calls := []; stage_log := [] |} in
  let run := process_chunk Examples.dc_ok "/data/RAW_DATA"
               [Examples.row "RPV" "BHZ"] 1 [] 0 86400 None w in
  run = (Return None, w) /\ remote_calls (snd run) = [].
Proof.
  apply (complete_chunk_is_skipped Examples.dc_ok "/data/RAW_DATA"
           [Examples.row "RPV" "BHZ"] 1 [] 0 86400 None
           {| fs := {[ "/data/RAW_DATA" :=
                         {[ "0T86400.h5" :=
                              H5File {| stationxml := ∅;
                                        waveform_tags :=
                                          {[ "CI.RPV" := {[ "bhz_00" ]} ]} |} ]} ]};
              remote_calls := []; stage_log := [] |}
           {| stationxml := ∅;
              waveform_tags := {[ "CI.RPV" := {[ "bhz_00" ]} ]} |}).
  - lia.
  - vm_compute. reflexivity.
  - intros row Hrow. apply list_elem_of_singleton in Hrow as ->.
    vm_compute. reflexivity.
Defined.

Section ChunkOutcome.

Local Open Scope string_scope.
Local Open Scope Z_scope.

Variable dc : DataCentre.
Variables (direc : string) (roster : list Row) (ncomp : Z) (para : PyDict).
Variables (c1 c2 : Z).

Abbreviation ff := (chunk_file dc c1 c2).
Abbreviation fate_of w := (row_fate dc direc ncomp para c1 c2 w).

Lemma tags_in_file w ds station :
  listdir (fs w) direc !! ff = Some (H5File ds) ->
  tags_in w direc ff station = get_waveform_tags ds station.
Proof. intros H. unfold tags_in, initial_asdf. rewrite H. reflexivity. Qed.

(** A chunk whose loop is clean: it returns, and the file holds what it
    held plus the waveforms of the entries that were stored. *)
Lemma process_chunk_spec new_tags w :
  chunk_openable w direc ff ->
  clean (bound new_tags) (map (fate_of w) roster) = true ->
  let run := process_chunk dc direc roster ncomp para c1 c2 new_tags w in
  (exists nt, fst run = Return nt) /\
  is_h5 (snd run) direc ff /\
  (exists calls,
     remote_calls (snd run) = (remote_calls w ++ calls)%list /\
     forall r, r ∈ roster ->
       fate_of w r = Stored \/ fate_of w r = EmptyResult ->
       GetWaveforms (net r) (sta r) (chan r) (location r) c1 c2 ∈ calls) /\
  (forall station tag,
     tag ∈ tags_in (snd run) direc ff station
     <-> tag ∈ tags_in w direc ff station
         \/ exists r, r ∈ roster /\ fate_of w r = Stored /\
                      tname r = station /\ waveform_tag r = tag).
Proof.
  intros Hopen Hclean run. subst run.
  destruct (process_chunk_unfold dc direc roster ncomp para c1 c2 new_tags w
              Hopen) as (w0 & -> & Hfile0 & Hcalls0 & _).
  set (ds0 := initial_asdf w direc ff) in *.
  set (es := map (fun row => (row, count_records ds0 row)) roster).
  assert (Hfates : map (fate dc ncomp para c1 c2) es = map (fate_of w) roster).
  { subst es. rewrite map_map. reflexivity. }
  rewrite <- Hfates in Hclean.
  destruct (station_loop_spec dc direc ff ncomp para c1 c2 es new_tags w0 ds0
              Hfile0 Hclean)
    as (Hret & ds' & calls & Hfile' & Hcalls' & Htags & Hgw & _).
  split; [exact Hret|]. split; [exists ds'; exact Hfile'|]. split.
  - exists calls. split; [rewrite Hcalls', Hcalls0; reflexivity|].
    intros r Hr Hf.
    apply (Hgw (r, count_records ds0 r)); [|exact Hf].
    subst es. apply list_elem_of_fmap. exists r. auto.
  - intros station tag.
    rewrite (tags_in_file _ ds' station Hfile'), Htags.
    fold (tags_in w direc ff station). split.
    + intros [H|(e & He & Hf & Hn & Ht)]; [left; exact H|].
      subst es. apply list_elem_of_fmap in He as (r & -> & Hr).
      right. exists r. auto.
    + intros [H|(r & Hr & Hf & Hn & Ht)]; [left; exact H|].
      right. exists (r, count_records ds0 r).
      split; [subst es; apply list_elem_of_fmap; exists r; auto | auto].
Qed.

End ChunkOutcome.

Section Retry.

Local Open Scope Z_scope.

Lemma count_records_tags ds row :
  count_records ds row
  = int16 (Z.of_nat (size (get_waveform_tags ds (tname row)))).
Proof.
  unfold count_records. case_bool_decide as Hin; [reflexivity|].
  assert (Hnone : waveform_tags ds !! tname row = None).
  { apply not_elem_of_dom. unfold waveforms_list in Hin. set_solver. }
  unfold get_waveform_tags. rewrite Hnone. cbn [default].
  rewrite size_empty. reflexivity.
Qed.

Lemma fate_skipped dc ncomp para c1 c2 row n :
  fate dc ncomp para c1 c2 (row, n) = Skipped <-> n = ncomp.
Proof.
  unfold fate. destruct (Z.eqb_spec n ncomp) as [->|Hne].
  - split; reflexivity.
  - split; [|contradiction].
    destruct (get_stations dc _ _ _ _ _); [|discriminate].
    destruct (get_waveforms dc _ _ _ _ _ _); [|discriminate].
    destruct (0 <? _)%nat; discriminate.
Qed.

Lemma rerun_skips dc direc ncomp para c1 c2 w row :
  row_fate dc direc ncomp para c1 c2 w row = Skipped
  <-> int16 (Z.of_nat (size (tags_in w direc (chunk_file dc c1 c2)
                                     (tname row)))) = ncomp.
Proof.
  unfold row_fate. rewrite fate_skipped, count_records_tags. reflexivity.
Qed.

End Retry.




(** ** An empty preprocessed result *)

(** C7. For an entry whose preprocessed result is empty, the turn of the
    loop stores no waveform; when [new_tags] has been assigned by an earlier
    entry the loop goes on to the next entry, but when it has not (the entry
    is the first of the run to be fetched) line 306 raises
    [UnboundLocalError], which nothing catches. *)
Theorem empty_result_needs_new_tags dc direc ff ncomp para s1 s2 e w ds :
  listdir (fs w) direc !! ff = Some (H5File ds) ->
  fate dc ncomp para s1 s2 e = EmptyResult ->
  let run nt := station_step dc direc ff ncomp para s1 s2 e nt w in
  fst (run None) = Raise (UnboundLocalError "new_tags") /\
  (forall tag, fst (run (Some tag)) = Return (Some tag)) /\
  (forall nt station,
     tags_in (snd (run nt)) direc ff station = tags_in w direc ff station).
Proof.
  intros Hfile Hfate run.
  assert (Hspec : forall nt,
             fst (run nt) = step_result dc ncomp para s1 s2 e nt /\
             forall station,
               tags_in (snd (run nt)) direc ff station
               = tags_in w direc ff station).
  { intros nt.
    destruct (station_step_spec dc direc ff ncomp para s1 s2 e nt w ds Hfile)
      as (Hres & ds' & calls & Hfile' & _ & Htags & _).
    split; [exact Hres|]. intros station.
    rewrite Hfate in Htags. cbn in Htags.
    unfold tags_in, initial_asdf. fold (run nt) in Hfile'.
    rewrite Hfile', Hfile. apply tags_same. exact Htags. }
  split; [|split].
  - rewrite (proj1 (Hspec None)). unfold step_result. rewrite Hfate. reflexivity.
  - intros tag. rewrite (proj1 (Hspec (Some tag))).
    unfold step_result. rewrite Hfate. reflexivity.
  - intros nt station. apply (proj2 (Hspec nt)).
Qed.

Lemma empty_result_needs_new_tags_witness :
  let w := {| fs := {[ "/data/RAW_DATA"%string :=
                         {[ "0T86400.h5"%string := H5File empty_asdf ]} ]};
              remote_calls := []; stage_log := [] |} in
  fst (station_step Examples.dc_gap "/data/RAW_DATA" "0T86400.h5" 1 [] 0 86400
                    (Examples.row "RPV" "BHZ", 0) None w)
  = Raise (UnboundLocalError "new_tags") /\
  fst (download Examples.dc_gap 0 1 "/data" ["BHZ"%string] ["*"%string]
                [0] [86400] 24 Examples.empty_world)
  = Raise (UnboundLocalError "new_tags").
Proof.
  intros w. split; [|vm_compute; reflexivity].
  assert (Hfile : listdir (fs w) "/data/RAW_DATA" !! "0T86400.h5"%string
                  = Some (H5File empty_asdf)) by (vm_compute; reflexivity).
  assert (Hfate : fate Examples.dc_gap 1 [] 0 86400
                       (Examples.row "RPV" "BHZ", 0) = EmptyResult)
    by (vm_compute; reflexivity).
  destruct (empty_result_needs_new_tags Examples.dc_gap "/data/RAW_DATA"
              "0T86400.h5" 1 [] 0 86400 (Examples.row "RPV" "BHZ", 0) w
              empty_asdf Hfile Hfate) as [H _].
  exact H.
Defined.

(** * Further properties of the code *)

(** ** The command line *)

(** X1. The subcommand [make_step_parser] registers for a step is read back
    by [main_cli] as that step, and the four subcommands are distinct.  A
    first word is accepted exactly when it is one of the four subcommands;
    for any other the parser ends the process, so that line 186 never
    raises [KeyError]. *)
Theorem subcommand_round_trip :
  (forall s, main_cli_step (subcommand s) = Return s) /\
  NoDup subparsers /\
  (forall cmd s, main_cli_step cmd = Return s <-> cmd = subcommand s) /\
  (forall cmd,
     (forall s, cmd <> subcommand s) -> main_cli_step cmd = Raise SystemExit) /\
  (forall cmd key, main_cli_step cmd <> Raise (KeyError key)).
Proof.
  assert (Hsub : forall cmd, cmd ∈ subparsers <-> exists s, cmd = subcommand s).
  { intros cmd. unfold subparsers. rewrite list_elem_of_fmap. split.
    - intros (s & -> & _). exists s. reflexivity.
    - intros (s & ->). exists s. split; [reflexivity|].
      destruct s; unfold Step_members; set_solver. }
  assert (Hback : forall s, main_cli_step (subcommand s) = Return s).
  { intros s. unfold main_cli_step. rewrite bool_decide_eq_true_2.
    - destruct s; reflexivity.
    - apply Hsub. exists s. reflexivity. }
  assert (Hinj : forall s s', subcommand s = subcommand s' -> s = s').
  { intros s s' H. destruct s, s'; first [reflexivity | discriminate H]. }
  split; [exact Hback|].
  split; [apply (bool_decide_unpack _); vm_compute; reflexivity|].
  split; [|split].
  - intros cmd s. split; [|intros ->; apply Hback].
    unfold main_cli_step. case_bool_decide as Hin; [|discriminate].
    apply Hsub in Hin as (s' & ->). intros H.
    assert (Hs' : Step_getitem (str_upper (subcommand s')) = Return s')
      by (destruct s'; reflexivity).
    rewrite Hs' in H. injection H as <-. reflexivity.
  - intros cmd Hnone. unfold main_cli_step.
    rewrite bool_decide_eq_false_2; [reflexivity|].
    intros Hin. apply Hsub in Hin as (s & ->). apply (Hnone s). reflexivity.
  - intros cmd key. unfold main_cli_step. case_bool_decide as Hin; [|discriminate].
    apply Hsub in Hin as (s & ->). destruct s; discriminate.
Qed.

Section Split.

Local Open Scope string_scope.

Variable sep : ascii.

Lemma py_split_cons s : exists piece pieces, py_split sep s = piece :: pieces.
Proof.
  induction s as [|c s (piece & pieces & IH)]; cbn [py_split].
  - eauto.
  - destruct (Ascii.eqb c sep); [eauto|]. rewrite IH. eauto.
Qed.

Lemma py_join_cons piece piece' pieces :
  py_join sep (piece :: piece' :: pieces)
  = piece ++ String sep (py_join sep (piece' :: pieces)).
Proof. reflexivity. Qed.

End Split.

(** X2. Splitting an option value at the commas (the [type] of the options
    [--stations] and [--channels]) never gives an empty list: there is one
    piece more than there are commas, no piece holds a comma, and joining
    the pieces with commas gives the value back. *)
Theorem split_at_commas (sep : ascii) (s : string) :
  py_join sep (py_split sep s) = s /\
  length (py_split sep s) = S (str_count sep s) /\
  Forall (fun piece => str_count sep piece = 0%nat) (py_split sep s).
Proof.
  induction s as [|c s (Hjoin & Hlen & Hpieces)].
  - repeat split. constructor; [reflexivity | constructor].
  - cbn [py_split str_count].
    destruct (py_split_cons sep s) as (piece & pieces & E).
    rewrite E in *.
    destruct (Ascii.eqb_spec c sep) as [->|Hne].
    + split; [|split].
      * rewrite py_join_cons, Hjoin. reflexivity.
      * cbn [length] in *. lia.
      * constructor; [reflexivity | exact Hpieces].
    + split; [|split].
      * rewrite <- Hjoin. destruct pieces; reflexivity.
      * cbn [length] in *. lia.
      * inversion Hpieces as [|? ? Hp Hps]; subst.
        constructor; [|exact Hps].
        cbn [str_count]. destruct (Ascii.eqb_spec c sep); [contradiction|].
        exact Hp.
Qed.

(** ** The download stage: tags, partition, memory *)

Section Lower.

Local Open Scope string_scope.

Lemma lower_char_idem c : lower_char (lower_char c) = lower_char c.
Proof. destruct c as [[] [] [] [] [] [] [] []]; reflexivity. Qed.

Lemma str_lower_idem s : str_lower (str_lower s) = str_lower s.
Proof.
  induction s as [|c s IH]; [reflexivity|].
  cbn [str_lower]. rewrite lower_char_idem, IH. reflexivity.
Qed.

Lemma str_lower_append a b : str_lower (a ++ b) = str_lower a ++ str_lower b.
Proof.
  induction a as [|c a IH]; [reflexivity|].
  rewrite append_cons. cbn [str_lower]. rewrite IH. reflexivity.
Qed.

End Lower.

(** X3. The tag under which a waveform is stored is in lower case, and it is
    the same for two entries whose channels differ by the case of their
    letters only and whose locations are the same. *)
Theorem waveform_tag_lower_case (row row' : Row) :
  str_lower (waveform_tag row) = waveform_tag row /\
  (str_lower (chan row) = str_lower (chan row') ->
   location row = location row' ->
   waveform_tag row = waveform_tag row').
Proof.
  split.
  - unfold waveform_tag. rewrite !str_lower_append, !str_lower_idem. reflexivity.
  - intros Hchan Hloc. unfold waveform_tag. rewrite Hchan, Hloc. reflexivity.
Qed.

(** X4. The share of a worker: with [W] workers and [splits] chunks, the
    worker of rank [r] loops over [ceil((splits - r) / W)] chunks, which is
    [floor(splits / W)] or one more, and over none when its rank is not
    below the number of chunks. *)
Theorem worker_share {T} (all_chunk : list T) (W r : Z) :
  0 < W -> 0 <= r < W ->
  let splits := Z.of_nat (length all_chunk) - 1 in
  exists idxs,
    worker_chunks r W all_chunk = Return idxs /\
    (0 <= splits ->
     Z.of_nat (length idxs) = (splits - r + W - 1) / W /\
     splits / W <= Z.of_nat (length idxs) <= splits / W + 1) /\
    (splits <= r -> idxs = []).
Proof.
  intros HW Hr splits. eexists. split; [apply py_range_pos; exact HW|].
  rewrite length_map, length_seq. fold splits.
  assert (Hlen : range_len r splits W = Z.to_nat ((splits - r + W - 1) / W)).
  { unfold range_len. destruct (Z.ltb_spec 0 W); [reflexivity | lia]. }
  rewrite Hlen. split.
  - intros Hs.
    pose proof (Z.div_mod splits W ltac:(lia)) as Hdm.
    pose proof (Z.mod_pos_bound splits W HW) as Hmod.
    pose proof (Z.div_mod (splits - r + W - 1) W ltac:(lia)) as Hdm'.
    pose proof (Z.mod_pos_bound (splits - r + W - 1) W HW) as Hmod'.
    assert (0 <= (splits - r + W - 1) / W) by (apply Z.div_pos; lia).
    rewrite Z2Nat.id by assumption. split; [reflexivity|]. nia.
  - intros Hs.
    assert (Hq : (splits - r + W - 1) / W <= 0).
    { apply Z.lt_succ_r. apply Z.div_lt_upper_bound; lia. }
    replace (Z.to_nat ((splits - r + W - 1) / W)) with 0%nat by lia.
    reflexivity.
Qed.

Lemma worker_share_witness :
  exists idxs,
    worker_chunks 1 2 [0; 24; 48; 72; 96; 120] = Return idxs /\
    (0 <= 5 ->
     Z.of_nat (length idxs) = (5 - 1 + 2 - 1) / 2 /\
     5 / 2 <= Z.of_nat (length idxs) <= 5 / 2 + 1) /\
    (5 <= 1 -> idxs = []).
Proof. apply (worker_share [0; 24; 48; 72; 96; 120] 2 1); lia. Defined.

(** X5. The loop over the chunks stays within the chunk list: for every
    index [ick] of a worker's loop, [all_chunk[ick]] and [all_chunk[ick+1]]
    exist, so that lines 231-232 never raise [IndexError]. *)
Theorem chunk_indices_in_bounds {T} (all_chunk : list T) (W r : Z) :
  0 < W -> 0 <= r ->
  exists idxs,
    worker_chunks r W all_chunk = Return idxs /\
    forall ick, In ick idxs ->
      (exists c1, py_index all_chunk ick = Return c1) /\
      (exists c2, py_index all_chunk (ick + 1) = Return c2).
Proof.
  intros HW Hr. eexists. split; [apply py_range_pos; exact HW|].
  intros ick Hin. apply in_range_list in Hin as [[Hlo Hhi] _]; [|exact HW].
  assert (Hidx : forall i, 0 <= i < Z.of_nat (length all_chunk) ->
                           exists c, py_index all_chunk i = Return c).
  { intros i Hi. unfold py_index.
    destruct (Z.ltb_spec i 0); [lia|].
    destruct (Z.leb_spec 0 i); [|lia].
    destruct (Z.ltb_spec i (Z.of_nat (length all_chunk))); [|lia].
    cbn [andb].
    destruct (all_chunk !! Z.to_nat i) as [c|] eqn:E; [eauto|].
    apply lookup_ge_None in E. lia. }
  split; apply Hidx; lia.
Qed.

Lemma chunk_indices_in_bounds_witness :
  exists idxs,
    worker_chunks 0 2 [0; 86400; 172800] = Return idxs /\
    forall ick, In ick idxs ->
      (exists c1, py_index [0; 86400; 172800] ick = Return c1) /\
      (exists c2, py_index [0; 86400; 172800] (ick + 1) = Return c2).
Proof. apply (chunk_indices_in_bounds [0; 86400; 172800] 2 0); lia. Defined.

(** X6. The advice of the error message ("Reduce inc_hours to avoid this
    issue") is sound for chunks of less than [2^41] hours in either
    direction: when the memory check passes for a station count and a chunk
    length, it passes for every smaller station count and every shorter
    chunk; a chunk of [inc_hours] hours is counted [8 * inc_hours - 3]
    windows. *)
Theorem check_memory_monotone (nsta nsta' inc_hours inc_hours' : Z) :
  0 <= nsta' <= nsta -> nsta < 2 ^ 63 ->
  - 2 ^ 41 < inc_hours' <= inc_hours -> inc_hours < 2 ^ 41 ->
  check_memory nsta inc_hours = Return tt ->
  nseg_chunk inc_hours = Return (8 * inc_hours - 3) /\
  check_memory nsta' inc_hours' = Return tt.
Proof.
  intros Hn Hn63 Hh Hh41 Hok.
  split; [apply nseg_chunk_exact; lia|].
  destruct (check_memory_spec nsta inc_hours ltac:(lia) ltac:(lia))
    as (size & _ & _ & Hc).
  destruct (check_memory_spec nsta' inc_hours' ltac:(lia) ltac:(lia))
    as (size' & _ & _ & Hc').
  rewrite Hc in Hok. rewrite Hc'.
  destruct (Z.leb_spec (spec_bytes nsta (inc_hours * 3600)) ceiling_bytes)
    as [Hle|]; [|discriminate].
  destruct (Z.leb_spec (spec_bytes nsta' (inc_hours' * 3600)) ceiling_bytes)
    as [|Hgt]; [reflexivity|exfalso].
  unfold spec_bytes, spec_points in *. rewrite !spec_windows_hours in *.
  unfold cc_len, samp_freq, ceiling_bytes in *.
  change (5 * 1024 ^ 3) with 5368709120 in *.
  destruct (Z.le_gt_cases inc_hours' 0) as [Hnp|Hp]; nia.
Qed.

Lemma check_memory_monotone_witness :
  check_memory 100 24 = Return tt /\
  nseg_chunk 24 = Return (8 * 24 - 3) /\
  check_memory 50 12 = Return tt.
Proof.
  assert (H : check_memory 100 24 = Return tt) by (vm_compute; reflexivity).
  split; [exact H|].
  apply (check_memory_monotone 100 50 24 12);
    [lia | reflexivity | split; [reflexivity | lia] | reflexivity | exact H].
Defined.

(** ** The station list *)

Section ForEach.

Context {S A B : Type}.
Variable body : A -> B -> Run S B.

Lemma for_each_raises (l : list A) x :
  x ∈ l -> (forall b, raises (body x b)) -> forall b, raises (for_each body l b).
Proof.
  intros Hin Hx. induction l as [|y l IH]; [inversion Hin|].
  intros b s. cbn [for_each]. rewrite bind_run.
  apply elem_of_cons in Hin as [<-|Hin].
  - destruct (Hx b s) as [e He].
    destruct (body x b s) as [[b'|e'] s']; simpl in He; [discriminate|].
    exists e'. reflexivity.
  - destruct (body y b s) as [[b'|e'] s']; [apply IH, Hin | exists e'; reflexivity].
Qed.

Lemma for_each_invariant (I : B -> Prop) (l : list A) :
  (forall x b s b', x ∈ l -> I b -> fst (body x b s) = Return b' -> I b') ->
  forall b s b', I b -> fst (for_each body l b s) = Return b' -> I b'.
Proof.
  induction l as [|y l IH]; intros Hbody b s b' Hb Hrun.
  - injection Hrun as <-. exact Hb.
  - cbn [for_each] in Hrun. rewrite bind_run in Hrun.
    destruct (body y b s) as [[b1|e] s1] eqn:E; [|discriminate].
    apply (IH (fun x b s b' Hx => Hbody x b s b' (list_elem_of_further _ _ _ Hx))
              b1 s1 b'); [|exact Hrun].
    apply (Hbody y b s b1); [apply list_elem_of_here | exact Hb |].
    rewrite E. reflexivity.
Qed.

End ForEach.

Section Roster.

Local Open Scope string_scope.

Lemma rows_of_stations_spec kcode ichan (l : list Station) :
  (Forall (fun tsta => sta_channels tsta <> []) l ->
   exists rows,
     rows_of_stations kcode ichan l = Return rows /\
     Forall2 (fun tsta r =>
                net r = kcode /\ sta r = sta_code tsta /\ chan r = ichan /\
                lon r = longitude tsta /\ lat r = latitude tsta /\
                elev r = elevation tsta /\
                exists c cs,
                  sta_channels tsta = c :: cs /\
                  (location_code c = "" -> location r = "*") /\
                  (location_code c <> "" -> location r = location_code c))
             l rows) /\
  (Exists (fun tsta => sta_channels tsta = []) l ->
   rows_of_stations kcode ichan l = Raise IndexError).
Proof.
  induction l as [|tsta l [IHok IHbad]]; split.
  - intros _. exists []. split; [reflexivity | constructor].
  - intros H. inversion H.
  - intros Hall. inversion Hall as [|? ? Hch Hl]; subst.
    destruct (IHok Hl) as (rows & Hrows & Hwf).
    cbn [rows_of_stations]. unfold first_location.
    destruct (sta_channels tsta) as [|c cs] eqn:Ech; [contradiction|].
    cbn. rewrite Hrows. cbn.
    eexists. split; [reflexivity|].
    constructor; [|exact Hwf]. cbn. repeat (split; [reflexivity|]).
    exists c, cs. split; [exact Ech|].
    destruct (String.eqb_spec (location_code c) "") as [E|E].
    + split; [reflexivity | contradiction].
    + split; [contradiction | reflexivity].
  - intros Hex. cbn [rows_of_stations]. unfold first_location.
    destruct (sta_channels tsta) as [|c cs] eqn:E; [reflexivity|].
    cbn. rewrite IHbad; [reflexivity|].
    inversion Hex as [? ? H|? ? H]; subst; [congruence | exact H].
Qed.

Lemma rows_of_stations_raises kcode ichan (l : list Station) e :
  rows_of_stations kcode ichan l = Raise e -> e = IndexError.
Proof.
  induction l as [|tsta l IH]; [discriminate|].
  cbn [rows_of_stations]. unfold first_location.
  destruct (sta_channels tsta); [intros [= <-]; reflexivity|].
  cbn. destruct (rows_of_stations kcode ichan l); cbn; [discriminate|].
  intros [= <-]. apply IH. reflexivity.
Qed.

End Roster.

(** X7. The entries one answer of the data centre adds to the station list:
    one entry per station of the answer, in the order of the answer, with
    the code of its network, its own code and coordinates, the channel that
    was asked for and the location code of its first channel -- kept when
    it is not empty, replaced by ['*'] when it is; a station without any
    channel makes line 169 raise [IndexError]. *)
Theorem rows_of_inventory_spec (ichan : string) (inv : Inventory) :
  let stations :=
    flat_map (fun K => map (fun tsta => (net_code K, tsta)) (net_stations K))
             inv in
  (Forall (fun kt => sta_channels (snd kt) <> []) stations ->
   exists rows,
     rows_of_inventory ichan inv = Return rows /\
     Forall2 (fun kt r =>
                net r = fst kt /\ sta r = sta_code (snd kt) /\
                chan r = ichan /\
                lon r = longitude (snd kt) /\ lat r = latitude (snd kt) /\
                elev r = elevation (snd kt) /\
                exists c cs,
                  sta_channels (snd kt) = c :: cs /\
                  (location_code c = ""%string -> location r = "*"%string) /\
                  (location_code c <> ""%string ->
                   location r = location_code c))
             stations rows) /\
  (Exists (fun kt => sta_channels (snd kt) = []) stations ->
   rows_of_inventory ichan inv = Raise IndexError).
Proof.
  induction inv as [|K inv [IHok IHbad]]; cbn zeta; split.
  - intros _. exists []. split; [reflexivity | constructor].
  - intros H. inversion H.
  - cbn [flat_map]. intros Hall. apply Forall_app in Hall as [HK Hinv].
    destruct (rows_of_stations_spec (net_code K) ichan (net_stations K))
      as [HokK _].
    destruct HokK as (rows & Hrows & Hwf).
    { apply Forall_forall. intros tsta Ht.
      rewrite Forall_forall in HK. apply (HK (net_code K, tsta)).
      apply list_elem_of_fmap. exists tsta. auto. }
    destruct (IHok Hinv) as (rows' & Hrows' & Hwf').
    cbn [rows_of_inventory]. rewrite Hrows. cbn. rewrite Hrows'. cbn.
    eexists. split; [reflexivity|].
    apply Forall2_app; [|exact Hwf'].
    apply Forall2_fmap_l. exact Hwf.
  - cbn [flat_map]. intros Hex. apply Exists_app in Hex as [HK|Hinv].
    + destruct (rows_of_stations_spec (net_code K) ichan (net_stations K))
        as [_ HbadK].
      cbn [rows_of_inventory]. rewrite HbadK; [reflexivity|].
      apply Exists_exists in HK as ([k tsta] & Hin & Hch).
      apply list_elem_of_fmap in Hin as (tsta' & [= -> ->] & Hin).
      apply Exists_exists. exists tsta'. auto.
    + cbn [rows_of_inventory].
      destruct (rows_of_stations (net_code K) ichan (net_stations K))
        as [rows|e] eqn:E.
      * cbn. rewrite (IHbad Hinv). reflexivity.
      * apply rows_of_stations_raises in E as ->. reflexivity.
Qed.

(** ** What a run of [download] keeps *)

Section WorkerInvariant.

Local Open Scope string_scope.

Variables (dc : DataCentre) (rank : Z) (rootpath : string).
Abbreviation direc := (path_join rootpath "RAW_DATA").

(** A relation that the primitive steps of the loop over the chunks keep:
    logging a request, adding a StationXML or a waveform to a chunk file,
    creating a chunk file where there is no file. *)
Variable P : World -> World -> Prop.
Hypothesis P_refl : forall w, P w w.
Hypothesis P_trans : forall w1 w2 w3, P w1 w2 -> P w2 w3 -> P w1 w3.
Hypothesis P_log : forall c w, P w (log_call c w).
Hypothesis P_xml : forall c1 c2 inv w,
  P w (update_asdf direc (chunk_file dc c1 c2) (add_stationxml inv) w).
Hypothesis P_wave : forall c1 c2 tn tag w,
  P w (update_asdf direc (chunk_file dc c1 c2) (add_waveforms tn tag) w).
Hypothesis P_create : forall c1 c2 w,
  isfile (fs w) direc (chunk_file dc c1 c2) = false ->
  P w (set_fs (write_file direc (chunk_file dc c1 c2) (H5File empty_asdf)) w).
Hypothesis P_setup : rank = 0%Z ->
  forall roster para starttime endtime inc_hours,
    keeps P (coordinator_setup rootpath direc roster para starttime endtime
                               inc_hours).

Ltac keep_P :=
  repeat first
    [ apply keeps_ret; exact P_refl
    | apply keeps_raise; exact P_refl
    | apply keeps_lift; exact P_refl
    | apply keeps_for_each; [exact P_refl | exact P_trans | intros ? ?]
    | apply keeps_bind; [exact P_trans | | intros ?]
    | match goal with
      | |- keeps _ (modify (update_asdf _ _ (add_stationxml _))) =>
          intros ?; apply P_xml
      | |- keeps _ (modify (update_asdf _ _ (add_waveforms _ _))) =>
          intros ?; apply P_wave
      | |- keeps _ (modify (log_call _)) => intros ?; apply P_log
      | |- keeps _ (match ?x with _ => _ end) => destruct x
      | |- keeps _ (let '(_, _) := ?x in _) => destruct x
      end ].

Lemma gather_stations_keeps sta_list chan_list t0 t1 :
  keeps P (gather_stations dc sta_list chan_list t0 t1).
Proof. unfold gather_stations. keep_P. Qed.

Lemma station_step_keeps ncomp para c1 c2 entry new_tags :
  keeps P (station_step dc direc (chunk_file dc c1 c2) ncomp para c1 c2 entry
                        new_tags).
Proof. unfold station_step. keep_P. Qed.

Lemma open_chunk_keeps c1 c2 roster :
  keeps P (open_chunk direc (chunk_file dc c1 c2) roster).
Proof.
  intros w. unfold open_chunk.
  destruct (isfile (fs w) direc (chunk_file dc c1 c2)) eqn:E.
  - destruct (listdir (fs w) direc !! chunk_file dc c1 c2) as [[]|];
      apply P_refl.
  - apply P_create. exact E.
Qed.

Lemma process_chunk_keeps roster ncomp para c1 c2 new_tags :
  keeps P (process_chunk dc direc roster ncomp para c1 c2 new_tags).
Proof.
  unfold process_chunk.
  apply keeps_bind; [exact P_trans | apply open_chunk_keeps | intros nr].
  apply keeps_for_each; [exact P_refl | exact P_trans |].
  intros e nt. apply station_step_keeps.
Qed.

Lemma download_keeps size chan_list sta_list start_date end_date inc_hours :
  keeps P (download dc rank size rootpath chan_list sta_list start_date
                    end_date inc_hours).
Proof.
  unfold download.
  apply keeps_bind; [exact P_trans | keep_P | intros starttime].
  apply keeps_bind; [exact P_trans | keep_P | intros endtime].
  apply keeps_bind; [exact P_trans | apply gather_stations_keeps | intros roster].
  apply keeps_bind; [exact P_trans | keep_P | intros _].
  apply keeps_bind; [exact P_trans | | intros all_chunk].
  - destruct (Z.eqb_spec rank 0) as [Hr|Hr]; [apply P_setup; exact Hr|].
    destruct (get_event_list starttime endtime inc_hours) as [l|e]; [|keep_P].
    destruct (length l <? 1)%nat; keep_P.
  - apply keeps_bind; [exact P_trans | keep_P | intros idxs].
    apply keeps_bind; [exact P_trans | | intros _].
    + apply keeps_for_each; [exact P_refl | exact P_trans |].
      intros ick nt.
      apply keeps_bind; [exact P_trans | keep_P | intros c1].
      apply keeps_bind; [exact P_trans | keep_P | intros c2].
      apply process_chunk_keeps.
    + destruct (rank =? 0)%Z; keep_P.
Qed.

End WorkerInvariant.

Section DownloadInvariants.

Local Open Scope string_scope.

Variables (dc : DataCentre) (rootpath : string).
Abbreviation raw := (path_join rootpath "RAW_DATA").

Lemma raw_not_rootpath : raw <> rootpath.
Proof.
  unfold path_join. intros H. apply (f_equal String.length) in H.
  assert (Hlen : forall a b, String.length (a ++ b)
                             = (String.length a + String.length b)%nat).
  { intros a b. induction a as [|c a IH]; [reflexivity|].
    rewrite append_cons. cbn [String.length]. rewrite IH. reflexivity. }
  rewrite !Hlen in H. cbn [String.length] in H. lia.
Qed.

Lemma chunk_file_ends_in_5 c1 c2 : last_char (chunk_file dc c1 c2) = Some "5"%char.
Proof.
  unfold chunk_file. rewrite <- !append_assoc. apply last_char_append.
Qed.

Lemma listdir_write_file_other dir dir' name e fs :
  dir <> dir' -> listdir (write_file dir name e fs) dir' = listdir fs dir'.
Proof.
  intros Hne. unfold write_file, listdir. rewrite lookup_insert_ne by exact Hne.
  reflexivity.
Qed.

(** *** The files outside RAW_DATA *)

Lemma elsewhere_refl w : files_elsewhere_kept raw w w.
Proof. intros dir name _. reflexivity. Qed.

Lemma elsewhere_trans w1 w2 w3 :
  files_elsewhere_kept raw w1 w2 -> files_elsewhere_kept raw w2 w3 ->
  files_elsewhere_kept raw w1 w3.
Proof. intros H12 H23 dir name H. rewrite H23, H12 by assumption. reflexivity. Qed.

Lemma elsewhere_write name e w :
  files_elsewhere_kept raw w (set_fs (write_file raw name e) w).
Proof.
  intros dir name' Hne. unfold file_at. cbn [set_fs fs].
  rewrite listdir_write_file_other by congruence. reflexivity.
Qed.

Lemma elsewhere_update ff f w :
  files_elsewhere_kept raw w (update_asdf raw ff f w).
Proof.
  unfold update_asdf. destruct (listdir (fs w) raw !! ff) as [[]|];
    try apply elsewhere_refl. apply elsewhere_write.
Qed.

Lemma listdir_mkdir dir dir' fs :
  isdir fs dir = false -> listdir (mkdir dir fs) dir' = listdir fs dir'.
Proof.
  intros Hdir. unfold mkdir, listdir.
  destruct (decide (dir = dir')) as [<-|Hne].
  - rewrite lookup_insert_eq. unfold isdir in Hdir.
    apply bool_decide_eq_false in Hdir.
    destruct (fs !! dir) as [m|]; [|reflexivity].
    exfalso. apply Hdir. eauto.
  - rewrite lookup_insert_ne by exact Hne. reflexivity.
Qed.

Lemma elsewhere_mkdir dir w :
  files_elsewhere_kept raw w
    (set_fs (fun fs => if isdir fs dir then fs else mkdir dir fs) w).
Proof.
  intros dir' name _. unfold file_at. cbn [set_fs fs].
  destruct (isdir (fs w) dir) eqn:E; [reflexivity|].
  rewrite (listdir_mkdir dir dir' (fs w) E). reflexivity.
Qed.

Lemma elsewhere_setup roster para starttime endtime inc_hours :
  keeps (files_elsewhere_kept raw)
        (coordinator_setup rootpath raw roster para starttime endtime
                           inc_hours).
Proof.
  unfold coordinator_setup.
  apply keeps_bind; [exact elsewhere_trans | | intros _].
  { intros w. apply elsewhere_mkdir. }
  apply keeps_bind; [exact elsewhere_trans | | intros _].
  { intros w. apply elsewhere_mkdir. }
  apply keeps_bind; [exact elsewhere_trans | | intros _].
  { intros w. apply elsewhere_write. }
  apply keeps_bind; [exact elsewhere_trans | | intros _].
  { intros w. apply elsewhere_write. }
  apply keeps_bind; [exact elsewhere_trans | | intros l].
  { apply keeps_lift. exact elsewhere_refl. }
  destruct (length l <? 1)%nat;
    [apply keeps_raise | apply keeps_ret]; exact elsewhere_refl.
Qed.

(** *** The waveforms of the chunk files *)

Lemma tags_in_same_entry direc ff w w' station :
  listdir (fs w') direc !! ff = listdir (fs w) direc !! ff ->
  tags_in w' direc ff station = tags_in w direc ff station.
Proof. intros H. unfold tags_in, initial_asdf. rewrite H. reflexivity. Qed.

Lemma kept_refl w : waveforms_kept dc raw w w.
Proof. intros c1 c2 station. reflexivity. Qed.

Lemma kept_trans w1 w2 w3 :
  waveforms_kept dc raw w1 w2 -> waveforms_kept dc raw w2 w3 ->
  waveforms_kept dc raw w1 w3.
Proof.
  intros H12 H23 c1 c2 station. etransitivity; [apply H12 | apply H23].
Qed.

Lemma kept_same_entries w w' :
  (forall c1 c2, listdir (fs w') raw !! chunk_file dc c1 c2
                 = listdir (fs w) raw !! chunk_file dc c1 c2) ->
  waveforms_kept dc raw w w'.
Proof.
  intros H c1 c2 station.
  rewrite (tags_in_same_entry raw _ w w' station (H c1 c2)). reflexivity.
Qed.

Lemma kept_update ff f w :
  (forall ds station,
     get_waveform_tags ds station ⊆ get_waveform_tags (f ds) station) ->
  waveforms_kept dc raw w (update_asdf raw ff f w).
Proof.
  intros Hf c1 c2 station. unfold update_asdf.
  destruct (listdir (fs w) raw !! ff) as [[text|rows|ds|]|] eqn:E;
    try reflexivity.
  destruct (decide (chunk_file dc c1 c2 = ff)) as [->|Hne].
  - unfold tags_in, initial_asdf. cbn [set_fs fs].
    rewrite listdir_write_file, E. apply Hf.
  - rewrite (tags_in_same_entry raw _ w
               (set_fs (write_file raw ff (H5File (f ds))) w) station);
      [reflexivity|].
    cbn [set_fs fs]. apply listdir_write_file_ne. congruence.
Qed.

Lemma kept_create c1 c2 w :
  isfile (fs w) raw (chunk_file dc c1 c2) = false ->
  waveforms_kept dc raw w
    (set_fs (write_file raw (chunk_file dc c1 c2) (H5File empty_asdf)) w).
Proof.
  intros Hfile c1' c2' station.
  destruct (decide (chunk_file dc c1' c2' = chunk_file dc c1 c2)) as [->|Hne].
  - assert (Hempty : tags_in w raw (chunk_file dc c1 c2) station = ∅).
    { unfold tags_in, initial_asdf. unfold isfile in Hfile.
      destruct (listdir (fs w) raw !! chunk_file dc c1 c2) as [[]|];
        try discriminate; reflexivity. }
    rewrite Hempty. apply empty_subseteq.
  - rewrite (tags_in_same_entry raw _ w
               (set_fs (write_file raw (chunk_file dc c1 c2)
                                   (H5File empty_asdf)) w) station);
      [reflexivity|].
    cbn [set_fs fs]. apply listdir_write_file_ne. congruence.
Qed.

Lemma kept_write_record name e w :
  last_char name <> Some "5"%char ->
  waveforms_kept dc raw w (set_fs (write_file raw name e) w).
Proof.
  intros Hname. apply kept_same_entries. intros c1 c2. cbn [set_fs fs].
  apply listdir_write_file_ne. intros ->.
  apply Hname, chunk_file_ends_in_5.
Qed.

Lemma kept_mkdir dir w :
  dir = rootpath \/ dir = raw ->
  waveforms_kept dc raw w
    (set_fs (fun fs => if isdir fs dir then fs else mkdir dir fs) w).
Proof.
  intros Hdir. apply kept_same_entries. intros c1 c2. cbn [set_fs fs].
  destruct (isdir (fs w) dir) eqn:E; [reflexivity|].
  unfold mkdir, listdir. destruct Hdir as [-> | ->].
  - rewrite lookup_insert_ne by (apply not_eq_sym, raw_not_rootpath).
    reflexivity.
  - rewrite lookup_insert_eq. unfold isdir in E.
    apply bool_decide_eq_false in E.
    destruct (fs w !! raw) as [m|] eqn:Em; [|reflexivity].
    exfalso. apply E. eauto.
Qed.

Lemma kept_setup roster para starttime endtime inc_hours :
  keeps (waveforms_kept dc raw)
        (coordinator_setup rootpath raw roster para starttime endtime
                           inc_hours).
Proof.
  unfold coordinator_setup.
  apply keeps_bind; [exact kept_trans | | intros _].
  { intros w. apply kept_mkdir. auto. }
  apply keeps_bind; [exact kept_trans | | intros _].
  { intros w. apply kept_mkdir. auto. }
  apply keeps_bind; [exact kept_trans | | intros _].
  { intros w. apply kept_write_record. discriminate. }
  apply keeps_bind; [exact kept_trans | | intros _].
  { intros w. apply kept_write_record. discriminate. }
  apply keeps_bind; [exact kept_trans | | intros l].
  { apply keeps_lift. exact kept_refl. }
  destruct (length l <? 1)%nat;
    [apply keeps_raise | apply keeps_ret]; exact kept_refl.
Qed.

End DownloadInvariants.

(** X8. Whatever its outcome, on every worker, [download] creates, changes
    and removes no file outside the directory RAW_DATA of its working
    directory: elsewhere it makes directories at most. *)
Theorem download_writes_files_in_raw_data_only dc rank size rootpath chan_list
    sta_list start_date end_date inc_hours w :
  let w' := snd (download dc rank size rootpath chan_list sta_list start_date
                          end_date inc_hours w) in
  forall dir name,
    dir <> path_join rootpath "RAW_DATA" ->
    file_at (fs w') dir name = file_at (fs w) dir name.
Proof.
  apply (download_keeps dc rank rootpath
           (files_elsewhere_kept (path_join rootpath "RAW_DATA"))).
  - apply elsewhere_refl.
  - apply elsewhere_trans.
  - intros c w0 dir name _. reflexivity.
  - intros c1 c2 inv w0. apply elsewhere_update.
  - intros c1 c2 tn tag w0. apply elsewhere_update.
  - intros c1 c2 w0 _. apply elsewhere_write.
  - intros _ roster para starttime endtime inc. apply elsewhere_setup.
Qed.

Lemma download_writes_files_in_raw_data_only_witness :
  let w := {| fs := {[ "/home"%string :=
                         {[ "notes.txt"%string := TextFile "kept" ]} ]};
              remote_calls := []; stage_log := [] |} in
  let w' := snd (download Examples.dc_ok 0 1 "/data" ["BHZ"%string]
                          ["*"%string] [0] [86400] 24 w) in
  file_at (fs w') "/home" "notes.txt" = file_at (fs w) "/home" "notes.txt".
Proof.
  intros w w'.
  apply (download_writes_files_in_raw_data_only Examples.dc_ok 0 1 "/data"
           ["BHZ"%string] ["*"%string] [0] [86400] 24 w "/home" "notes.txt").
  discriminate.
Defined.

(** X9. Whatever its outcome -- also when it is ended by an exception in
    the middle of a chunk -- [download] removes no waveform from a chunk
    file of RAW_DATA: the tags a station has in a chunk file before the run
    are among those it has after it. *)
Theorem download_keeps_waveforms dc rank size rootpath chan_list sta_list
    start_date end_date inc_hours w :
  waveforms_kept dc (path_join rootpath "RAW_DATA") w
    (snd (download dc rank size rootpath chan_list sta_list start_date
                   end_date inc_hours w)).
Proof.
  apply (download_keeps dc rank rootpath
           (waveforms_kept dc (path_join rootpath "RAW_DATA"))).
  - apply kept_refl.
  - apply kept_trans.
  - intros c w0. apply kept_same_entries. reflexivity.
  - intros c1 c2 inv w0. apply kept_update. reflexivity.
  - intros c1 c2 tn tag w0. apply kept_update.
    intros ds station tg Htg. apply tags_add_waveforms. right. exact Htg.
  - intros c1 c2 w0. apply kept_create.
  - intros _ roster para starttime endtime inc. apply kept_setup.
Qed.

Section Records.

Local Open Scope string_scope.

Variables (dc : DataCentre) (rootpath name : string).
Hypothesis name_not_h5 : last_char name <> Some "5"%char.

Abbreviation raw_data := (path_join rootpath "RAW_DATA").

Lemma entry_refl w : same_entry raw_data name w w.
Proof. reflexivity. Qed.

Lemma entry_trans w1 w2 w3 :
  same_entry raw_data name w1 w2 -> same_entry raw_data name w2 w3 ->
  same_entry raw_data name w1 w3.
Proof. unfold same_entry. congruence. Qed.

Lemma entry_update c1 c2 f w :
  same_entry raw_data name w (update_asdf raw_data (chunk_file dc c1 c2) f w).
Proof.
  unfold update_asdf, same_entry.
  destruct (listdir (fs w) raw_data !! chunk_file dc c1 c2) as [[]|];
    try reflexivity.
  apply listdir_write_file_ne. intros <-.
  apply name_not_h5, chunk_file_ends_in_5.
Qed.

Lemma entry_create c1 c2 w :
  same_entry raw_data name w
    (set_fs (write_file raw_data (chunk_file dc c1 c2) (H5File empty_asdf)) w).
Proof.
  unfold same_entry. cbn [set_fs fs].
  apply listdir_write_file_ne. intros <-.
  apply name_not_h5, chunk_file_ends_in_5.
Qed.

End Records.

(** X10. Only the worker of rank 0 writes the records of the run: on every
    other worker [download] leaves [station.txt] and [download_info.txt]
    (and every entry of RAW_DATA whose name does not end like the name of a
    chunk file) as it found them. *)
Theorem other_workers_leave_records dc rank size rootpath chan_list sta_list
    start_date end_date inc_hours w :
  rank <> 0 ->
  let w' := snd (download dc rank size rootpath chan_list sta_list start_date
                          end_date inc_hours w) in
  let direc := path_join rootpath "RAW_DATA" in
  same_entry direc "station.txt" w w' /\
  same_entry direc "download_info.txt" w w' /\
  (forall name, last_char name <> Some "5"%char -> same_entry direc name w w').
Proof.
  intros Hrank w' direc.
  assert (H : forall name, last_char name <> Some "5"%char ->
                           same_entry direc name w w').
  { intros name Hname.
    apply (download_keeps dc rank rootpath (same_entry direc name)).
    - apply entry_refl.
    - apply entry_trans.
    - intros c w0. reflexivity.
    - intros c1 c2 inv w0. apply entry_update. exact Hname.
    - intros c1 c2 tn tag w0. apply entry_update. exact Hname.
    - intros c1 c2 w0 _. apply entry_create. exact Hname.
    - intros H0. contradiction. }
  split; [apply H; discriminate|]. split; [apply H; discriminate | exact H].
Qed.

Lemma other_workers_leave_records_witness :
  let w' := snd (download Examples.dc_ok 1 2 "/data" ["BHZ"%string]
                          ["*"%string] [0] [172800] 24 Examples.empty_world) in
  same_entry "/data/RAW_DATA" "station.txt" Examples.empty_world w' /\
  same_entry "/data/RAW_DATA" "download_info.txt" Examples.empty_world w' /\
  (forall name, last_char name <> Some "5"%char ->
                same_entry "/data/RAW_DATA" name Examples.empty_world w').
Proof.
  apply (other_workers_leave_records Examples.dc_ok 1 2 "/data"
           ["BHZ"%string] ["*"%string] [0] [172800] 24 Examples.empty_world).
  lia.
Defined.

Section FailFast.

Variable dc : DataCentre.

Lemma same_fs_refl w : same_fs w w.
Proof. reflexivity. Qed.

Lemma same_fs_trans w1 w2 w3 : same_fs w1 w2 -> same_fs w2 w3 -> same_fs w1 w3.
Proof. unfold same_fs. congruence. Qed.

Lemma gather_stations_fs sta_list chan_list t0 t1 w :
  fs (snd (gather_stations dc sta_list chan_list t0 t1 w)) = fs w.
Proof.
  apply (gather_stations_keeps dc same_fs same_fs_refl same_fs_trans).
  intros c w0. reflexivity.
Qed.

End FailFast.

(** X11. A refused request for the station list, a station without channel
    in an answer, or an estimate of the memory needs above the ceiling end
    [download] on every worker before it has created a directory or written
    a file: the exception is the outcome of the run and the file system is
    as it was. *)
Theorem download_fails_before_writing dc rank size rootpath chan_list sta_list
    starttime endtime inc_hours w :
  let gathered := gather_stations dc sta_list chan_list starttime endtime w in
  let run := download dc rank size rootpath chan_list sta_list [starttime]
                      [endtime] inc_hours w in
  (forall e, fst gathered = Raise e ->
             fst run = Raise e /\ fs (snd run) = fs w) /\
  (forall roster e,
     fst gathered = Return roster ->
     check_memory (Z.of_nat (length roster)) inc_hours = Raise e ->
     fst run = Raise e /\ fs (snd run) = fs w).
Proof.
  intros gathered run.
  pose proof (gather_stations_fs dc sta_list chan_list starttime endtime w)
    as Hfs. fold gathered in Hfs.
  assert (Hrun : run
                 = match gathered with
                   | (Return roster, w1) =>
                       match check_memory (Z.of_nat (length roster)) inc_hours with
                       | Raise e => (Raise e, w1)
                       | Return _ => run
                       end
                   | (Raise e, w1) => (Raise e, w1)
                   end).
  { subst run gathered. unfold download.
    change (lift (py_index [starttime] 0)) with (mret (M := Run World) starttime).
    change (lift (py_index [endtime] 0)) with (mret (M := Run World) endtime).
    rewrite !ret_bind_run, bind_run.
    destruct (gather_stations dc sta_list chan_list starttime endtime w)
      as [[roster|e] w1]; [|reflexivity].
    rewrite lift_bind_run.
    destruct (check_memory (Z.of_nat (length roster)) inc_hours);
      reflexivity. }
  destruct gathered as [[roster|e] w1]; cbn [fst snd] in *; split.
  - intros e [=].
  - intros roster' e [= <-] Hmem. rewrite Hmem in Hrun. rewrite Hrun. auto.
  - intros e' [= <-]. rewrite Hrun. auto.
  - intros roster e' [=].
Qed.

(** ** The record of a run, read back *)



(** ** The station list as a whole *)

Section StationList.

Local Open Scope string_scope.

Variable dc : DataCentre.
Variables starttime endtime : Z.

Lemma rows_of_stations_wf kcode ichan (l : list Station) rows :
  rows_of_stations kcode ichan l = Return rows ->
  Forall (fun r => chan r = ichan /\ location r <> "") rows.
Proof.
  revert rows. induction l as [|tsta l IH]; intros rows.
  - intros [= <-]. constructor.
  - cbn [rows_of_stations]. unfold first_location.
    destruct (sta_channels tsta) as [|c cs]; [discriminate|].
    cbn. destruct (rows_of_stations kcode ichan l) as [rows'|e]; [|discriminate].
    cbn. intros [= <-]. constructor; [|apply IH; reflexivity].
    cbn. split; [reflexivity|].
    destruct (String.eqb_spec (location_code c) ""); [discriminate | assumption].
Qed.

Lemma rows_of_inventory_wf ichan (inv : Inventory) rows :
  rows_of_inventory ichan inv = Return rows ->
  Forall (fun r => chan r = ichan /\ location r <> "") rows.
Proof.
  revert rows. induction inv as [|K inv IH]; intros rows.
  - intros [= <-]. constructor.
  - cbn [rows_of_inventory].
    destruct (rows_of_stations (net_code K) ichan (net_stations K))
      as [rowsK|e] eqn:EK; [|discriminate].
    cbn. destruct (rows_of_inventory ichan inv) as [rows'|e]; [|discriminate].
    cbn. intros [= <-]. apply Forall_app. split.
    + apply (rows_of_stations_wf _ _ _ _ EK).
    + apply IH. reflexivity.
Qed.

Lemma rows_of_inventory_raises ichan (inv : Inventory) e :
  rows_of_inventory ichan inv = Raise e -> e = IndexError.
Proof.
  induction inv as [|K inv IH]; [discriminate|].
  cbn [rows_of_inventory].
  destruct (rows_of_stations (net_code K) ichan (net_stations K))
    as [rowsK|e'] eqn:EK.
  - cbn. destruct (rows_of_inventory ichan inv) as [rows'|e'']; [discriminate|].
    cbn. intros [= <-]. apply IH. reflexivity.
  - cbn. intros [= <-]. apply (rows_of_stations_raises _ _ _ _ EK).
Qed.

Abbreviation station_query :=
  (fun (q : string * string * string) (rows : list Row) =>
     let '(inet, ista, ichan) := q in
     _ ← modify (log_call (GetStationsInBox inet ista ichan starttime endtime));
     match get_stations_in_box dc inet ista ichan starttime endtime with
     | None => raise SystemExit
     | Some inv =>
         new_rows ← lift (rows_of_inventory ichan inv);
         mret (rows ++ new_rows)%list
     end).
Abbreviation asked_of :=
  (fun q : string * string * string =>
     let '(inet, ista, ichan) := q in
     GetStationsInBox inet ista ichan starttime endtime).
Abbreviation answered :=
  (fun (q : string * string * string) (rows : list Row) =>
     let '(inet, ista, ichan) := q in
     exists inv,
       get_stations_in_box dc inet ista ichan starttime endtime = Some inv /\
       rows_of_inventory ichan inv = Return rows).

Lemma station_loop_returns (l : list (string * string * string)) rows w roster :
  fst (for_each station_query l rows w) = Return roster ->
  remote_calls (snd (for_each station_query l rows w))
  = (remote_calls w ++ map asked_of l)%list /\
  exists answers,
    Forall2 answered l answers /\ roster = (rows ++ concat answers)%list.
Proof.
  revert rows w. induction l as [|[[inet ista] ichan] l IH]; intros rows w.
  - cbn. intros [= <-]. split; [rewrite app_nil_r; reflexivity|].
    exists []. split; [constructor | rewrite app_nil_r; reflexivity].
  - rewrite for_each_cons. rewrite modify_bind_run.
    destruct (get_stations_in_box dc inet ista ichan starttime endtime)
      as [inv|] eqn:Einv; [|discriminate].
    rewrite lift_bind_run.
    destruct (rows_of_inventory ichan inv) as [new_rows|e] eqn:Erows;
      [|discriminate].
    cbn [mret run_ret]. intros Hrun.
    destruct (IH _ _ Hrun) as (Hcalls & answers & Hans & ->).
    split.
    + rewrite Hcalls. cbn [log_call remote_calls map].
      rewrite <- app_assoc. reflexivity.
    + exists (new_rows :: answers). split.
      * constructor; [|exact Hans]. exists inv. split; assumption.
      * cbn [concat]. rewrite <- app_assoc. reflexivity.
Qed.

Lemma station_loop_raises (l : list (string * string * string)) rows w e :
  fst (for_each station_query l rows w) = Raise e ->
  e = SystemExit \/ e = IndexError.
Proof.
  revert rows w. induction l as [|[[inet ista] ichan] l IH]; intros rows w.
  - discriminate.
  - rewrite for_each_cons. rewrite modify_bind_run.
    destruct (get_stations_in_box dc inet ista ichan starttime endtime)
      as [inv|] eqn:Einv; [|intros [= <-]; left; reflexivity].
    rewrite lift_bind_run.
    destruct (rows_of_inventory ichan inv) as [new_rows|e'] eqn:Erows.
    + cbn [mret run_ret]. apply IH.
    + intros [= <-]. right. apply (rows_of_inventory_raises _ _ _ Erows).
Qed.

End StationList.

(** X13. The station list [download] builds.  When the loop of lines
    140-172 ends, it has sent one request per station pattern and channel,
    in the order of the station patterns and, for each of them, of the
    channels; every request was answered, and the list is made of the
    entries of the answers, in the order of the requests, so that every
    entry has one of the channels asked for and a location code that is
    not empty.  The loop is ended by [SystemExit] or by [IndexError] only,
    and an unanswered request among the ones it has to send ends it. *)
Theorem station_list_spec dc sta_list chan_list starttime endtime w :
  let queries :=
    flat_map (fun inet =>
      flat_map (fun ista => map (fun ichan => (inet, ista, ichan)) chan_list)
               sta_list) net_list in
  let run := gather_stations dc sta_list chan_list starttime endtime w in
  (forall roster,
     fst run = Return roster ->
     remote_calls (snd run)
     = (remote_calls w
        ++ map (fun '(inet, ista, ichan) =>
                  GetStationsInBox inet ista ichan starttime endtime)
               queries)%list /\
     (exists answers,
        Forall2 (fun (q : string * string * string) rows =>
                   let '(inet, ista, ichan) := q in
                   exists inv,
                     get_stations_in_box dc inet ista ichan starttime endtime
                     = Some inv /\
                     rows_of_inventory ichan inv = Return rows)
                queries answers /\
        roster = concat answers) /\
     Forall (fun r => chan r ∈ chan_list /\ location r <> ""%string) roster) /\
  (forall e, fst run = Raise e -> e = SystemExit \/ e = IndexError) /\
  (forall inet ista ichan,
     inet ∈ net_list -> ista ∈ sta_list -> ichan ∈ chan_list ->
     get_stations_in_box dc inet ista ichan starttime endtime = None ->
     exists e, fst run = Raise e).
Proof.
  intros queries run.
  assert (Hret : forall roster, fst run = Return roster ->
            remote_calls (snd run)
            = (remote_calls w
               ++ map (fun '(inet, ista, ichan) =>
                         GetStationsInBox inet ista ichan starttime endtime)
                      queries)%list /\
            exists answers,
              Forall2 (fun (q : string * string * string) rows =>
                         let '(inet, ista, ichan) := q in
                         exists inv,
                           get_stations_in_box dc inet ista ichan starttime
                                               endtime = Some inv /\
                           rows_of_inventory ichan inv = Return rows)
                      queries answers /\
              roster = concat answers).
  { intros roster Hrun.
    apply (station_loop_returns dc starttime endtime queries [] w roster Hrun). }
  assert (Hchan : Forall (fun q : string * string * string => q.2 ∈ chan_list)
                         queries).
  { apply Forall_forall. intros [[inet ista] ichan] Hq. subst queries.
    apply list_elem_of_In, in_flat_map in Hq as (inet' & _ & Hq).
    apply in_flat_map in Hq as (ista' & _ & Hq).
    apply in_map_iff in Hq as (ichan' & [= _ _ <-] & Hq).
    apply list_elem_of_In. exact Hq. }
  split; [|split].
  - intros roster Hrun. destruct (Hret roster Hrun) as (Hcalls & answers & Hans & ->).
    split; [exact Hcalls|]. split; [exists answers; split; [exact Hans | reflexivity]|].
    clear Hcalls Hrun Hret. revert Hchan.
    induction Hans as [|[[inet ista] ichan] rows l answers (inv & _ & Hrows) _ IH];
      intros Hchan; [constructor|].
    inversion Hchan as [|? ? Hin Hrest]; subst. cbn [concat].
    apply Forall_app. split; [|apply IH, Hrest].
    eapply Forall_impl; [apply (rows_of_inventory_wf _ _ _ Hrows)|].
    cbn. intros r [-> Hloc]. split; assumption.
  - intros e. apply (station_loop_raises dc starttime endtime queries [] w e).
  - intros inet ista ichan Hnet Hsta Hch Hnone.
    destruct (fst run) as [roster|e] eqn:Hrun; [|exists e; reflexivity].
    exfalso. destruct (Hret roster eq_refl) as (_ & answers & Hans & _).
    assert (Hq : (inet, ista, ichan) ∈ queries).
    { subst queries. apply list_elem_of_In, in_flat_map. exists inet.
      split; [apply list_elem_of_In, Hnet|].
      apply in_flat_map. exists ista. split; [apply list_elem_of_In, Hsta|].
      apply in_map, list_elem_of_In, Hch. }
    clear Hrun Hret Hchan. induction Hans as [|[[i1 i2] i3] rows l answers (inv & Hinv & _) _ IH].
    + inversion Hq.
    + apply elem_of_cons in Hq as [[= <- <- <-]|Hq]; [congruence | apply IH, Hq].
Qed.

(** ** Running a chunk again *)

(** X14. A chunk that has gone well is not fetched again.  When the file of
    the chunk holds no waveform of the stations of the list, every entry
    of the list ends with its waveform stored, and the entries of each
    station carry [ncomp] different tags, then a second pass over the
    chunk -- in the world the first one has left -- sends no request,
    leaves [new_tags] as it is and changes nothing. *)
Theorem chunk_rerun_changes_nothing dc direc roster ncomp para c1 c2 nt0 nt w :
  let ff := chunk_file dc c1 c2 in
  let w1 := snd (process_chunk dc direc roster ncomp para c1 c2 nt0 w) in
  ncomp < 32768 ->
  chunk_openable w direc ff ->
  (forall r, r ∈ roster ->
     tags_in w direc ff (tname r) = ∅ /\
     row_fate dc direc ncomp para c1 c2 w r = Stored /\
     Z.of_nat (size (list_to_set (C := gset string)
                       (map waveform_tag
                            (filter (fun r' => tname r' = tname r) roster))))
     = ncomp) ->
  process_chunk dc direc roster ncomp para c1 c2 nt w1 = (Return nt, w1).
Proof.
  intros ff w1 Hncomp Hopen Hrows.
  destruct (process_chunk_spec dc direc roster ncomp para c1 c2 nt0 w Hopen)
    as (_ & [ds1 Hfile1] & _ & Htags).
  { apply clean_without_empty. intros Hin.
    apply list_elem_of_fmap in Hin as (r & Hf & Hin).
    destruct (Hrows r Hin) as (_ & Hst & _). congruence. }
  fold w1 in Hfile1, Htags. fold ff in Hfile1, Htags.
  assert (Hds : initial_asdf w1 direc ff = ds1)
    by (unfold initial_asdf; rewrite Hfile1; reflexivity).
  assert (Hfull : forall row, row ∈ roster ->
            Z.of_nat (size (get_waveform_tags ds1 (tname row))) = ncomp).
  { intros row Hrow. destruct (Hrows row Hrow) as (Hempty & _ & Hsize).
    rewrite <- Hsize. f_equal. f_equal. apply set_eq. intros tag.
    specialize (Htags (tname row) tag). unfold tags_in in Htags at 1.
    rewrite Hds in Htags. rewrite Htags, Hempty.
    rewrite elem_of_list_to_set, list_elem_of_fmap. split.
    - intros [Hin|(r & Hr & _ & Hname & Htag)]; [set_solver|].
      exists r. split; [symmetry; exact Htag|].
      apply list_elem_of_filter. split; assumption.
    - intros (r & -> & Hr). apply list_elem_of_filter in Hr as [Hname Hr].
      right. exists r. destruct (Hrows r Hr) as (_ & Hst & _). auto. }
  assert (Hopen1 : chunk_openable w1 direc ff)
    by (unfold chunk_openable; rewrite Hfile1; exact I).
  assert (Hh5 : is_h5 w1 direc ff) by (exists ds1; exact Hfile1).
  destruct (process_chunk_unfold dc direc roster ncomp para c1 c2 nt w1 Hopen1)
    as (w0 & -> & Hfile0 & _ & Hsame).
  rewrite (Hsame Hh5) in *. fold ff. rewrite Hds in *.
  assert (Hfates : forall e,
             e ∈ map (fun row => (row, count_records ds1 row)) roster ->
             fate dc ncomp para c1 c2 e = Skipped).
  { intros e Hin. apply list_elem_of_fmap in Hin as (row & -> & Hrow).
    apply full_station_skipped; [exact Hncomp | apply Hfull, Hrow]. }
  destruct (station_loop_spec dc direc ff ncomp para c1 c2
              (map (fun row => (row, count_records ds1 row)) roster)
              nt w1 ds1 Hfile1)
    as (_ & ds' & calls & _ & _ & _ & _ & Hskip).
  - apply clean_without_empty. intros Hin.
    apply list_elem_of_fmap in Hin as (e & Hf & Hin).
    rewrite (Hfates e Hin) in Hf. discriminate.
  - apply Hskip. exact Hfates.
Qed.

Lemma chunk_rerun_changes_nothing_witness :
  let roster := [Examples.row "RPV" "BHZ"; Examples.row "PASC" "BHZ"] in
  let w1 := snd (process_chunk Examples.dc_ok "/data/RAW_DATA" roster 1 []
                               0 86400 None Examples.empty_world) in
  process_chunk Examples.dc_ok "/data/RAW_DATA" roster 1 [] 0 86400
                (Some "bhz_00"%string) w1
  = (Return (Some "bhz_00"%string), w1).
Proof.
  intros roster w1.
  apply (chunk_rerun_changes_nothing Examples.dc_ok "/data/RAW_DATA" roster 1
           [] 0 86400 None (Some "bhz_00"%string) Examples.empty_world).
  - lia.
  - vm_compute. exact I.
  - intros r Hr. subst roster.
    apply elem_of_cons in Hr as [->|Hr];
      [|apply list_elem_of_singleton in Hr as ->];
      (split; [|split]; vm_compute; reflexivity).
Defined.
